(** * NewtonBotics server: the authentication and authorization core

    A shallow embedding of [src/routes/auth.js], [src/middleware/auth.js],
    [src/middleware/errorHandler.js], [src/services/emailService.js] and of
    the hooks of [src/models/User.js], with the properties the specification
    states about them.

    Conventions.
    - The wall clock is read in whole seconds ([now : Z]), the unit of the
      [iat] and [exp] claims of jsonwebtoken and of the TTL of Redis [SETEX].
    - A compact JWS is a symbolic term ([Token]): the claims together with the
      key that produced the signature; [token_bytes] is its text.
    - A bcrypt hash is a symbolic term ([BcryptOf]): its salt and the bytes
      that were hashed.  bcryptjs appends a NUL byte to its input and reads
      72 bytes of the result, starting over at its end, so [bcrypt.compare]
      succeeds exactly on the inputs that give the same 72 bytes as the
      hashed one.
    - A string is the sequence of its bytes; the built-ins of JavaScript and
      the lengths the validators count are those of ASCII text.
    - Everything a handler draws from the environment (fresh ObjectId, salts)
      is an explicit argument ([Rand]). *)

From Stdlib Require Import ZArith Ascii String List Bool Lia.
From stdpp Require Import base option countable gmap strings list pretty.

Import ListNotations.
Open Scope string_scope.
Open Scope list_scope.
Open Scope Z_scope.

(** ** JavaScript built-ins used by the handlers *)

Module Js.

(** [String.prototype.toLowerCase], on the ASCII range. *)
Definition lower_ascii (c : ascii) : ascii :=
  let n := N_of_ascii c in
  if ((65 <=? n) && (n <=? 90))%N then ascii_of_N (n + 32) else c.

Fixpoint toLowerCase (s : string) : string :=
  match s with
  | EmptyString => EmptyString
  | String c r => String (lower_ascii c) (toLowerCase r)
  end.

(** [s.startsWith(p)]. *)
Fixpoint startsWith (p s : string) : bool :=
  match p, s with
  | EmptyString, _ => true
  | String a p', String b s' => bool_decide (a = b) && startsWith p' s'
  | String _ _, EmptyString => false
  end.

(** [s.substring(n)] for [n >= 0]. *)
Fixpoint substring_from (n : nat) (s : string) : string :=
  match n, s with
  | O, _ => s
  | S n', String _ r => substring_from n' r
  | S _, EmptyString => EmptyString
  end.

(** [s.substring(0, n)]. *)
Fixpoint take (n : nat) (s : string) : string :=
  match n, s with
  | S n', String c r => String c (take n' r)
  | _, _ => EmptyString
  end.

(** [s.includes(p)]. *)
Fixpoint includes (p s : string) : bool :=
  startsWith p s ||
  match s with
  | EmptyString => false
  | String _ r => includes p r
  end.

(** [xs.join(sep)]. *)
Fixpoint join (sep : string) (xs : list string) : string :=
  match xs with
  | [] => ""
  | [x] => x
  | x :: r => x +:+ sep +:+ join sep r
  end.

(** Truthiness of a string value: only [""] is falsy. *)
Definition truthy (s : string) : bool := negb (bool_decide (s = "")).

Definition is_space (c : ascii) : bool :=
  let n := N_of_ascii c in
  ((n =? 32) || ((9 <=? n) && (n <=? 13)))%N.

Fixpoint skip_spaces (s : string) : string :=
  match s with
  | String c r => if is_space c then skip_spaces r else s
  | EmptyString => s
  end.

Fixpoint trimEnd (s : string) : string :=
  match s with
  | EmptyString => EmptyString
  | String c r =>
      let r' := trimEnd r in
      if is_space c && bool_decide (r' = EmptyString) then EmptyString else String c r'
  end.

(** [s.trim()]. *)
Definition trim (s : string) : string := trimEnd (skip_spaces s).

(** [xs.includes(x)] on an array of strings. *)
Definition array_includes (x : string) (xs : list string) : bool :=
  bool_decide (x ∈ xs).

Definition digit_value (radix : Z) (c : ascii) : option Z :=
  let n := Z.of_N (N_of_ascii c) in
  let v := if (48 <=? n) && (n <=? 57) then Some (n - 48)
           else if (97 <=? n) && (n <=? 122) then Some (n - 87)
           else if (65 <=? n) && (n <=? 90) then Some (n - 55)
           else None in
  match v with
  | Some d => if d <? radix then Some d else None
  | None => None
  end.

(** The longest prefix of digits, read in [radix]; [None] when it is empty. *)
Fixpoint digits (radix : Z) (acc : option Z) (s : string) : option Z :=
  match s with
  | EmptyString => acc
  | String c r =>
      match digit_value radix c with
      | Some d => digits radix (Some (radix * default 0 acc + d)) r
      | None => acc
      end
  end.

(** [parseInt(s)] without a radix argument: leading white space, an
    optional sign, an optional [0x] prefix, then the longest run of digits.
    [None] is [NaN].  (Values are exact integers; the rounding of doubles
    above 2^53 is not modelled.) *)
Definition parseInt (s : string) : option Z :=
  let s := skip_spaces s in
  let '(sign, s) :=
    match s with
    | String "-" r => (-1, r)
    | String "+" r => (1, r)
    | _ => (1, s)
    end in
  let '(radix, s) :=
    match s with
    | String "0" (String "x" r) => (16, r)
    | String "0" (String "X" r) => (16, r)
    | _ => (10, s)
    end in
  match digits radix None s with
  | Some n => Some (sign * n)
  | None => None
  end.

(** [parseInt(process.env.X) || d]: an unset variable reads as
    [undefined], which parses to [NaN]; [NaN] and [0] are falsy. *)
Definition parseInt_or (v : option string) (d : Z) : Z :=
  match v with
  | Some s =>
      match parseInt s with
      | Some n => if n =? 0 then d else n
      | None => d
      end
  | None => d
  end.

(** [v || d] on an optional string. *)
Definition str_or (v : option string) (d : string) : string :=
  match v with
  | Some s => if truthy s then s else d
  | None => d
  end.

End Js.

(** ** Errors and responses ([src/middleware/errorHandler.js]) *)

(** A thrown JavaScript error: its [name], the [statusCode] an [ApiError]
    carries, the key of a MongoDB duplicate-key error ([code === 11000]), the
    messages of a Mongoose [ValidationError], its [message], a [code] that is
    a string (as multer's) and its [status] (as a rate limiter's). *)
Record JsError := mkError {
  err_name : string;
  err_statusCode : option Z;
  err_dupKey : option string;
  err_errors : list string;
  err_message : string;
  err_code : option string;
  err_status : option Z
}.

(** [new ApiError(statusCode, message)]. *)
Definition ApiError (statusCode : Z) (message : string) : JsError :=
  mkError "Error" (Some statusCode) None [] message None None.

(** [new Error(message)]. *)
Definition Error (message : string) : JsError :=
  mkError "Error" None None [] message None None.

Definition JsonWebTokenError (message : string) : JsError :=
  mkError "JsonWebTokenError" None None [] message None None.

Definition TokenExpiredError : JsError :=
  mkError "TokenExpiredError" None None [] "jwt expired" None None.

(** A MongoDB duplicate-key error on [field]. *)
Definition DuplicateKeyError (field : string) : JsError :=
  mkError "MongoServerError" None (Some field) [] "E11000 duplicate key error" None None.

(** A Mongoose validation error with the messages of the failed paths. *)
Definition MongooseValidationError (msgs : list string) : JsError :=
  mkError "ValidationError" None None msgs "Validation failed" None None.

Definition validationErrorHandler (msgs : list string) : JsError :=
  ApiError 400 (Js.join ", " msgs).

Definition authorizationErrorHandler (message : string) : JsError :=
  ApiError 403 message.

Definition authenticationErrorHandler (message : string) : JsError :=
  ApiError 401 message.

Definition authenticationErrorHandler_default : JsError :=
  authenticationErrorHandler "Authentication required. Please log in.".

Definition notFoundErrorHandler (resource : string) : JsError :=
  ApiError 404 (resource +:+ " not found").

Definition conflictErrorHandler (message : string) : JsError :=
  ApiError 409 message.

(** What a handler does: it returns a value or throws. *)
Inductive Outcome (A : Type) : Type :=
  | Returned (a : A)
  | Threw (e : JsError).
Arguments Returned {A} a.
Arguments Threw {A} e.

(** What the client receives: the JSON a handler sent with its status, the
    error document of [errorHandler] ([success: false] and the message), or
    what comes of an error document sent with a status that is not one of an
    error ([Irregular], see [sends_document]). *)
Inductive Response (B : Type) : Type :=
  | Json (status : Z) (body : B)
  | Failure (status : Z) (message : string)
  | Irregular (status : Z).
Arguments Json {B} status body.
Arguments Failure {B} status message.
Arguments Irregular {B} status.

(** [res.status(statusCode).json(document)] puts the document on the wire
    with that status for the statuses 300 to 999, 304 apart.  For the others
    the answer depends on Node, on the version of Express and on the
    request, and is not modelled: Node refuses a status outside 100..999
    (the exception ends in the error page of Express), no body goes out with
    an informational status, 204 or 304, and a 2xx answer to a conditional
    GET is turned into 304. *)
Definition sends_document (statusCode : Z) : bool :=
  (300 <=? statusCode) && (statusCode <=? 999) && negb (statusCode =? 304).

(** [errorHandler]: the tests are a sequence of [if]s, a later one overrides
    an earlier one; the status is [error.statusCode || 500].  (The stack is
    only added when [NODE_ENV] is [development].) *)
Definition errorHandler {B : Type} (err : JsError) : Response B :=
  let error := (err_statusCode err, err_message err) in
  let error :=
    if bool_decide (err_name err = "CastError")
    then (Some 404, "Resource not found") else error in
  let error :=
    match err_dupKey err with
    | Some field =>
        (Some 409, "Duplicate field value: " +:+ field +:+ ". Please use another value.")
    | None => error
    end in
  let error :=
    if bool_decide (err_name err = "ValidationError")
    then (Some 400, Js.join ", " (err_errors err)) else error in
  let error :=
    if bool_decide (err_name err = "JsonWebTokenError")
    then (Some 401, "Invalid token. Please log in again.") else error in
  let error :=
    if bool_decide (err_name err = "TokenExpiredError")
    then (Some 401, "Token expired. Please log in again.") else error in
  let error :=
    if bool_decide (err_code err = Some "LIMIT_FILE_SIZE")
    then (Some 400, "File too large. Please upload a smaller file.") else error in
  let error :=
    if bool_decide (err_code err = Some "LIMIT_UNEXPECTED_FILE")
    then (Some 400, "Unexpected file field.") else error in
  let error :=
    if bool_decide (err_status err = Some 429)
    then (Some 429, "Too many requests. Please try again later.") else error in
  let error :=
    if Js.truthy (err_message err) && Js.includes "Authentication error" (err_message err)
    then (Some 401, "Socket authentication failed.") else error in
  let statusCode :=
    match fst error with
    | Some n => if n =? 0 then 500 else n
    | None => 500
    end in
  let message := if Js.truthy (snd error) then snd error else "Internal Server Error" in
  if sends_document statusCode then Failure statusCode message else Irregular statusCode.

(** [asyncHandler(fn)] followed by the application's error middleware. *)
Definition asyncHandler {B : Type} (r : Outcome (Response B)) : Response B :=
  match r with
  | Returned res => res
  | Threw e => errorHandler e
  end.

(** A response is a success when the handler sent its JSON document (every
    document the handlers send carries [success: true]). *)
Definition is_success {B : Type} (r : Response B) : bool :=
  match r with
  | Json _ _ => true
  | Failure _ _ => false
  | Irregular _ => false
  end.

(** ** Configuration *)

(** The mail transport of [getTransporter]: [createTransport] threw (no
    transport, the mail is only logged), or a transport whose [sendMail]
    resolves ([true]) or rejects ([false]) for a given recipient. *)
Inductive Smtp :=
  | NoTransport
  | Transport (sendMail : string -> bool).

(** [process.env], the module-level mail transport, and whether the
    module-level Redis client is connected ([redisClient && isConnected] in
    [src/config/redis.js]; the server starts and keeps running without a
    connection). *)
Record Env := mkEnv {
  REDIS_ENABLED : option string;
  JWT_SECRET : option string;
  JWT_EXPIRES_IN : option string;
  JWT_REFRESH_EXPIRES_IN : option string;
  BCRYPT_ROUNDS : option string;
  smtp : Smtp;
  redisConnected : bool
}.

Definition isRedisEnabled (env : Env) : bool :=
  bool_decide (REDIS_ENABLED env = Some "true").

(** [getRedisClient()]. *)
Definition getRedisClient (env : Env) : Outcome unit :=
  if redisConnected env then Returned tt
  else Threw (Error "Redis client not connected").

(** ** jsonwebtoken *)

Definition ObjectId := string.

(** The payload given to [jwt.sign].  Access tokens carry [email], [role]
    and [permissions]; refresh and reset tokens carry [type]. *)
Record Payload := mkPayload {
  sub : ObjectId;
  p_email : option string;
  p_role : option string;
  p_permissions : option (list string);
  p_type : option string
}.

(** The claims of a signed token: the payload, [iat] and [exp]. *)
Record Claims := mkClaims {
  payload : Payload;
  iat : Z;
  exp : option Z
}.

(** A token string: a compact JWS signed (HS256) with [key], or any other
    string. *)
Inductive Token :=
  | Jws (c : Claims) (key : string)
  | Junk (s : string).

Global Instance Payload_eq_dec : EqDecision Payload.
Proof. solve_decision. Defined.

Global Instance Claims_eq_dec : EqDecision Claims.
Proof. solve_decision. Defined.

Global Instance Token_eq_dec : EqDecision Token.
Proof. solve_decision. Defined.

Global Instance Payload_countable : Countable Payload.
Proof.
  refine (inj_countable'
            (fun p => (sub p, p_email p, p_role p, p_permissions p, p_type p))
            (fun '(a, b, c, d, e) => mkPayload a b c d e) _).
  by intros [].
Defined.

Global Instance Claims_countable : Countable Claims.
Proof.
  refine (inj_countable'
            (fun c => (payload c, iat c, exp c))
            (fun '(a, b, c) => mkClaims a b c) _).
  by intros [].
Defined.

Global Instance Token_countable : Countable Token.
Proof.
  refine (inj_countable'
            (fun t => match t with Jws c k => inl (c, k) | Junk s => inr s end)
            (fun x => match x with inl (c, k) => Jws c k | inr s => Junk s end) _).
  by intros [].
Defined.

(** Truthiness of a token string. *)
Definition token_truthy (t : Token) : bool :=
  match t with
  | Jws _ _ => true
  | Junk s => Js.truthy s
  end.

(** The parts of the libraries the repository calls but does not contain:
    - [timespan]: how jsonwebtoken reads an [expiresIn] string, in seconds
      ([None]: it is no time span and [jwt.sign] throws);
    - [token_bytes]: the text of a token, for a compact JWS
      [base64url(header).base64url(payload).signature];
    - [isEmail], [normalizeEmail]: validator.js;
    - [regex_test pattern s]: whether the regular expression matches [s]. *)
Class Externals := {
  timespan : string -> option Z;
  token_bytes : Token -> string;
  isEmail : string -> bool;
  normalizeEmail : string -> string;
  regex_test : string -> string -> bool
}.

(** [jwt.sign(payload, secret, { expiresIn })] at clock reading [now]: the
    library adds [iat] and [exp]; the signature is a function of the payload
    and the key. *)
Definition jwt_sign `{Externals} (p : Payload) (secret : option string)
    (expiresIn : string) (now : Z) : Outcome Token :=
  match secret with
  | Some key =>
      if Js.truthy key then
        match timespan expiresIn with
        | Some d =>
            Returned (Jws (mkClaims p now (Some (now + d))) key)
        | None =>
            Threw (Error "expiresIn should be a number of seconds or string representing a timespan")
        end
      else Threw (Error "secretOrPrivateKey must have a value")
  | None => Threw (Error "secretOrPrivateKey must have a value")
  end.

(** [jwt.verify(token, secret)] at clock reading [now]. *)
Definition jwt_verify (t : Token) (secret : option string) (now : Z) : Outcome Claims :=
  match t with
  | Junk _ => Threw (JsonWebTokenError "jwt malformed")
  | Jws c key =>
      match secret with
      | Some k =>
          if Js.truthy k then
            if bool_decide (key = k) then
              match exp c with
              | Some e => if e <=? now then Threw TokenExpiredError else Returned c
              | None => Returned c
              end
            else Threw (JsonWebTokenError "invalid signature")
          else Threw (JsonWebTokenError "secret or public key must be provided")
      | None => Threw (JsonWebTokenError "secret or public key must be provided")
      end
  end.

(** ** bcryptjs *)

(** [n] bytes of [key] read from [rest] on, starting over at the end of the
    key. *)
Fixpoint key_stream (n : nat) (key rest : string) : string :=
  match n with
  | O => EmptyString
  | S n' =>
      match rest with
      | String c r => String c (key_stream n' key r)
      | EmptyString =>
          match key with
          | String c r => String c (key_stream n' key r)
          | EmptyString => EmptyString
          end
      end
  end.

(** What bcryptjs reads of its input: the key is the input followed by a
    NUL byte, and the key schedule reads 72 bytes of it, starting over at
    its end.  Of an input of 72 bytes or more these are the first 72. *)
Definition bcrypt_input (s : string) : string :=
  let key := s +:+ String Ascii.zero EmptyString in
  key_stream 72 key key.

(** A string that is a raw value, or a bcrypt hash: its salt and the bytes
    that were hashed. *)
Inductive Hashed (A : Type) : Type :=
  | Raw (a : A)
  | BcryptOf (salt : string) (input : string).
Arguments Raw {A} a.
Arguments BcryptOf {A} salt input.

Global Instance Hashed_eq_dec {A : Type} `{EqDecision A} : EqDecision (Hashed A).
Proof. solve_decision. Defined.

(** The text of such a string, given the text of a raw value.  The text of
    a hash is determined by its salt and the bytes hashed. *)
Definition hashed_text {A : Type} (bytes : A -> string) (x : Hashed A) : string :=
  match x with
  | Raw a => bytes a
  | BcryptOf salt input => "$2a$" +:+ salt +:+ "$" +:+ input
  end.

(** [bcrypt.hash(x, salt)]. *)
Definition bcrypt_hash {A : Type} (bytes : A -> string) (x : Hashed A) (salt : string)
    : Hashed A :=
  BcryptOf salt (bcrypt_input (hashed_text bytes x)).

(** [bcrypt.compare(x, h)]: true exactly when [h] is a hash and [x] gives
    the bytes bcrypt read of the hashed input. *)
Definition bcrypt_compare {A : Type} (bytes : A -> string) (x h : Hashed A) : bool :=
  match h with
  | BcryptOf _ input => bool_decide (bcrypt_input (hashed_text bytes x) = input)
  | Raw _ => false
  end.

(** ** The Session Store (Redis) *)

(** The keys the handlers use: [refresh_token:<id>], [blacklist:<token>] and
    [password_reset:<id>]. *)
Inductive RedisKey :=
  | refresh_token (id : ObjectId)
  | blacklist (t : Token)
  | password_reset (id : ObjectId).

Global Instance RedisKey_eq_dec : EqDecision RedisKey.
Proof. solve_decision. Defined.

Global Instance RedisKey_countable : Countable RedisKey.
Proof.
  refine (inj_countable'
            (fun k => match k with
                      | refresh_token i => inl (inl i)
                      | blacklist t => inl (inr t)
                      | password_reset i => inr i
                      end)
            (fun x => match x with
                      | inl (inl i) => refresh_token i
                      | inl (inr t) => blacklist t
                      | inr i => password_reset i
                      end) _).
  by intros [].
Defined.

(** The values the handlers store: the bcrypt hash of a token, or a plain
    string such as ['revoked']. *)
Definition RedisValue := Hashed Token.

Definition value_truthy (v : RedisValue) : bool :=
  match v with
  | Raw t => token_truthy t
  | BcryptOf _ _ => true
  end.

(** A stored value and the clock reading at which it expires. *)
Record RedisEntry := mkEntry {
  entry_value : RedisValue;
  entry_expires : Z
}.

Module Redis.

(** [GET key] at clock reading [now]. *)
Definition get (store : gmap RedisKey RedisEntry) (now : Z) (key : RedisKey)
    : option RedisValue :=
  match store !! key with
  | Some e => if now <? entry_expires e then Some (entry_value e) else None
  | None => None
  end.

(** [SETEX key ttl value]: Redis refuses a time to live that is not
    positive. *)
Definition setEx (store : gmap RedisKey RedisEntry) (now : Z) (key : RedisKey)
    (ttl : Z) (value : RedisValue) : Outcome (gmap RedisKey RedisEntry) :=
  if 0 <? ttl
  then Returned (<[key := mkEntry value (now + ttl)]> store)
  else Threw (Error "ERR invalid expire time in 'setex' command").

(** [DEL key]. *)
Definition del (store : gmap RedisKey RedisEntry) (key : RedisKey)
    : gmap RedisKey RedisEntry :=
  delete key store.

End Redis.

(** ** The models ([src/models/User.js], [src/models/RoleApproval.js]) *)

Module User.

Record t := mk {
  _id : ObjectId;
  email : string;
  passwordHash : Hashed string;
  firstName : string;
  lastName : string;
  role : string;
  studentId : option string;
  department : option string;
  yearOfStudy : option Z;
  phone : option string;
  isActive : bool;
  emailVerified : bool;
  lastLogin : option Z;
  permissions : list string
}.

Definition set_passwordHash (h : Hashed string) (u : t) : t :=
  mk (_id u) (email u) h (firstName u) (lastName u) (role u) (studentId u)
     (department u) (yearOfStudy u) (phone u) (isActive u) (emailVerified u)
     (lastLogin u) (permissions u).

Definition set_permissions (ps : list string) (u : t) : t :=
  mk (_id u) (email u) (passwordHash u) (firstName u) (lastName u) (role u)
     (studentId u) (department u) (yearOfStudy u) (phone u) (isActive u)
     (emailVerified u) (lastLogin u) ps.

Definition set_lastLogin (d : Z) (u : t) : t :=
  mk (_id u) (email u) (passwordHash u) (firstName u) (lastName u) (role u)
     (studentId u) (department u) (yearOfStudy u) (phone u) (isActive u)
     (emailVerified u) (Some d) (permissions u).

Definition set_isActive (b : bool) (u : t) : t :=
mk (_id u) (email u) (passwordHash u) (firstName u) (lastName u) (role u)
   (studentId u) (department u) (yearOfStudy u) (phone u) b (emailVerified u)
   (lastLogin u) (permissions u).

(** The values of the [role] enum. *)
Definition roles : list string :=
  ["student"; "team_member"; "mentor"; "researcher"; "community"; "admin"].

(** The values of the [permissions] enum. *)
Definition permission_values : list string :=
  ["read:projects"; "write:projects"; "delete:projects"; "manage:projects";
   "read:workshops"; "write:workshops"; "delete:workshops";
   "read:events"; "write:events"; "delete:events";
   "read:inventory"; "write:inventory"; "delete:inventory"; "manage:inventory";
   "read:requests"; "write:requests"; "approve:requests";
   "read:news"; "write:news"; "delete:news";
   "read:media"; "write:media"; "delete:media";
   "read:users"; "write:users"; "delete:users";
   "manage:finance";
   "manage:system"; "system:admin"].

(** The table of [getDefaultPermissions]. *)
Definition rolePermissions : list (string * list string) :=
  [("student",
    ["read:projects"; "read:workshops"; "read:events"; "read:inventory";
     "read:news"; "read:media"]);
   ("team_member",
    ["read:projects"; "write:projects"; "read:workshops"; "read:events";
     "read:inventory"; "read:news"; "read:media"]);
   ("mentor",
    ["read:projects"; "write:projects"; "delete:projects"; "read:workshops";
     "write:workshops"; "read:events"; "write:events"; "read:inventory";
     "write:inventory"; "read:requests"; "approve:requests"; "read:news";
     "write:news"; "read:media"; "write:media"]);
   ("researcher",
    ["read:projects"; "write:projects"; "delete:projects"; "read:workshops";
     "write:workshops"; "delete:workshops"; "read:events"; "write:events";
     "delete:events"; "read:inventory"; "write:inventory"; "delete:inventory";
     "read:requests"; "write:requests"; "approve:requests"; "read:news";
     "write:news"; "delete:news"; "read:media"; "write:media"; "delete:media"]);
   ("community",
    ["read:projects"; "read:workshops"; "read:events"; "read:news"; "read:media"]);
   ("admin",
    ["read:projects"; "write:projects"; "delete:projects"; "manage:projects";
     "read:workshops"; "write:workshops"; "delete:workshops"; "read:events";
     "write:events"; "delete:events"; "read:inventory"; "write:inventory";
     "delete:inventory"; "manage:inventory"; "read:requests"; "write:requests";
     "approve:requests"; "read:news"; "write:news"; "delete:news"; "read:media";
     "write:media"; "delete:media"; "read:users"; "write:users"; "delete:users";
     "manage:finance"; "manage:system"; "system:admin"])].

Fixpoint table_lookup (k : string) (tbl : list (string * list string))
    : option (list string) :=
  match tbl with
  | [] => None
  | (k', v) :: r => if bool_decide (k = k') then Some v else table_lookup k r
  end.

(** [getDefaultPermissions]: [rolePermissions[this.role] || []]. *)
Definition getDefaultPermissions (u : t) : list string :=
  default [] (table_lookup (role u) rolePermissions).

(** [this.isModified(path)], on the list of the paths set since the
    document was loaded or created. *)
Definition isModified (path : string) (modified : list string) : bool :=
  bool_decide (path ∈ modified).

(** Pre-save hook: hash the password when it was set. *)
Definition hashPasswordHook (modified : list string) (salt : string) (u : t) : t :=
  if negb (isModified "passwordHash" modified) then u
  else set_passwordHash (bcrypt_hash id (passwordHash u) salt) u.

(** Pre-save hook: default permissions from the role. *)
Definition defaultPermissionsHook (modified : list string) (u : t) : t :=
  if isModified "role" modified && (length (permissions u) =? 0)%nat
  then set_permissions (getDefaultPermissions u) u
  else u.

(** [comparePassword]. *)
Definition comparePassword (u : t) (candidatePassword : string) : bool :=
  bcrypt_compare id (Raw candidatePassword) (passwordHash u).

(** The schema's validators on the paths the handlers set; Mongoose runs
    them before the pre-save hooks, on the modified paths. *)
Definition validate `{Externals} (modified : list string) (u : t) : list string :=
  let check (path : string) (ok : bool) (msg : string) :=
    if isModified path modified && negb ok then [msg] else [] in
  let opt_ok (v : option string) (f : string -> bool) :=
    match v with Some x => f x | None => true end in
  check "email" (Js.truthy (email u)) "Email is required"
  ++ check "email" (String.length (email u) <=? 255)%nat "Email cannot exceed 255 characters"
  ++ check "email" (regex_test "^[^\s@]+@[^\s@]+\.[^\s@]+$" (email u))
       "Please provide a valid email address"
  ++ check "passwordHash"
       (match passwordHash u with Raw p => Js.truthy p | BcryptOf _ _ => true end)
       "Password is required"
  ++ check "passwordHash"
       (match passwordHash u with Raw p => (8 <=? String.length p)%nat | BcryptOf _ _ => true end)
       "Password must be at least 8 characters long"
  ++ check "firstName" (Js.truthy (firstName u)) "First name is required"
  ++ check "firstName" (String.length (firstName u) <=? 100)%nat
       "First name cannot exceed 100 characters"
  ++ check "firstName" (regex_test "^[a-zA-Z\s\-']+$" (firstName u))
       "First name can only contain letters, spaces, hyphens, and apostrophes"
  ++ check "lastName" (Js.truthy (lastName u)) "Last name is required"
  ++ check "lastName" (String.length (lastName u) <=? 100)%nat
       "Last name cannot exceed 100 characters"
  ++ check "lastName" (regex_test "^[a-zA-Z\s\-']+$" (lastName u))
       "Last name can only contain letters, spaces, hyphens, and apostrophes"
  ++ check "role" (Js.truthy (role u)) "Role is required"
  ++ check "role" (Js.array_includes (role u) roles)
       "Role must be one of: student, team_member, mentor, researcher, community, admin"
  ++ check "studentId" (opt_ok (studentId u) (fun x => (String.length x <=? 50)%nat))
       "Student ID cannot exceed 50 characters"
  ++ check "department" (opt_ok (department u) (fun x => (String.length x <=? 100)%nat))
       "Department cannot exceed 100 characters"
  ++ check "yearOfStudy" (match yearOfStudy u with Some y => 1 <=? y | None => true end)
       "Year of study must be at least 1"
  ++ check "yearOfStudy" (match yearOfStudy u with Some y => y <=? 8 | None => true end)
       "Year of study cannot exceed 8"
  ++ check "phone" (opt_ok (phone u) (fun x => (String.length x <=? 20)%nat))
       "Phone number cannot exceed 20 characters"
  ++ check "phone" (opt_ok (phone u) (regex_test "^[\+]?[1-9][\d]{0,15}$"))
       "Please provide a valid phone number"
  ++ check "permissions" (forallb (fun p => Js.array_includes p permission_values) (permissions u))
       "Invalid permission value".

Definition set_emailVerified (b : bool) (u : t) : t :=
  mk (_id u) (email u) (passwordHash u) (firstName u) (lastName u) (role u)
     (studentId u) (department u) (yearOfStudy u) (phone u) (isActive u) b
     (lastLogin u) (permissions u).

(** [hasPermission]. *)
Definition hasPermission (u : t) (permission : string) : bool :=
  Js.array_includes permission (permissions u).

(** [hasAnyPermission]: [permissions.some(...)]. *)
Definition hasAnyPermission (u : t) (ps : list string) : bool :=
  existsb (fun permission => Js.array_includes permission (permissions u)) ps.

(** [hasAllPermissions]: [permissions.every(...)]. *)
Definition hasAllPermissions (u : t) (ps : list string) : bool :=
  forallb (fun permission => Js.array_includes permission (permissions u)) ps.

End User.

Module RoleApproval.

Record t := mk {
  email : string;
  allowedRoles : list string;
  note : option string;
  isActive : bool
}.

End RoleApproval.

(** A line of the audit log ([logger.logAuth]). *)
Record AuditEntry := mkAudit {
  audit_event : string;
  audit_user : ObjectId;
  audit_success : bool
}.

(** The shared stores: the two collections, the Session Store and the audit
    log. *)
Record World := mkWorld {
  users : list User.t;
  approvals : list RoleApproval.t;
  redis : gmap RedisKey RedisEntry;
  audit : list AuditEntry
}.

Definition set_users (us : list User.t) (w : World) : World :=
  mkWorld us (approvals w) (redis w) (audit w).

Definition set_redis (r : gmap RedisKey RedisEntry) (w : World) : World :=
  mkWorld (users w) (approvals w) r (audit w).

(** ** Handlers as state and error passing *)

Definition M (A : Type) : Type := World -> Outcome A * World.

Definition ret {A : Type} (a : A) : M A := fun w => (Returned a, w).

Definition throw {A : Type} (e : JsError) : M A := fun w => (Threw e, w).

Definition bind {A B : Type} (m : M A) (k : A -> M B) : M B :=
  fun w =>
    match m w with
    | (Returned a, w') => k a w'
    | (Threw e, w') => (Threw e, w')
    end.

Notation "'let*' x ':=' m 'in' k" := (bind m (fun x => k))
  (at level 10, x pattern, m at level 100, k at level 200).
Notation "m ';;' k" := (bind m (fun _ => k))
  (at level 100, k at level 200, right associativity).

(** Lift a computation that may throw and does not touch the stores. *)
Definition lift {A : Type} (o : Outcome A) : M A := fun w => (o, w).

(** [try { m } catch (error) { throw h(error) }]. *)
Definition try_catch {A : Type} (m : M A) (h : JsError -> M A) : M A :=
  fun w =>
    match m w with
    | (Returned a, w') => (Returned a, w')
    | (Threw e, w') => h e w'
    end.

(** Append a line to the audit log. *)
Definition add_audit (e : AuditEntry) (w : World) : World :=
  mkWorld (users w) (approvals w) (redis w) (audit w ++ [e]).

(** [logger.logAuth(event, userId, success, ...)]. *)
Definition logAuth (event : string) (userId : ObjectId) (success : bool) : M unit :=
  fun w => (Returned tt, add_audit (mkAudit event userId success) w).

(** Session Store commands on the shared store. *)
Definition redis_get (now : Z) (key : RedisKey) : M (option RedisValue) :=
  fun w => (Returned (Redis.get (redis w) now key), w).

Definition redis_setEx (now : Z) (key : RedisKey) (ttl : Z) (value : RedisValue) : M unit :=
  fun w =>
    match Redis.setEx (redis w) now key ttl value with
    | Returned r => (Returned tt, set_redis r w)
    | Threw e => (Threw e, w)
    end.

Definition redis_del (key : RedisKey) : M unit :=
  fun w => (Returned tt, set_redis (Redis.del (redis w) key) w).

(** ** Collection operations *)

(** The setters of the [email] paths ([lowercase], [trim]); Mongoose applies
    them to documents and to query filters. *)
Definition schema_email (s : string) : string := Js.toLowerCase (Js.trim s).

(** [User.findOne({ email })]. *)
Definition User_findOne_email (email : string) : M (option User.t) :=
  fun w =>
    (Returned (List.find (fun u => bool_decide (User.email u = schema_email email)) (users w)), w).

(** [User.findOne({ studentId })]. *)
Definition User_findOne_studentId (studentId : string) : M (option User.t) :=
  fun w =>
    (Returned (List.find (fun u => bool_decide (User.studentId u = Some (Js.trim studentId)))
                 (users w)), w).

(** [User.findById(id)]. *)
Definition User_findById (id : ObjectId) : M (option User.t) :=
  fun w => (Returned (List.find (fun u => bool_decide (User._id u = id)) (users w)), w).

(** [RoleApproval.findOne({ email, isActive: true })]. *)
Definition RoleApproval_findOne_active (email : string) : M (option RoleApproval.t) :=
  fun w =>
    (Returned
       (List.find (fun a => bool_decide (RoleApproval.email a = schema_email email)
                            && RoleApproval.isActive a)
          (approvals w)), w).

(** Every path of the user schema: what is validated, and what counts as
    set, when a new document is saved. *)
Definition all_paths : list string :=
  ["email"; "passwordHash"; "firstName"; "lastName"; "role"; "studentId";
   "department"; "yearOfStudy"; "phone"; "permissions"].

(** The two pre-save hooks, in order. *)
Definition pre_save (modified : list string) (salt : string) (u : User.t) : User.t :=
  User.defaultPermissionsHook modified (User.hashPasswordHook modified salt u).

(** [user.save()]: validation, the two pre-save hooks in the order they are
    registered, then the write.  An insert checks the unique indexes
    ([_id], [email], sparse [studentId]); an update replaces the document
    with the same [_id]. *)
Definition User_save `{Externals} (isNew : bool) (modified : list string)
    (salt : string) (u : User.t) : M User.t :=
  fun w =>
    match User.validate modified u with
    | _ :: _ as msgs => (Threw (MongooseValidationError msgs), w)
    | [] =>
        let u' := pre_save modified salt u in
        if isNew then
          if existsb (fun x => bool_decide (User._id x = User._id u')) (users w)
          then (Threw (DuplicateKeyError "_id"), w)
          else if existsb (fun x => bool_decide (User.email x = User.email u')) (users w)
          then (Threw (DuplicateKeyError "email"), w)
          else if existsb (fun x => bool_decide (is_Some (User.studentId u')
                                                 ∧ User.studentId x = User.studentId u'))
                    (users w)
          then (Threw (DuplicateKeyError "studentId"), w)
          else (Returned u', set_users (users w ++ [u']) w)
        else
          (Returned u',
           set_users (map (fun x => if bool_decide (User._id x = User._id u') then u' else x)
                        (users w)) w)
    end.

(** [generateAuthToken]. *)
Definition generateAuthToken `{Externals} (env : Env) (now : Z) (u : User.t) : Outcome Token :=
  jwt_sign (mkPayload (User._id u) (Some (User.email u)) (Some (User.role u))
              (Some (User.permissions u)) None)
    (JWT_SECRET env) (Js.str_or (JWT_EXPIRES_IN env) "24h") now.

(** [generateRefreshToken]. *)
Definition generateRefreshToken `{Externals} (env : Env) (now : Z) (u : User.t) : Outcome Token :=
  jwt_sign (mkPayload (User._id u) None None None (Some "refresh"))
    (JWT_SECRET env) (Js.str_or (JWT_REFRESH_EXPIRES_IN env) "7d") now.

(** [updateLastLogin]. *)
Definition updateLastLogin `{Externals} (now : Z) (u : User.t) : M User.t :=
  User_save false ["lastLogin"] "" (User.set_lastLogin now u).

(** [deactivateAccount]: the flag is cleared and the document saved; no
    token is revoked. *)
Definition deactivateAccount `{Externals} (u : User.t) : M User.t :=
  User_save false ["isActive"] "" (User.set_isActive false u).

(** The time to live of a stored refresh-token hash. *)
Definition refresh_ttl (env : Env) : Z :=
  Js.parseInt_or (JWT_REFRESH_EXPIRES_IN env) (7 * 24 * 60 * 60).

(** The time to live of a blacklist entry. *)
Definition blacklist_ttl (env : Env) : Z :=
  Js.parseInt_or (JWT_EXPIRES_IN env) (24 * 60 * 60).

(** ** The guards ([src/middleware/auth.js]) *)

(** The [Authorization] header: ["Bearer "] followed by a token string, or
    any other string. *)
Inductive AuthHeader :=
  | Bearer (t : Token)
  | OtherHeader (s : string).

Definition header_truthy (h : AuthHeader) : bool :=
  match h with
  | Bearer _ => true
  | OtherHeader s => Js.truthy s
  end.

(** [authHeader.startsWith('Bearer ')]. *)
Definition startsWithBearer (h : AuthHeader) : bool :=
  match h with
  | Bearer _ => true
  | OtherHeader s => Js.startsWith "Bearer " s
  end.

(** [authHeader.substring(7)]. *)
Definition substring7 (h : AuthHeader) : Token :=
  match h with
  | Bearer t => t
  | OtherHeader s => Junk (Js.substring_from 7 s)
  end.

(** The value held by [req.user.id]: a string, or an ObjectId object. *)
Inductive JsValue :=
  | VString (s : string)
  | VObjectId (o : ObjectId).

(** [s === v] for a string [s]: a string is never identical to an object. *)
Definition strict_eq_string (s : string) (v : JsValue) : bool :=
  match v with
  | VString t => bool_decide (s = t)
  | VObjectId _ => false
  end.

(** [`${v}`], [String(v)]: an ObjectId prints as its hexadecimal string. *)
Definition toString (v : JsValue) : string :=
  match v with
  | VString s => s
  | VObjectId o => o
  end.

Module Identity.

(** [req.user]. *)
Record t := mk {
  id : JsValue;
  email : string;
  role : string;
  firstName : string;
  lastName : string;
  permissions : list string
}.

End Identity.

(** The identity [verifyToken] and [optionalAuth] attach: [id: user._id]. *)
Definition identity_of (u : User.t) : Identity.t :=
  Identity.mk (VObjectId (User._id u)) (User.email u) (User.role u)
    (User.firstName u) (User.lastName u) (User.permissions u).

(** What a middleware hands to [next]: an error ([next(err)]) or nothing
    ([next()], with the value it attached to the request). *)
Definition next_err {A : Type} (e : JsError) : M (JsError + A) := ret (inl e).

Definition next_ok {A : Type} (a : A) : M (JsError + A) := ret (inr a).

(** The rest of the chain sees [next(err)] as an error. *)
Definition middleware {A : Type} (m : M (JsError + A)) : M A :=
  let* r := m in
  match r with
  | inl e => throw e
  | inr a => ret a
  end.

(** [verifyToken]: the identity it attaches to the request, or the error it
    passes to [next]. *)
Definition verifyToken (env : Env) (now : Z) (authorization : option AuthHeader)
    : M Identity.t :=
  middleware
    match authorization with
    | None => next_err (authenticationErrorHandler "Access token required")
    | Some authHeader =>
        if negb (header_truthy authHeader) || negb (startsWithBearer authHeader)
        then next_err (authenticationErrorHandler "Access token required")
        else
          let token := substring7 authHeader in
          try_catch
            (let* isBlacklisted :=
               (if isRedisEnabled env
                then lift (getRedisClient env);; redis_get now (blacklist token)
                else ret None) in
             if match isBlacklisted with Some v => value_truthy v | None => false end
             then next_err (authenticationErrorHandler "Token has been revoked")
             else
               let* decoded := lift (jwt_verify token (JWT_SECRET env) now) in
               let* user := User_findById (sub (payload decoded)) in
               match user with
               | None => next_err (authenticationErrorHandler "User no longer exists")
               | Some user =>
                   if negb (User.isActive user)
                   then next_err (authenticationErrorHandler "User account is deactivated")
                   else
                     logAuth "token_verification" (User._id user) true;;
                     next_ok (identity_of user)
               end)
            (fun error =>
               if bool_decide (err_name error = "JsonWebTokenError")
               then next_err (authenticationErrorHandler "Invalid token")
               else if bool_decide (err_name error = "TokenExpiredError")
               then next_err (authenticationErrorHandler "Token expired")
               else next_err (authenticationErrorHandler "Token verification failed"))
    end.

Module Resource.

(** What [requireOwnership] reads of a resource: [userId], [createdBy]
    and, when it is an array, the [userId] of each of [teamMembers]. *)
Record t := mk {
  userId : option ObjectId;
  createdBy : option ObjectId;
  teamMembers : option (list ObjectId)
}.

End Resource.

(** [requireOwnership(model, resourceIdField)]: [findById] is the lookup of
    the injected model, [resourceId] is [req.params[resourceIdField]].
    Returns the resource it attaches to the request, or throws the error it
    passes to [next]. *)
Definition requireOwnership (findById : string -> option Resource.t)
    (user : option Identity.t) (resourceId : string) : Outcome Resource.t :=
  match user with
  | None => Threw authenticationErrorHandler_default
  | Some user =>
      match findById resourceId with
      | None => Threw (notFoundErrorHandler "Resource")
      | Some resource =>
          if bool_decide (Identity.role user = "admin") then Returned resource
          else
            let owner :=
              match Resource.userId resource with
              | Some o => Some o
              | None => Resource.createdBy resource
              end in
            if match owner with
               | Some o => strict_eq_string o (Identity.id user)
               | None => false
               end
            then Returned resource
            else if match Resource.teamMembers resource with
                    | Some members =>
                        existsb (fun member => strict_eq_string member (Identity.id user))
                          members
                    | None => false
                    end
            then Returned resource
            else Threw (authorizationErrorHandler "Access denied. You do not own this resource")
      end
  end.

(** [optionalAuth]: the identity it attaches to the request, if any; it
    calls [next()] on every path. *)
Definition optionalAuth (env : Env) (now : Z) (authorization : option AuthHeader)
    : M (option Identity.t) :=
  match authorization with
  | None => ret None
  | Some authHeader =>
      if negb (header_truthy authHeader) || negb (startsWithBearer authHeader)
      then ret None
      else
        let token := substring7 authHeader in
        try_catch
          (let* isBlacklisted :=
             (if isRedisEnabled env
              then lift (getRedisClient env);; redis_get now (blacklist token)
              else ret None) in
           if match isBlacklisted with Some v => value_truthy v | None => false end
           then ret None
           else
             let* decoded := lift (jwt_verify token (JWT_SECRET env) now) in
             let* user := User_findById (sub (payload decoded)) in
             match user with
             | Some user =>
                 if User.isActive user then ret (Some (identity_of user)) else ret None
             | None => ret None
             end)
          (fun _ => ret None)
  end.

(** [requireRole(...roles)]. *)
Definition requireRole (roles : list string) (user : option Identity.t) : Outcome unit :=
  match user with
  | None => Threw authenticationErrorHandler_default
  | Some user =>
      if negb (Js.array_includes (Identity.role user) roles)
      then Threw (authorizationErrorHandler
                    ("Access denied. Required roles: " +:+ Js.join ", " roles))
      else Returned tt
  end.

(** [requirePermission(...permissions)]. *)
Definition requirePermission (permissions : list string) (user : option Identity.t)
    : Outcome unit :=
  match user with
  | None => Threw authenticationErrorHandler_default
  | Some user =>
      let userPermissions := Identity.permissions user in
      let hasPermission :=
        forallb (fun permission => Js.array_includes permission userPermissions)
          permissions in
      if negb hasPermission
      then Threw (authorizationErrorHandler
                    ("Access denied. Required permissions: " +:+ Js.join ", " permissions))
      else Returned tt
  end.

Definition requireAdmin : option Identity.t -> Outcome unit :=
  requireRole ["admin"].

Definition requireMentor : option Identity.t -> Outcome unit :=
  requireRole ["mentor"; "researcher"; "admin"].

Definition requireTeamMember : option Identity.t -> Outcome unit :=
  requireRole ["team_member"; "mentor"; "researcher"; "admin"].

Definition requireStudent : option Identity.t -> Outcome unit :=
  requireRole ["student"; "team_member"; "mentor"; "researcher"; "admin"].

(** [a || b] on two optional strings. *)
Definition param_or (a b : option string) : option string :=
  match a with
  | Some s => if Js.truthy s then a else b
  | None => b
  end.

Module Project.

(** What [requireProjectTeamMember] reads of a project: [teamLeaderId],
    [mentorId] and the [userId] of each of [teamMembers]. *)
Record t := mk {
  teamLeaderId : option ObjectId;
  mentorId : option ObjectId;
  teamMembers : list ObjectId
}.

End Project.

(** [x?.toString() === req.user.id]. *)
Definition optional_eq (x : option ObjectId) (v : JsValue) : bool :=
  match x with
  | Some o => strict_eq_string o v
  | None => false
  end.

(** [requireProjectTeamMember]: [findById] is the lookup of the Project
    model ([findById(undefined)] finds nothing), [id] and [projectId] are
    [req.params.id] and [req.params.projectId]. *)
Definition requireProjectTeamMember (findById : string -> option Project.t)
    (user : option Identity.t) (id projectId : option string) : Outcome Project.t :=
  match user with
  | None => Threw authenticationErrorHandler_default
  | Some user =>
      match param_or id projectId ≫= findById with
      | None => Threw (notFoundErrorHandler "Project")
      | Some project =>
          if bool_decide (Identity.role user = "admin") then Returned project
          else if optional_eq (Project.teamLeaderId project) (Identity.id user)
                  || optional_eq (Project.mentorId project) (Identity.id user)
          then Returned project
          else if existsb (fun member => strict_eq_string member (Identity.id user))
                    (Project.teamMembers project)
          then Returned project
          else Threw (authorizationErrorHandler
                        "Access denied. You are not a member of this project")
      end
  end.

Module Workshop.

(** What [requireWorkshopInstructor] reads of a workshop. *)
Record t := mk {
  instructorId : option ObjectId
}.

End Workshop.

(** Reading a property of [undefined]. *)
Definition TypeError (message : string) : JsError :=
  mkError "TypeError" None None [] message None None.

(** [requireWorkshopInstructor]. *)
Definition requireWorkshopInstructor (findById : string -> option Workshop.t)
    (user : option Identity.t) (id workshopId : option string) : Outcome Workshop.t :=
  match user with
  | None => Threw authenticationErrorHandler_default
  | Some user =>
      match param_or id workshopId ≫= findById with
      | None => Threw (notFoundErrorHandler "Workshop")
      | Some workshop =>
          if bool_decide (Identity.role user = "admin") then Returned workshop
          else
            match Workshop.instructorId workshop with
            | None =>
                Threw (TypeError "Cannot read properties of undefined (reading 'toString')")
            | Some instructor =>
                if strict_eq_string instructor (Identity.id user) then Returned workshop
                else Threw (authorizationErrorHandler
                              "Access denied. You are not the instructor of this workshop")
            end
      end
  end.

(** ** The routes ([src/routes/auth.js]) *)

(** What a handler draws from its environment: the ObjectId of a new
    document and the salts of [bcrypt]. *)
Record Rand := mkRand {
  new_id : ObjectId;
  password_salt : string;
  token_salt : string
}.

Module Tokens.

(** [data.tokens]. *)
Record t := mk {
  accessToken : Token;
  refreshToken : Token;
  expiresIn : string
}.

End Tokens.

Module RoleNotice.

(** [data.roleNotice]. *)
Record t := mk {
  requestedRole : string;
  assignedRole : string;
  message : string
}.

End RoleNotice.

Module UserView.

(** [data.user] of the register and login responses. *)
Record t := mk {
  id : ObjectId;
  email : string;
  firstName : string;
  lastName : string;
  role : string;
  studentId : option string;
  department : option string;
  yearOfStudy : option Z;
  phone : option string;
  isActive : bool;
  emailVerified : bool
}.

Definition of_user (u : User.t) : t :=
  mk (User._id u) (User.email u) (User.firstName u) (User.lastName u) (User.role u)
     (User.studentId u) (User.department u) (User.yearOfStudy u) (User.phone u)
     (User.isActive u) (User.emailVerified u).

End UserView.

Module RegisterBody.

(** [req.body] of [POST /register]; an absent optional field is [None]. *)
Record t := mk {
  email : string;
  password : string;
  firstName : string;
  lastName : string;
  role : option string;
  studentId : option string;
  department : option string;
  yearOfStudy : option Z;
  phone : option string
}.

End RegisterBody.

Module RegisterResponse.

Record t := mk {
  message : string;
  user : UserView.t;
  tokens : Tokens.t;
  roleNotice : option RoleNotice.t
}.

End RegisterResponse.

(** The roles [registerValidation] admits. *)
Definition register_roles : list string :=
  ["student"; "team_member"; "mentor"; "researcher"; "community"].

(** The password rule shared by the register, reset and change validators. *)
Definition password_errors `{Externals} (password : string) : list string :=
  (if (8 <=? String.length password)%nat then []
   else ["Password must be at least 8 characters long"])
  ++ (if regex_test "^(?=.*[a-z])(?=.*[A-Z])(?=.*\d)(?=.*[@$!%*?&])[A-Za-z\d@$!%*?&]" password
      then []
      else ["Password must contain at least one uppercase letter, one lowercase letter, one number, and one special character"]).

Definition name_errors `{Externals} (label : string) (name : string) : list string :=
  (if (2 <=? String.length name)%nat && (String.length name <=? 100)%nat then []
   else [label +:+ " must be between 2 and 100 characters"])
  ++ (if regex_test "^[a-zA-Z\s\-']+$" name then []
      else [label +:+ " can only contain letters, spaces, hyphens, and apostrophes"]).

(** An [optional()] chain runs only on a field that is present. *)
Definition optional {A : Type} (v : option A) (check : A -> list string) : list string :=
  match v with
  | Some x => check x
  | None => []
  end.

(** [registerValidation]: the body as the sanitizers leave it, and the
    messages of the failed validators, chain after chain. *)
Definition registerValidation `{Externals} (b : RegisterBody.t)
    : RegisterBody.t * list string :=
  let email := normalizeEmail (RegisterBody.email b) in
  let firstName := Js.trim (RegisterBody.firstName b) in
  let lastName := Js.trim (RegisterBody.lastName b) in
  let studentId := Js.trim <$> RegisterBody.studentId b in
  let department := Js.trim <$> RegisterBody.department b in
  let phone := Js.trim <$> RegisterBody.phone b in
  (RegisterBody.mk email (RegisterBody.password b) firstName lastName
     (RegisterBody.role b) studentId department (RegisterBody.yearOfStudy b) phone,
   ((if isEmail (RegisterBody.email b) then [] else ["Please provide a valid email address"])
   ++ (if (String.length email <=? 255)%nat then []
       else ["Email cannot exceed 255 characters"])
   ++ password_errors (RegisterBody.password b)
   ++ name_errors "First name" firstName
   ++ name_errors "Last name" lastName
   ++ optional (RegisterBody.role b)
        (fun r => if Js.array_includes r register_roles then []
                  else ["Invalid role specified"])
   ++ optional studentId
        (fun x => if (String.length x <=? 50)%nat then []
                  else ["Student ID cannot exceed 50 characters"])
   ++ optional department
        (fun x => if (String.length x <=? 100)%nat then []
                  else ["Department cannot exceed 100 characters"])
   ++ optional (RegisterBody.yearOfStudy b)
        (fun y => if (1 <=? y) && (y <=? 8) then []
                  else ["Year of study must be between 1 and 8"])
   ++ optional phone
        (fun x => if regex_test "^[\+]?[1-9][\d]{0,15}$" x then []
                  else ["Please provide a valid phone number"]))%list).

(** [new User({ ... })] in the register handler: the setters of the schema
    ([lowercase] and [trim]) and its defaults. *)
Definition new_user (id : ObjectId) (b : RegisterBody.t) (role : string) : User.t :=
  User.mk id (schema_email (RegisterBody.email b)) (Raw (RegisterBody.password b))
    (Js.trim (RegisterBody.firstName b)) (Js.trim (RegisterBody.lastName b)) role
    (Js.trim <$> RegisterBody.studentId b) (Js.trim <$> RegisterBody.department b)
    (RegisterBody.yearOfStudy b) (Js.trim <$> RegisterBody.phone b)
    true false None [].

(** The role gate of the register handler: the assigned role and whether it
    was adjusted. *)
Definition role_gate (email : string) (role : string) : M (string * bool) :=
  let assignedRole := if Js.truthy role then role else "student" in
  if Js.truthy assignedRole && negb (bool_decide (assignedRole = "student")) then
    let* approval := RoleApproval_findOne_active (Js.toLowerCase email) in
    match approval with
    | Some a =>
        if Js.array_includes assignedRole (RoleApproval.allowedRoles a)
        then ret (assignedRole, false)
        else ret ("student", true)
    | None => ret ("student", true)
    end
  else ret (assignedRole, false).

(** Store the hash of a refresh token, when Redis is enabled. *)
Definition store_refresh_hash `{Externals} (env : Env) (now : Z) (salt : string)
    (id : ObjectId) (refreshToken : Token) : M unit :=
  if isRedisEnabled env then
    lift (getRedisClient env);;
    redis_setEx now (refresh_token id) (refresh_ttl env)
      (bcrypt_hash token_bytes (Raw refreshToken) salt)
  else ret tt.

(** [POST /api/auth/register]. *)
Definition register `{Externals} (env : Env) (rnd : Rand) (now : Z)
    (body : RegisterBody.t) : M (Response RegisterResponse.t) :=
  let '(body, errors) := registerValidation body in
  match errors with
  | _ :: _ => throw (validationErrorHandler errors)
  | [] =>
      let email := RegisterBody.email body in
      let role := default "student" (RegisterBody.role body) in
      let studentId := RegisterBody.studentId body in
      let* existingUser := User_findOne_email email in
      match existingUser with
      | Some _ => throw (conflictErrorHandler "User with this email already exists")
      | None => ret tt
      end;;
      match studentId with
      | Some sid =>
          if Js.truthy sid then
            let* existingStudentId := User_findOne_studentId sid in
            match existingStudentId with
            | Some _ => throw (conflictErrorHandler "Student ID is already taken")
            | None => ret tt
            end
          else ret tt
      | None => ret tt
      end;;
      let requestedRole := role in
      let* gate := role_gate email role in
      let '(assignedRole, roleAdjusted) := gate in
      let* user := User_save true all_paths (password_salt rnd)
                     (new_user (new_id rnd) body assignedRole) in
      let* accessToken := lift (generateAuthToken env now user) in
      let* refreshToken := lift (generateRefreshToken env now user) in
      store_refresh_hash env now (token_salt rnd) (User._id user) refreshToken;;
      logAuth "user_registration" (User._id user) true;;
      ret (Json 201
             (RegisterResponse.mk
                (if roleAdjusted
                 then "User registered successfully. Requested role '" +:+ requestedRole
                      +:+ "' is not pre-approved; assigned 'student'."
                 else "User registered successfully")
                (UserView.of_user user)
                (Tokens.mk accessToken refreshToken (Js.str_or (JWT_EXPIRES_IN env) "24h"))
                (if roleAdjusted
                 then Some (RoleNotice.mk requestedRole (User.role user)
                              "Your requested role is not pre-approved. You have been registered as a student. An admin can update your role later.")
                 else None)))
  end.

Module LoginBody.

(** [req.body] of [POST /login]. *)
Record t := mk {
  email : string;
  password : string;
  desiredRole : option string
}.

End LoginBody.

Module LoginResponse.

Record t := mk {
  message : string;
  user : UserView.t;
  permissions : list string;
  lastLogin : option Z;
  tokens : Tokens.t;
  roleNotice : option RoleNotice.t
}.

End LoginResponse.

(** [loginValidation]. *)
Definition loginValidation `{Externals} (b : LoginBody.t) : LoginBody.t * list string :=
  (LoginBody.mk (normalizeEmail (LoginBody.email b)) (LoginBody.password b)
     (LoginBody.desiredRole b),
   ((if isEmail (LoginBody.email b) then [] else ["Please provide a valid email address"])
    ++ (if Js.truthy (LoginBody.password b) then [] else ["Password is required"])
    ++ optional (LoginBody.desiredRole b)
         (fun r => if Js.array_includes r User.roles then []
                   else ["Invalid desired role specified"]))%list).

(** The notice of the login handler for a desired role. *)
Definition login_notice (user : User.t) (desiredRole : option string)
    : M (option RoleNotice.t) :=
  match desiredRole with
  | Some desiredRole =>
      if Js.truthy desiredRole && negb (bool_decide (desiredRole = User.role user)) then
        let* approval := RoleApproval_findOne_active (Js.toLowerCase (User.email user)) in
        let approved :=
          match approval with
          | Some a => Js.array_includes desiredRole (RoleApproval.allowedRoles a)
          | None => false
          end in
        if negb approved then
          ret (Some (RoleNotice.mk desiredRole (User.role user)
                       ("Requested role '" +:+ desiredRole
                        +:+ "' is not pre-approved. Continuing as '" +:+ User.role user
                        +:+ "'. Please log in as student or contact admin.")))
        else
          ret (Some (RoleNotice.mk desiredRole (User.role user)
                       ("Requested role '" +:+ desiredRole
                        +:+ "' is approved but not yet assigned to your account. Continuing as '"
                        +:+ User.role user +:+ "'. An admin can update your role.")))
      else ret None
  | None => ret None
  end.

(** [POST /api/auth/login], after the rate limiter let the request pass. *)
Definition login `{Externals} (env : Env) (rnd : Rand) (now : Z)
    (body : LoginBody.t) : M (Response LoginResponse.t) :=
  let '(body, errors) := loginValidation body in
  match errors with
  | _ :: _ => throw (validationErrorHandler errors)
  | [] =>
      let* user := User_findOne_email (LoginBody.email body) in
      match user with
      | None => throw (authenticationErrorHandler "Invalid email or password")
      | Some user =>
          if negb (User.isActive user)
          then throw (authorizationErrorHandler
                        "Account is deactivated. Please contact administrator.")
          else if negb (User.comparePassword user (LoginBody.password body))
          then
            logAuth "login_attempt" (User._id user) false;;
            throw (authenticationErrorHandler "Invalid email or password")
          else
            let* user := updateLastLogin now user in
            let* roleNotice := login_notice user (LoginBody.desiredRole body) in
            let* accessToken := lift (generateAuthToken env now user) in
            let* refreshToken := lift (generateRefreshToken env now user) in
            store_refresh_hash env now (token_salt rnd) (User._id user) refreshToken;;
            logAuth "login_success" (User._id user) true;;
            ret (Json 200
                   (LoginResponse.mk "Login successful" (UserView.of_user user)
                      (User.permissions user) (User.lastLogin user)
                      (Tokens.mk accessToken refreshToken
                         (Js.str_or (JWT_EXPIRES_IN env) "24h"))
                      roleNotice))
      end
  end.

Module RefreshResponse.

Record t := mk {
  message : string;
  tokens : Tokens.t
}.

End RefreshResponse.

(** The [catch] clause of the refresh and logout handlers. *)
Definition rethrow_refresh {A : Type} (error : JsError) : M A :=
  if bool_decide (err_name error = "JsonWebTokenError")
  then throw (Error "Invalid refresh token")
  else if bool_decide (err_name error = "TokenExpiredError")
  then throw (Error "Refresh token expired")
  else throw error.

(** The check of a refresh token against the stored hash, when Redis is
    enabled. *)
Definition check_refresh_hash `{Externals} (env : Env) (now : Z) (id : ObjectId)
    (refreshToken : Token) : M unit :=
  if isRedisEnabled env then
    lift (getRedisClient env);;
    let* storedTokenHash := redis_get now (refresh_token id) in
    match storedTokenHash with
    | Some h =>
        if negb (value_truthy h) then throw (Error "Refresh token not found or expired")
        else if negb (bcrypt_compare token_bytes (Raw refreshToken) h)
        then throw (Error "Invalid refresh token")
        else ret tt
    | None => throw (Error "Refresh token not found or expired")
    end
  else ret tt.

(** [POST /api/auth/refresh]; [refreshToken] is [req.body.refreshToken]. *)
Definition refresh `{Externals} (env : Env) (rnd : Rand) (now : Z)
    (refreshToken : option Token) : M (Response RefreshResponse.t) :=
  match refreshToken with
  | None => throw (Error "Refresh token is required")
  | Some refreshToken =>
      if negb (token_truthy refreshToken) then throw (Error "Refresh token is required")
      else
        try_catch
          (let* decoded := lift (jwt_verify refreshToken (JWT_SECRET env) now) in
           (if negb (bool_decide (p_type (payload decoded) = Some "refresh"))
            then throw (Error "Invalid token type") else ret tt);;
           check_refresh_hash env now (sub (payload decoded)) refreshToken;;
           let* user := User_findById (sub (payload decoded)) in
           match user with
           | None => throw (Error "User not found or inactive")
           | Some user =>
               if negb (User.isActive user) then throw (Error "User not found or inactive")
               else
                 let* newAccessToken := lift (generateAuthToken env now user) in
                 let* newRefreshToken := lift (generateRefreshToken env now user) in
                 store_refresh_hash env now (token_salt rnd) (User._id user) newRefreshToken;;
                 logAuth "token_refresh" (User._id user) true;;
                 ret (Json 200
                        (RefreshResponse.mk "Token refreshed successfully"
                           (Tokens.mk newAccessToken newRefreshToken
                              (Js.str_or (JWT_EXPIRES_IN env) "24h"))))
           end)
          rethrow_refresh
  end.

Module MessageResponse.

(** [{ success: true, message }]. *)
Record t := mk {
  message : string
}.

End MessageResponse.

(** Blacklist the access token of the [Authorization] header, if there is
    one. *)
Definition blacklist_access_token (env : Env) (now : Z)
    (authorization : option AuthHeader) : M unit :=
  match authorization with
  | Some h =>
      if header_truthy h then
        redis_setEx now (blacklist (substring7 h)) (blacklist_ttl env) (Raw (Junk "revoked"))
      else ret tt
  | None => ret tt
  end.

(** [POST /api/auth/logout]. *)
Definition logout (env : Env) (now : Z) (refreshToken : option Token)
    (authorization : option AuthHeader) : M (Response MessageResponse.t) :=
  match refreshToken with
  | None => throw (Error "Refresh token is required")
  | Some refreshToken =>
      if negb (token_truthy refreshToken) then throw (Error "Refresh token is required")
      else
        try_catch
          (let* decoded := lift (jwt_verify refreshToken (JWT_SECRET env) now) in
           (if negb (bool_decide (p_type (payload decoded) = Some "refresh"))
            then throw (Error "Invalid token type") else ret tt);;
           (if isRedisEnabled env then
              lift (getRedisClient env);;
              redis_del (refresh_token (sub (payload decoded)));;
              blacklist_access_token env now authorization
            else ret tt);;
           logAuth "user_logout" (sub (payload decoded)) true;;
           ret (Json 200 (MessageResponse.mk "Logged out successfully")))
          rethrow_refresh
  end.

(** [sendEmail] ([src/services/emailService.js]): without a transport the
    mail is logged; otherwise [sendMail] is awaited and its rejection
    propagates. *)
Definition sendEmail (env : Env) (to : string) : Outcome unit :=
  match smtp env with
  | NoTransport => Returned tt
  | Transport sendMail =>
      if sendMail to then Returned tt else Threw (Error "sendMail failed")
  end.

Definition sendPasswordResetEmail (env : Env) (email : string) (token : Token)
    : Outcome unit :=
  sendEmail env email.

(** [forgotPasswordValidation]. *)
Definition forgotPasswordValidation `{Externals} (email : string) : string * list string :=
  (normalizeEmail email,
   if isEmail email then [] else ["Please provide a valid email address"]).

(** [POST /api/auth/forgot-password]. *)
Definition forgotPassword `{Externals} (env : Env) (rnd : Rand) (now : Z)
    (email : string) : M (Response MessageResponse.t) :=
  let '(email, errors) := forgotPasswordValidation email in
  match errors with
  | _ :: _ => throw (validationErrorHandler errors)
  | [] =>
      let* user := User_findOne_email email in
      match user with
      | None =>
          ret (Json 200
                 (MessageResponse.mk
                    "If an account with that email exists, a password reset link has been sent"))
      | Some user =>
          let* resetToken :=
            lift (jwt_sign (mkPayload (User._id user) None None None (Some "password_reset"))
                    (JWT_SECRET env) "1h" now) in
          (if isRedisEnabled env then
             lift (getRedisClient env);;
             redis_setEx now (password_reset (User._id user)) 3600
               (bcrypt_hash token_bytes (Raw resetToken) (token_salt rnd))
           else ret tt);;
          lift (sendPasswordResetEmail env (User.email user) resetToken);;
          logAuth "password_reset_request" (User._id user) true;;
          ret (Json 200
                 (MessageResponse.mk
                    "If an account with that email exists, a password reset link has been sent"))
      end
  end.

Module ChangePasswordBody.

Record t := mk {
  currentPassword : string;
  newPassword : string
}.

End ChangePasswordBody.

(** [changePasswordValidation]. *)
Definition changePasswordValidation `{Externals} (b : ChangePasswordBody.t) : list string :=
  ((if Js.truthy (ChangePasswordBody.currentPassword b) then []
    else ["Current password is required"])
   ++ password_errors (ChangePasswordBody.newPassword b))%list.

(** [user.passwordHash = value]: Mongoose marks the path as modified when
    the value differs from the one the document holds. *)
Definition assign_passwordHash (value : string) (u : User.t) : User.t * list string :=
  if bool_decide (hashed_text id (User.passwordHash u) = value) then (u, [])
  else (User.set_passwordHash (Raw value) u, ["passwordHash"]).

(** [POST /api/auth/change-password]: [verifyToken], then the handler. *)
Definition changePassword `{Externals} (env : Env) (rnd : Rand) (now : Z)
    (authorization : option AuthHeader) (body : ChangePasswordBody.t)
    : M (Response MessageResponse.t) :=
  let* req_user := verifyToken env now authorization in
  match changePasswordValidation body with
  | _ :: _ as errors => throw (validationErrorHandler errors)
  | [] =>
      let* user := User_findById (toString (Identity.id req_user)) in
      match user with
      | None => throw (authenticationErrorHandler "User not found")
      | Some user =>
          if negb (User.comparePassword user (ChangePasswordBody.currentPassword body))
          then
            logAuth "password_change_attempt" (toString (Identity.id req_user)) false;;
            throw (authenticationErrorHandler "Current password is incorrect")
          else if bcrypt_compare id (Raw (ChangePasswordBody.newPassword body))
                    (User.passwordHash user)
          then throw (validationErrorHandler
                        ["New password must be different from the current password"])
          else
            let '(user, modified) :=
              assign_passwordHash (ChangePasswordBody.newPassword body) user in
            let* user := User_save false modified (password_salt rnd) user in
            (if isRedisEnabled env then
               lift (getRedisClient env);;
               redis_del (refresh_token (User._id user));;
               blacklist_access_token env now authorization
             else ret tt);;
            logAuth "password_change" (toString (Identity.id req_user)) true;;
            ret (Json 200
                   (MessageResponse.mk "Password changed successfully. Please log in again."))
      end
  end.

Module ResetPasswordBody.

(** [req.body] of [POST /reset-password]; an absent [token] is [None]. *)
Record t := mk {
  token : option Token;
  newPassword : string
}.

End ResetPasswordBody.

(** [resetPasswordValidation]. *)
Definition resetPasswordValidation `{Externals} (b : ResetPasswordBody.t) : list string :=
  ((if match ResetPasswordBody.token b with Some t => token_truthy t | None => false end
    then [] else ["Reset token is required"])
   ++ password_errors (ResetPasswordBody.newPassword b))%list.

(** The [catch] clause of the reset handler. *)
Definition rethrow_reset {A : Type} (error : JsError) : M A :=
  if bool_decide (err_name error = "JsonWebTokenError")
  then throw (Error "Invalid reset token")
  else if bool_decide (err_name error = "TokenExpiredError")
  then throw (Error "Reset token expired")
  else throw error.

(** The check of a reset token against the stored hash, when Redis is
    enabled. *)
Definition check_reset_hash `{Externals} (env : Env) (now : Z) (id : ObjectId)
    (token : Token) : M unit :=
  if isRedisEnabled env then
    lift (getRedisClient env);;
    let* storedTokenHash := redis_get now (password_reset id) in
    match storedTokenHash with
    | Some h =>
        if negb (value_truthy h) then throw (Error "Reset token not found or expired")
        else if negb (bcrypt_compare token_bytes (Raw token) h)
        then throw (Error "Invalid reset token")
        else ret tt
    | None => throw (Error "Reset token not found or expired")
    end
  else ret tt.

(** [POST /api/auth/reset-password]. *)
Definition resetPassword `{Externals} (env : Env) (rnd : Rand) (now : Z)
    (body : ResetPasswordBody.t) : M (Response MessageResponse.t) :=
  match resetPasswordValidation body with
  | _ :: _ as errors => throw (validationErrorHandler errors)
  | [] =>
      try_catch
        (let* decoded :=
           lift (match ResetPasswordBody.token body with
                 | Some token => jwt_verify token (JWT_SECRET env) now
                 | None => Threw (JsonWebTokenError "jwt must be provided")
                 end) in
         let token := default (Junk "") (ResetPasswordBody.token body) in
         (if negb (bool_decide (p_type (payload decoded) = Some "password_reset"))
          then throw (Error "Invalid token type") else ret tt);;
         check_reset_hash env now (sub (payload decoded)) token;;
         let* user := User_findById (sub (payload decoded)) in
         match user with
         | None => throw (Error "User not found or inactive")
         | Some user =>
             if negb (User.isActive user) then throw (Error "User not found or inactive")
             else
               let '(user, modified) :=
                 assign_passwordHash (ResetPasswordBody.newPassword body) user in
               let* user := User_save false modified (password_salt rnd) user in
               (if isRedisEnabled env
                then lift (getRedisClient env);; redis_del (password_reset (User._id user))
                else ret tt);;
               logAuth "password_reset_success" (User._id user) true;;
               ret (Json 200 (MessageResponse.mk "Password reset successfully"))
         end)
        rethrow_reset
  end.

(** The [catch] clause of the verify-email handler. *)
Definition rethrow_verification {A : Type} (error : JsError) : M A :=
  if bool_decide (err_name error = "JsonWebTokenError")
  then throw (Error "Invalid verification token")
  else if bool_decide (err_name error = "TokenExpiredError")
  then throw (Error "Verification token expired")
  else throw error.

(** [GET /api/auth/verify-email/:token]. *)
Definition verifyEmail `{Externals} (env : Env) (now : Z) (token : Token)
    : M (Response MessageResponse.t) :=
  try_catch
    (let* decoded := lift (jwt_verify token (JWT_SECRET env) now) in
     (if negb (bool_decide (p_type (payload decoded) = Some "email_verification"))
      then throw (Error "Invalid token type") else ret tt);;
     let* user := User_findById (sub (payload decoded)) in
     match user with
     | None => throw (Error "User not found")
     | Some user =>
         if User.emailVerified user
         then ret (Json 200 (MessageResponse.mk "Email already verified"))
         else
           let* user := User_save false ["emailVerified"] ""
                          (User.set_emailVerified true user) in
           logAuth "email_verification" (User._id user) true;;
           ret (Json 200 (MessageResponse.mk "Email verified successfully"))
     end)
    rethrow_verification.

(** A route as the client sees it: the handler under [asyncHandler], with
    the error middleware behind it. *)
Definition serve {B : Type} (handler : M (Response B)) (w : World) : Response B * World :=
  let '(r, w') := handler w in (asyncHandler r, w').

(** ** The role approvals ([src/routes/roleApprovals.js]) *)

Definition set_approvals (l : list RoleApproval.t) (w : World) : World :=
  mkWorld (users w) l (redis w) (audit w).

(** [Array.from(new Set(xs))]: the first occurrence of each value, in the
    order of insertion; [seen] holds the values met so far. *)
Fixpoint array_from_set (seen xs : list string) : list string :=
  match xs with
  | [] => []
  | x :: r =>
      if bool_decide (x ∈ seen) then array_from_set seen r
      else x :: array_from_set (x :: seen) r
  end.

Module ApprovalBody.

(** [req.body] of [POST /api/role-approvals]; [allowedRoles] is an array of
    strings. *)
Record t := mk {
  email : string;
  allowedRoles : list string;
  note : option string
}.

End ApprovalBody.

Module ApprovalResponse.

(** [{ success: true, message, data: { approval } }]. *)
Record t := mk {
  message : option string;
  approval : RoleApproval.t
}.

End ApprovalResponse.

(** [upsertValidation]: the body as the sanitizer leaves it, and the
    messages of the failed validators, chain after chain; the wildcard chain
    runs on each element of [allowedRoles]. *)
Definition upsertValidation `{Externals} (b : ApprovalBody.t)
    : ApprovalBody.t * list string :=
  (ApprovalBody.mk (normalizeEmail (ApprovalBody.email b)) (ApprovalBody.allowedRoles b)
     (ApprovalBody.note b),
   ((if isEmail (ApprovalBody.email b) then [] else ["Valid email is required"])
    ++ (if (1 <=? length (ApprovalBody.allowedRoles b))%nat then []
        else ["allowedRoles must be a non-empty array"])
    ++ flat_map (fun r => if Js.array_includes r User.roles then []
                          else ["Invalid role value in allowedRoles"])
         (ApprovalBody.allowedRoles b)
    ++ optional (ApprovalBody.note b)
         (fun n => if (String.length n <=? 500)%nat then [] else ["Invalid value"]))%list).

(** The first element that satisfies [f] replaced by [a]. *)
Fixpoint replace_first {A : Type} (f : A -> bool) (a : A) (l : list A) : list A :=
  match l with
  | [] => []
  | x :: r => if f x then a :: r else x :: replace_first f a r
  end.

(** The first element that satisfies [f] removed. *)
Fixpoint remove_first {A : Type} (f : A -> bool) (l : list A) : list A :=
  match l with
  | [] => []
  | x :: r => if f x then r else x :: remove_first f r
  end.

(** [RoleApproval.findOne({ email })]. *)
Definition RoleApproval_findOne (email : string) : M (option RoleApproval.t) :=
  fun w =>
    (Returned (List.find (fun a => bool_decide (RoleApproval.email a = schema_email email))
                 (approvals w)), w).

(** [RoleApproval.findOneAndUpdate({ email }, { $set: { email, allowedRoles,
    note, updatedBy }, $setOnInsert: { createdBy, isActive: true } },
    { upsert: true, new: true })]: the document that matches is updated in
    place and keeps its [isActive]; without a match a document is inserted.
    An [undefined] note is left out of the update.  (The record carries the
    fields the handlers read; [createdBy], [updatedBy] and the timestamps are
    not among them.) *)
Definition RoleApproval_findOneAndUpdate (email : string) (allowedRoles : list string)
    (note : option string) : M RoleApproval.t :=
  fun w =>
    let key := schema_email email in
    let matches (a : RoleApproval.t) := bool_decide (RoleApproval.email a = key) in
    match List.find matches (approvals w) with
    | Some old =>
        let approval :=
          RoleApproval.mk key allowedRoles
            (match note with
             | Some n => Some (Js.trim n)
             | None => RoleApproval.note old
             end)
            (RoleApproval.isActive old) in
        (Returned approval, set_approvals (replace_first matches approval (approvals w)) w)
    | None =>
        let approval := RoleApproval.mk key allowedRoles (Js.trim <$> note) true in
        (Returned approval, set_approvals (approvals w ++ [approval]) w)
    end.

(** [RoleApproval.findOneAndDelete({ email })]. *)
Definition RoleApproval_findOneAndDelete (email : string) : M (option RoleApproval.t) :=
  fun w =>
    let matches (a : RoleApproval.t) :=
      bool_decide (RoleApproval.email a = schema_email email) in
    match List.find matches (approvals w) with
    | Some old => (Returned (Some old), set_approvals (remove_first matches (approvals w)) w)
    | None => (Returned None, w)
    end.

(** [GET /api/role-approvals/:email], behind [requireAdmin]. *)
Definition getRoleApproval (user : option Identity.t) (email : string)
    : M (Response ApprovalResponse.t) :=
  lift (requireAdmin user);;
  let email := Js.toLowerCase email in
  let* approval := RoleApproval_findOne email in
  match approval with
  | None => throw (notFoundErrorHandler "RoleApproval")
  | Some approval => ret (Json 200 (ApprovalResponse.mk None approval))
  end.

(** [POST /api/role-approvals], behind [requireAdmin]. *)
Definition upsertRoleApproval `{Externals} (user : option Identity.t)
    (body : ApprovalBody.t) : M (Response ApprovalResponse.t) :=
  lift (requireAdmin user);;
  let '(body, errors) := upsertValidation body in
  match errors with
  | _ :: _ => throw (validationErrorHandler errors)
  | [] =>
      let* approval :=
        RoleApproval_findOneAndUpdate (Js.toLowerCase (ApprovalBody.email body))
          (array_from_set [] (ApprovalBody.allowedRoles body)) (ApprovalBody.note body) in
      ret (Json 201 (ApprovalResponse.mk (Some "Role approval saved") approval))
  end.

(** [DELETE /api/role-approvals/:email], behind [requireAdmin]. *)
Definition deleteRoleApproval (user : option Identity.t) (email : string)
    : M (Response MessageResponse.t) :=
  lift (requireAdmin user);;
  let email := Js.toLowerCase email in
  let* approval := RoleApproval_findOneAndDelete email in
  match approval with
  | None => throw (notFoundErrorHandler "RoleApproval")
  | Some _ => ret (Json 200 (MessageResponse.mk "Role approval removed"))
  end.

(** ** A reference instance of the library functions

    Recognisers written by hand for the patterns the validators use, and the
    [<digits><unit>] fragment of the time spans jsonwebtoken accepts.  The
    properties below hold for every instance; this one serves the worked
    examples. *)

Module Reference.

Definition code (c : ascii) : Z := Z.of_N (N_of_ascii c).

Definition is_lower (c : ascii) : bool := (97 <=? code c) && (code c <=? 122).
Definition is_upper (c : ascii) : bool := (65 <=? code c) && (code c <=? 90).
Definition is_digit (c : ascii) : bool := (48 <=? code c) && (code c <=? 57).
Definition is_special (c : ascii) : bool :=
  bool_decide (c ∈ ["@"; "$"; "!"; "%"; "*"; "?"; "&"]%char).

Fixpoint all_chars (f : ascii -> bool) (s : string) : bool :=
  match s with
  | EmptyString => true
  | String c r => f c && all_chars f r
  end.

Fixpoint any_char (f : ascii -> bool) (s : string) : bool :=
  match s with
  | EmptyString => false
  | String c r => f c || any_char f r
  end.

(** [/^[a-zA-Z\s\-']+$/]. *)
Definition name_pattern (s : string) : bool :=
  Js.truthy s
  && all_chars (fun c => is_lower c || is_upper c || Js.is_space c
                         || bool_decide (c = "-"%char) || bool_decide (c = "'"%char)) s.

(** [/^(?=.*[a-z])(?=.*[A-Z])(?=.*\d)(?=.*[@$!%*?&])[A-Za-z\d@$!%*?&]/], on
    strings of one line. *)
Definition password_pattern (s : string) : bool :=
  any_char is_lower s && any_char is_upper s && any_char is_digit s
  && any_char is_special s
  && match s with
     | String c _ => is_lower c || is_upper c || is_digit c || is_special c
     | EmptyString => false
     end.

(** [/^[\+]?[1-9][\d]{0,15}$/]. *)
Definition phone_pattern (s : string) : bool :=
  let s := match s with String "+" r => r | _ => s end in
  match s with
  | String c r =>
      (49 <=? code c) && (code c <=? 57) && all_chars is_digit r
      && (String.length r <=? 15)%nat
  | EmptyString => false
  end.

(** Whether [s] has a dot that is neither its first nor its last
    character. *)
Fixpoint inner_dot (first : bool) (s : string) : bool :=
  match s with
  | EmptyString => false
  | String c r =>
      (negb first && bool_decide (c = "."%char) && Js.truthy r) || inner_dot false r
  end.

(** Split at the first ["@"]. *)
Fixpoint split_at (s : string) : option (string * string) :=
  match s with
  | EmptyString => None
  | String c r =>
      if bool_decide (c = "@"%char) then Some (EmptyString, r)
      else match split_at r with
           | Some (a, b) => Some (String c a, b)
           | None => None
           end
  end.

(** [/^[^\s@]+@[^\s@]+\.[^\s@]+$/]. *)
Definition email_pattern (s : string) : bool :=
  match split_at s with
  | Some (a, b) =>
      Js.truthy a && all_chars (fun c => negb (Js.is_space c)) a
      && all_chars (fun c => negb (Js.is_space c) && negb (bool_decide (c = "@"%char))) b
      && inner_dot true b
  | None => false
  end.

Definition regex (pattern s : string) : bool :=
  if bool_decide (pattern = "^[a-zA-Z\s\-']+$") then name_pattern s
  else if bool_decide
            (pattern = "^(?=.*[a-z])(?=.*[A-Z])(?=.*\d)(?=.*[@$!%*?&])[A-Za-z\d@$!%*?&]")
  then password_pattern s
  else if bool_decide (pattern = "^[\+]?[1-9][\d]{0,15}$") then phone_pattern s
  else if bool_decide (pattern = "^[^\s@]+@[^\s@]+\.[^\s@]+$") then email_pattern s
  else false.

Fixpoint span (acc : option Z) (s : string) : option Z :=
  match s with
  | EmptyString => (fun n => n / 1000) <$> acc
  | String c r =>
      if is_digit c then span (Some (10 * default 0 acc + (code c - 48))) r
      else
        match acc with
        | Some n =>
            if bool_decide (s = "s") then Some n
            else if bool_decide (s = "m") then Some (60 * n)
            else if bool_decide (s = "h") then Some (3600 * n)
            else if bool_decide (s = "d") then Some (86400 * n)
            else if bool_decide (s = "w") then Some (604800 * n)
            else None
        | None => None
        end
  end.

(** The base64url alphabet. *)
Definition b64_alphabet : string :=
  "ABCDEFGHIJKLMNOPQRSTUVWXYZabcdefghijklmnopqrstuvwxyz0123456789-_".

Definition b64_char (n : Z) : ascii :=
  default "="%char (String.get (Z.to_nat n) b64_alphabet).

(** base64url without padding. *)
Fixpoint base64url (s : string) : string :=
  match s with
  | String a (String b (String c r)) =>
      let n := 65536 * code a + 256 * code b + code c in
      String (b64_char (n / 262144))
        (String (b64_char (n / 4096 mod 64))
           (String (b64_char (n / 64 mod 64))
              (String (b64_char (n mod 64)) (base64url r))))
  | String a (String b EmptyString) =>
      let n := 65536 * code a + 256 * code b in
      String (b64_char (n / 262144))
        (String (b64_char (n / 4096 mod 64))
           (String (b64_char (n / 64 mod 64)) EmptyString))
  | String a EmptyString =>
      let n := 65536 * code a in
      String (b64_char (n / 262144)) (String (b64_char (n / 4096 mod 64)) EmptyString)
  | EmptyString => EmptyString
  end.

(** The double quote. *)
Definition dq : string := String (ascii_of_nat 34) EmptyString.

(** A JSON string; the quote and the backslash are escaped. *)
Fixpoint json_escape (s : string) : string :=
  match s with
  | EmptyString => EmptyString
  | String c r =>
      if bool_decide (c = ascii_of_nat 34) || bool_decide (c = ascii_of_nat 92)
      then String (ascii_of_nat 92) (String c (json_escape r))
      else String c (json_escape r)
  end.

Definition json_string (s : string) : string := dq +:+ json_escape s +:+ dq.

Definition json_field (name value : string) : string :=
  json_string name +:+ ":" +:+ value.

(** [JSON.stringify] of the claims: the keys of the payload in the order the
    handlers write them, then [iat] and [exp], which the library adds. *)
Definition json_claims (c : Claims) : string :=
  let p := payload c in
  let opt (name : string) (v : option string) :=
    match v with Some x => [json_field name x] | None => [] end in
  "{" +:+ Js.join ","
            ([json_field "sub" (json_string (sub p))]
             ++ opt "email" (json_string <$> p_email p)
             ++ opt "role" (json_string <$> p_role p)
             ++ opt "permissions"
                  ((fun ps => "[" +:+ Js.join "," (json_string <$> ps) +:+ "]")
                     <$> p_permissions p)
             ++ opt "type" (json_string <$> p_type p)
             ++ [json_field "iat" (pretty (iat c))]
             ++ opt "exp" (pretty <$> exp c))
      +:+ "}".

(** The compact serialization.  The signature is the HMAC of what precedes
    it; it is written here as a mark naming the key, and lies beyond the
    bytes the worked examples read. *)
Definition compact (t : Token) : string :=
  match t with
  | Jws c key =>
      base64url ("{" +:+ json_field "alg" (json_string "HS256") +:+ ","
                 +:+ json_field "typ" (json_string "JWT") +:+ "}")
      +:+ "." +:+ base64url (json_claims c)
      +:+ "." +:+ base64url ("HS256:" +:+ key)
  | Junk s => s
  end.

Definition externals : Externals := {|
  timespan := span None;
  token_bytes := compact;
  isEmail := email_pattern;
  normalizeEmail := Js.toLowerCase;
  regex_test := regex
|}.

End Reference.

(** ** Worked data *)

Module Example.

Definition env : Env :=
  mkEnv (Some "true") (Some "s3cret") None None None NoTransport true.

(** The same configuration with a mail transport that rejects. *)
Definition env_smtp_down : Env :=
  mkEnv (Some "true") (Some "s3cret") None None None (Transport (fun _ => false)) true.

Definition rnd : Rand := mkRand "65f0a1b2c3d4e5f601234567" "salt-a" "salt-b".

Definition empty : World := mkWorld [] [] ∅ [].

Definition alice_body (role : option string) : RegisterBody.t :=
  RegisterBody.mk "alice@example.com" "Sup3r$ecret" "Alice" "Liddell" role
    None None None None.

(** Alice registers at clock reading 1000 without asking for a role. *)
Definition registered : Outcome (Response RegisterResponse.t) * World :=
  register (H := Reference.externals) env rnd 1000 (alice_body None) empty.

Definition world1 : World := snd registered.

(** The tokens of the registration response. *)
Definition tokens1 : Tokens.t :=
  match fst registered with
  | Returned (Json _ b) => RegisterResponse.tokens b
  | _ => Tokens.mk (Junk "") (Junk "") ""
  end.

Definition access1 : Token := Tokens.accessToken tokens1.

Definition refresh1 : Token := Tokens.refreshToken tokens1.

Definition alice_login : LoginBody.t :=
  LoginBody.mk "alice@example.com" "Sup3r$ecret" None.

(** The tokens a response carries ([None] for an error). *)
Definition login_tokens (r : Outcome (Response LoginResponse.t)) : option Tokens.t :=
  match r with
  | Returned (Json _ b) => Some (LoginResponse.tokens b)
  | _ => None
  end.

Definition refresh_tokens (r : Outcome (Response RefreshResponse.t)) : option Tokens.t :=
  match r with
  | Returned (Json _ b) => Some (RefreshResponse.tokens b)
  | _ => None
  end.

(** Alice logs in at 2000 from one client, then at 3000 from another. *)
Definition login_a : Outcome (Response LoginResponse.t) * World :=
  login (H := Reference.externals) env rnd 2000 alice_login world1.

Definition login_b : Outcome (Response LoginResponse.t) * World :=
  login (H := Reference.externals) env (mkRand "" "" "salt-c") 3000 alice_login
    (snd login_a).

(** Alice refreshes at 2000 with the refresh token of her registration. *)
Definition refresh_a : Outcome (Response RefreshResponse.t) * World :=
  refresh (H := Reference.externals) env rnd 2000 (Some refresh1) world1.

(** The world after Alice's account was deactivated. *)
Definition world_deactivated : World :=
  match users world1 with
  | alice :: _ => snd (deactivateAccount (H := Reference.externals) alice world1)
  | [] => world1
  end.

End Example.

(** ** The vocabulary of the properties *)

(** The configuration lets the server sign: a secret is set and both
    lifetimes are time spans. *)
Definition can_sign `{Externals} (env : Env) : Prop :=
  exists key d_access d_refresh,
    JWT_SECRET env = Some key /\ Js.truthy key = true
    /\ timespan (Js.str_or (JWT_EXPIRES_IN env) "24h") = Some d_access
    /\ timespan (Js.str_or (JWT_REFRESH_EXPIRES_IN env) "7d") = Some d_refresh.

(** No active approval of [email] covers [role]. *)
Definition not_pre_approved (w : World) (email role : string) : Prop :=
  forall a, a ∈ approvals w ->
            RoleApproval.email a = schema_email (Js.toLowerCase email) ->
            RoleApproval.isActive a = true ->
            role ∉ RoleApproval.allowedRoles a.

(** Nothing stored collides with the new document: its [_id], its email
    (as the schema stores it) and its student id are free. *)
Definition unused (w : World) (id : ObjectId) (b : RegisterBody.t) : Prop :=
  forall x, x ∈ users w ->
    User._id x <> id
    /\ User.email x <> schema_email (RegisterBody.email b)
    /\ (forall sid, RegisterBody.studentId b = Some sid ->
                    User.studentId x <> Some (Js.trim sid)).

(** The handlers can reach the Session Store: Redis is disabled, or its
    client is connected. *)
Definition session_store_usable (env : Env) : bool :=
  negb (isRedisEnabled env) || redisConnected env.

(** The Session Store accepts the refresh-token hash: Redis is disabled, or
    its client is connected and the configured time to live is positive. *)
Definition session_store_ready (env : Env) : Prop :=
  isRedisEnabled env = false \/ (redisConnected env = true /\ 0 < refresh_ttl env).

(** [jwt.verify] accepts the token at [now] and its type is [refresh]. *)
Definition valid_refresh_token (env : Env) (now : Z) (t : Token) : Prop :=
  exists c, jwt_verify t (JWT_SECRET env) now = Returned c
            /\ p_type (payload c) = Some "refresh".

(** The Session Store accepts the revocation: Redis is disabled, or its
    client is connected and there is no [Authorization] header or the
    configured time to live of a blacklist entry is positive. *)
Definition blacklist_ready (env : Env) (authorization : option AuthHeader) : Prop :=
  isRedisEnabled env = false
  \/ (redisConnected env = true
      /\ (match authorization with Some h => header_truthy h = false | None => True end
          \/ 0 < blacklist_ttl env)).

(** The response document of a registration. *)
Definition register_response (env : Env) (requestedRole : string) (roleAdjusted : bool)
    (user : User.t) (accessToken refreshToken : Token) : Response RegisterResponse.t :=
  Json 201
    (RegisterResponse.mk
       (if roleAdjusted
        then "User registered successfully. Requested role '" +:+ requestedRole
             +:+ "' is not pre-approved; assigned 'student'."
        else "User registered successfully")
       (UserView.of_user user)
       (Tokens.mk accessToken refreshToken (Js.str_or (JWT_EXPIRES_IN env) "24h"))
       (if roleAdjusted
        then Some (RoleNotice.mk requestedRole (User.role user)
                     "Your requested role is not pre-approved. You have been registered as a student. An admin can update your role later.")
        else None)).

(** The slot of the user named by [rt] holds the hash of [rt], the token was
    issued at [now], and from now on (until the slot is written again) the
    stored-hash check accepts a token exactly when the slot has not expired
    and the token agrees with [rt] on the bytes bcrypt reads. *)
Definition rotated_to `{Externals} (env : Env) (salt : string) (now : Z) (w : World)
    (rt : Token) : Prop :=
  exists c key,
    rt = Jws c key /\ iat c = now /\ p_type (payload c) = Some "refresh"
    /\ redis w !! refresh_token (sub (payload c))
       = Some (mkEntry (BcryptOf salt (bcrypt_input (token_bytes rt)))
                 (now + refresh_ttl env))
    /\ forall t now',
         check_refresh_hash env now' (sub (payload c)) t w = (Returned tt, w)
         <-> now' < now + refresh_ttl env
             /\ bcrypt_input (token_bytes t) = bcrypt_input (token_bytes rt).

(** The access token is on the blacklist: the Session Store is enabled and
    holds a live, truthy entry under its blacklist key (which the guards can
    read when the client is connected, see [session_store_usable]). *)
Definition blacklisted (env : Env) (now : Z) (w : World) (token : Token) : bool :=
  isRedisEnabled env
  && match Redis.get (redis w) now (blacklist token) with
     | Some v => value_truthy v
     | None => false
     end.

(** What the update of [User_save] leaves in the collection: [u'] in the
    place of each document that has its [_id]. *)
Definition replace_user (u' : User.t) (l : list User.t) : list User.t :=
  map (fun x => if bool_decide (User._id x = User._id u') then u' else x) l.

(** The unique indexes of the user collection hold: no two documents share
    an [_id], an email or (where set; the index is sparse) a student id. *)
Definition indexes_hold (w : World) : Prop :=
  NoDup (User._id <$> users w)
  /\ NoDup (User.email <$> users w)
  /\ NoDup (omap User.studentId (users w)).

(** The document [POST /reset-password] saves for [user]. *)
Definition reset_document `{Externals} (rnd : Rand) (body : ResetPasswordBody.t)
    (user : User.t) : User.t :=
  let '(user, modified) :=
    assign_passwordHash (ResetPasswordBody.newPassword body) user in
  pre_save modified (password_salt rnd) user.

(** The document [POST /change-password] saves for [user]. *)
Definition change_document `{Externals} (rnd : Rand) (body : ChangePasswordBody.t)
    (user : User.t) : User.t :=
  let '(user, modified) :=
    assign_passwordHash (ChangePasswordBody.newPassword body) user in
  pre_save modified (password_salt rnd) user.

(** The reset token [POST /forgot-password] signs for [user] at [now], with
    the key [key] and the lifetime [d]. *)
Definition reset_token (user : User.t) (key : string) (now d : Z) : Token :=
  Jws (mkClaims (mkPayload (User._id user) None None None (Some "password_reset"))
         now (Some (now + d))) key.

(** ** Further worked data *)

Module Scenario.

(** Alice, as stored by her registration. *)
Definition alice : User.t :=
  match users Example.world1 with
  | u :: _ => u
  | [] => User.mk "" "" (Raw "") "" "" "" None None None None false false None []
  end.

(** Alice logs in at 2000 and asks for the role admin. *)
Definition alice_login_as_admin : LoginBody.t :=
  LoginBody.mk "alice@example.com" "Sup3r$ecret" (Some "admin").

Definition login_as_admin : Outcome (Response LoginResponse.t) * World :=
  login (H := Reference.externals) Example.env Example.rnd 2000 alice_login_as_admin
    Example.world1.

(** Alice changes her password at 3000. *)
Definition new_password : ChangePasswordBody.t :=
  ChangePasswordBody.mk "Sup3r$ecret" "N3w$ecret!".

Definition password_changed : Outcome (Response MessageResponse.t) * World :=
  changePassword (H := Reference.externals) Example.env Example.rnd 3000
    (Some (Bearer Example.access1)) new_password Example.world1.

(** Alice logs out at 4600. *)
Definition logged_out : Outcome (Response MessageResponse.t) * World :=
  logout Example.env 4600 (Some Example.refresh1) (Some (Bearer Example.access1))
    Example.world1.

(** Alice asks for a reset link at 2000 and uses it at 2500. *)
Definition forgot : Outcome (Response MessageResponse.t) * World :=
  forgotPassword (H := Reference.externals) Example.env Example.rnd 2000
    "alice@example.com" Example.world1.

Definition reset1 : Token := reset_token alice "s3cret" 2000 3600.

Definition reset_body : ResetPasswordBody.t :=
  ResetPasswordBody.mk (Some reset1) "N3w$ecret!".

Definition password_reset_done : Outcome (Response MessageResponse.t) * World :=
  resetPassword (H := Reference.externals) Example.env Example.rnd 2500 reset_body
    (snd forgot).

(** A token of type [email_verification] for Alice, valid until 90000. *)
Definition verify1 : Token :=
  Jws (mkClaims (mkPayload (User._id alice) None None None (Some "email_verification"))
         1000 (Some 90000)) "s3cret".

Definition email_verified : Outcome (Response MessageResponse.t) * World :=
  verifyEmail (H := Reference.externals) Example.env 2000 verify1 Example.world1.

(** Bob, with an approval on file for the role mentor. *)
Definition bob_body : RegisterBody.t :=
  RegisterBody.mk "bob@example.com" "M3ntor$ecret" "Bob" "Stone" (Some "mentor")
    None None None None.

Definition world_bob_approved : World :=
  mkWorld [] [RoleApproval.mk "bob@example.com" ["mentor"] None true] ∅ [].

(** An administrator who holds the default permissions of the role. *)
Definition root : User.t :=
  User.mk "66aa00000000000000000009" "root@example.com" (bcrypt_hash id (Raw "R00t$ecret") "salt-r")
    "Root" "Admin" "admin"
    None None None None true true None
    (default [] (User.table_lookup "admin" User.rolePermissions)).






End Scenario.

(** * Properties *)

(** ** The monad *)

Lemma bind_returned {A B : Type} (m : M A) (k : A -> M B) (w w' : World) (b : B) :
  bind m k w = (Returned b, w') ->
  exists a w1, m w = (Returned a, w1) /\ k a w1 = (Returned b, w').
Proof.
  unfold bind. destruct (m w) as [[a|e] w1]; intros Hk.
  - exists a, w1. split; [reflexivity | exact Hk].
  - discriminate.
Qed.

Lemma bind_step {A B : Type} (m : M A) (k : A -> M B) (w w1 : World) (a : A) :
  m w = (Returned a, w1) -> bind m k w = k a w1.
Proof. intros Hm. unfold bind. rewrite Hm. reflexivity. Qed.

Lemma bind_threw {A B : Type} (m : M A) (k : A -> M B) (w w1 : World) (e : JsError) :
  m w = (Threw e, w1) -> bind m k w = (Threw e, w1).
Proof. intros Hm. unfold bind. rewrite Hm. reflexivity. Qed.

Lemma rethrow_refresh_throws {A : Type} (e : JsError) (w : World) :
  exists e', rethrow_refresh (A := A) e w = (Threw e', w).
Proof.
  unfold rethrow_refresh, throw.
  repeat case_bool_decide; eauto.
Qed.

Lemma try_catch_rethrow_returned {A : Type} (m : M A) (w w' : World) (a : A) :
  try_catch m rethrow_refresh w = (Returned a, w') -> m w = (Returned a, w').
Proof.
  unfold try_catch. destruct (m w) as [[x|e] w1]; [auto |].
  destruct (rethrow_refresh_throws (A := A) e w1) as [e' ->]. discriminate.
Qed.

Lemma try_catch_rethrow_threw {A : Type} (m : M A) (w w1 : World) (e : JsError) :
  m w = (Threw e, w1) -> exists e', try_catch m rethrow_refresh w = (Threw e', w1).
Proof.
  intros Hm. unfold try_catch. rewrite Hm. apply rethrow_refresh_throws.
Qed.

Lemma try_catch_returned {A : Type} (m : M A) (h : JsError -> M A) (w w' : World) (a : A) :
  m w = (Returned a, w') -> try_catch m h w = (Returned a, w').
Proof. intros Hm. unfold try_catch. rewrite Hm. reflexivity. Qed.

Lemma middleware_inl {A : Type} (m : M (JsError + A)) (w w' : World) (e : JsError) :
  m w = (Returned (inl e), w') -> middleware m w = (Threw e, w').
Proof. intros Hm. unfold middleware. rewrite (bind_step _ _ _ _ _ Hm). reflexivity. Qed.

Lemma middleware_inr {A : Type} (m : M (JsError + A)) (w w' : World) (a : A) :
  m w = (Returned (inr a), w') -> middleware m w = (Returned a, w').
Proof. intros Hm. unfold middleware. rewrite (bind_step _ _ _ _ _ Hm). reflexivity. Qed.

(** Invert [bind m k w = (Returned _, _)] in hypothesis [H]. *)
Ltac bind_inv H :=
  let a := fresh "a" in
  let w1 := fresh "w" in
  let Hm := fresh "Hm" in
  apply bind_returned in H; destruct H as (a & w1 & Hm & H).

(** [getRedisClient()] returns exactly when the client is connected. *)
Lemma getRedisClient_connected (env : Env) (w : World) :
  redisConnected env = true -> lift (getRedisClient env) w = (Returned tt, w).
Proof. intros Hconn. unfold lift, getRedisClient. rewrite Hconn. reflexivity. Qed.

Lemma getRedisClient_down (env : Env) (w : World) :
  redisConnected env = false ->
  lift (getRedisClient env) w = (Threw (Error "Redis client not connected"), w).
Proof. intros Hdown. unfold lift, getRedisClient. rewrite Hdown. reflexivity. Qed.

Lemma getRedisClient_returned (env : Env) (w w' : World) (u : unit) :
  lift (getRedisClient env) w = (Returned u, w') -> redisConnected env = true /\ w' = w.
Proof.
  unfold lift, getRedisClient. destruct (redisConnected env); [| discriminate].
  intros [= _ <-]. split; reflexivity.
Qed.

(** Invert [(lift (getRedisClient env);; k) w = (Returned _, _)] in
    hypothesis [H]. *)
Ltac client_inv H :=
  let a := fresh "a" in
  let w1 := fresh "w" in
  let Hconn := fresh "Hconn" in
  apply bind_returned in H; destruct H as (a & w1 & Hconn & H);
  apply getRedisClient_returned in Hconn; destruct Hconn as [Hconn ->];
  cbv beta in H.

(** ** C8: default permissions *)

Lemma getDefaultPermissions_role (u u' : User.t) :
  User.role u = User.role u' ->
  User.getDefaultPermissions u = User.getDefaultPermissions u'.
Proof. unfold User.getDefaultPermissions. intros ->. reflexivity. Qed.

(** Every role of the enum has an entry in the table: a fixed list, not
    empty, of values of the permission enum. *)
Lemma rolePermissions_enumerated :
  Forall (fun r => exists ps, User.table_lookup r User.rolePermissions = Some ps
                              /\ ps <> [] /\ Forall (fun p => p ∈ User.permission_values) ps)
    User.roles.
Proof.
  unfold User.roles.
  repeat (constructor;
          [eexists; split; [reflexivity |];
           split; [discriminate | apply (bool_decide_unpack _); vm_compute; exact I] |]).
  constructor.
Qed.

Lemma roles_have_defaults (r : string) :
  r ∈ User.roles ->
  exists ps, User.table_lookup r User.rolePermissions = Some ps /\ ps <> [].
Proof.
  intros Hr. pose proof rolePermissions_enumerated as Hall.
  rewrite Forall_forall in Hall. destruct (Hall r Hr) as (ps & Hps & Hne & _).
  exists ps. split; assumption.
Qed.

(** The schema accepts a modified [role] only when it is a value of the
    enum. *)
Lemma validate_role `{Externals} (modified : list string) (u : User.t) :
  User.validate modified u = [] -> User.isModified "role" modified = true ->
  User.role u ∈ User.roles.
Proof.
  unfold User.validate. cbv zeta. intros Hv Hmod.
  do 12 (apply app_eq_nil in Hv; destruct Hv as [_ Hv]).
  apply app_eq_nil in Hv. destruct Hv as [Hv _].
  rewrite Hmod in Hv. unfold Js.array_includes in Hv. simpl in Hv.
  destruct (bool_decide (User.role u ∈ User.roles)) eqn:Hin; [| discriminate].
  apply bool_decide_eq_true in Hin. exact Hin.
Qed.

Lemma defaultPermissionsHook_empty (modified : list string) (u : User.t) :
  User.isModified "role" modified = true -> User.permissions u = [] ->
  User.permissions (User.defaultPermissionsHook modified u)
  = default [] (User.table_lookup (User.role u) User.rolePermissions).
Proof.
  intros Hmod Hempty. unfold User.defaultPermissionsHook. rewrite Hmod, Hempty.
  reflexivity.
Qed.

Lemma defaultPermissionsHook_kept (modified : list string) (u : User.t) :
  User.permissions u <> [] -> User.defaultPermissionsHook modified u = u.
Proof.
  intros Hne. unfold User.defaultPermissionsHook.
  destruct (User.permissions u); [congruence |].
  rewrite andb_false_r. reflexivity.
Qed.

(** C8.  On a save where [role] is modified, the permissions derived from
    the role are assigned exactly when the permission list is empty.  An
    empty list is replaced by the list of the role's entry in the table of
    [getDefaultPermissions] (by the empty list for a role without entry), and
    no other field of the document changes; a list that is not empty is
    kept, the document is unchanged; for a role of the enum the hook
    changes the document if and only if the list was empty.  Each role of
    the enum maps to the list written out below, which is not empty and
    holds values of the permission enum only.  A save that succeeds stores
    a role of the enum, unchanged, with the role's list when the
    permissions were empty and with the permissions as they were
    otherwise.  When [role] is not modified the hook changes nothing. *)
Theorem default_permissions_iff_empty `{Externals} (modified : list string) (u : User.t) :
  User.isModified "role" modified = true ->
  (User.permissions u = [] ->
   User.permissions (User.defaultPermissionsHook modified u)
   = default [] (User.table_lookup (User.role u) User.rolePermissions)
   /\ forall r ps,
        (r, ps) ∈
          [("student",
            ["read:projects"; "read:workshops"; "read:events"; "read:inventory";
             "read:news"; "read:media"]);
           ("team_member",
            ["read:projects"; "write:projects"; "read:workshops"; "read:events";
             "read:inventory"; "read:news"; "read:media"]);
           ("mentor",
            ["read:projects"; "write:projects"; "delete:projects"; "read:workshops";
             "write:workshops"; "read:events"; "write:events"; "read:inventory";
             "write:inventory"; "read:requests"; "approve:requests"; "read:news";
             "write:news"; "read:media"; "write:media"]);
           ("researcher",
            ["read:projects"; "write:projects"; "delete:projects"; "read:workshops";
             "write:workshops"; "delete:workshops"; "read:events"; "write:events";
             "delete:events"; "read:inventory"; "write:inventory"; "delete:inventory";
             "read:requests"; "write:requests"; "approve:requests"; "read:news";
             "write:news"; "delete:news"; "read:media"; "write:media"; "delete:media"]);
           ("community",
            ["read:projects"; "read:workshops"; "read:events"; "read:news";
             "read:media"]);
           ("admin",
            ["read:projects"; "write:projects"; "delete:projects"; "manage:projects";
             "read:workshops"; "write:workshops"; "delete:workshops"; "read:events";
             "write:events"; "delete:events"; "read:inventory"; "write:inventory";
             "delete:inventory"; "manage:inventory"; "read:requests"; "write:requests";
             "approve:requests"; "read:news"; "write:news"; "delete:news";
             "read:media"; "write:media"; "delete:media"; "read:users"; "write:users";
             "delete:users"; "manage:finance"; "manage:system"; "system:admin"])] ->
        User.role u = r ->
        User.permissions (User.defaultPermissionsHook modified u) = ps)
  /\ (User.permissions u <> [] -> User.defaultPermissionsHook modified u = u)
  /\ (User.role u ∈ User.roles ->
      (User.defaultPermissionsHook modified u <> u <-> User.permissions u = []))
  /\ (let u' := User.defaultPermissionsHook modified u in
      User._id u' = User._id u /\ User.email u' = User.email u
      /\ User.passwordHash u' = User.passwordHash u
      /\ User.firstName u' = User.firstName u /\ User.lastName u' = User.lastName u
      /\ User.role u' = User.role u /\ User.studentId u' = User.studentId u
      /\ User.department u' = User.department u
      /\ User.yearOfStudy u' = User.yearOfStudy u /\ User.phone u' = User.phone u
      /\ User.isActive u' = User.isActive u
      /\ User.emailVerified u' = User.emailVerified u
      /\ User.lastLogin u' = User.lastLogin u)
  /\ (forall u', User.role u' = User.role u ->
                 User.getDefaultPermissions u' = User.getDefaultPermissions u)
  /\ Forall (fun r => exists ps, User.table_lookup r User.rolePermissions = Some ps
                                 /\ ps <> []
                                 /\ Forall (fun p => p ∈ User.permission_values) ps)
       User.roles
  /\ (forall isNew salt w u' w',
        User_save isNew modified salt u w = (Returned u', w') ->
        User.role u' = User.role u
        /\ User.role u ∈ User.roles
        /\ (User.permissions u = [] ->
            User.permissions u'
            = default [] (User.table_lookup (User.role u) User.rolePermissions)
            /\ User.permissions u' <> [])
        /\ (User.permissions u <> [] -> User.permissions u' = User.permissions u))
  /\ (forall unrelated, User.isModified "role" unrelated = false ->
                        User.defaultPermissionsHook unrelated u = u).
Proof.
  intros Hmod.
  split; [| split; [| split; [| split; [| split; [| split; [| split]]]]]].
  - intros Hempty.
    pose proof (defaultPermissionsHook_empty modified u Hmod Hempty) as Hperms.
    split; [exact Hperms |].
    intros r ps Hin Hrole. rewrite Hperms, Hrole.
    rewrite !elem_of_cons, elem_of_nil in Hin.
    repeat (destruct Hin as [[= -> ->] | Hin]; [reflexivity |]).
    destruct Hin.
  - apply defaultPermissionsHook_kept.
  - intros Hrole. split.
    + intros Hchanged.
      destruct (User.permissions u) as [|p ps] eqn:Hperms; [reflexivity |].
      exfalso. apply Hchanged. apply defaultPermissionsHook_kept.
      rewrite Hperms. discriminate.
    + intros Hempty Hsame.
      pose proof (defaultPermissionsHook_empty modified u Hmod Hempty) as Hperms.
      rewrite Hsame, Hempty in Hperms.
      destruct (roles_have_defaults _ Hrole) as (ps & Hps & Hne).
      rewrite Hps in Hperms. simpl in Hperms. congruence.
  - unfold User.defaultPermissionsHook.
    destruct (User.isModified "role" modified && _); repeat split; reflexivity.
  - intros u'. apply getDefaultPermissions_role.
  - exact rolePermissions_enumerated.
  - intros isNew salt w u' w' Hsave.
    assert (Hvalid : User.validate modified u = []).
    { unfold User_save in Hsave.
      destruct (User.validate modified u); [reflexivity | discriminate]. }
    assert (Hu' : u' = pre_save modified salt u).
    { unfold User_save in Hsave. fold (pre_save modified salt u) in Hsave.
      rewrite Hvalid in Hsave. destruct isNew.
      - repeat match type of Hsave with
               | context [if existsb ?f ?l then _ else _] => destruct (existsb f l)
               end; try discriminate.
        injection Hsave as <- _. reflexivity.
      - injection Hsave as <- _. reflexivity. }
    pose proof (validate_role modified u Hvalid Hmod) as Hrole.
    set (hashed := User.hashPasswordHook modified salt u).
    assert (Hhashed : User.role hashed = User.role u
                      /\ User.permissions hashed = User.permissions u).
    { unfold hashed, User.hashPasswordHook.
      destruct (negb (User.isModified "passwordHash" modified)); split; reflexivity. }
    destruct Hhashed as [Hhrole Hhperms].
    subst u'. unfold pre_save. fold hashed.
    split; [| split; [exact Hrole | split]].
    + unfold User.defaultPermissionsHook.
      destruct (User.isModified "role" modified && _); exact Hhrole.
    + intros Hempty.
      rewrite (defaultPermissionsHook_empty modified hashed Hmod)
        by (rewrite Hhperms; exact Hempty).
      rewrite Hhrole. split; [reflexivity |].
      destruct (roles_have_defaults _ Hrole) as (ps & Hps & Hne).
      rewrite Hps. exact Hne.
    + intros Hne. rewrite defaultPermissionsHook_kept by (rewrite Hhperms; exact Hne).
      exact Hhperms.
  - intros unrelated Hun. unfold User.defaultPermissionsHook. rewrite Hun. reflexivity.
Qed.

(** C8 at work: a student saved with the role set and no permissions
    receives the six permissions of a student; a mentor whose permission
    list is not empty keeps it. *)
Lemma default_permissions_iff_empty_witness :
  User.isModified "role" ["role"] = true
  /\ User.permissions
       (User.defaultPermissionsHook ["role"]
          (User.mk "65f0a1b2c3d4e5f601234568" "carol@example.com" (Raw "pw") "Carol" "Reed"
             "student" None None None None true false None []))
     = ["read:projects"; "read:workshops"; "read:events"; "read:inventory";
        "read:news"; "read:media"]
  /\ User.permissions
       (User.defaultPermissionsHook ["role"]
          (User.mk "65f0a1b2c3d4e5f601234567" "bob@example.com" (Raw "pw") "Bob" "Stone"
             "mentor" None None None None true false None ["read:users"]))
     = ["read:users"].
Proof.
  split; [reflexivity |]. split.
  - apply (proj2 (proj1 (default_permissions_iff_empty (H := Reference.externals) ["role"]
      (User.mk "65f0a1b2c3d4e5f601234568" "carol@example.com" (Raw "pw") "Carol" "Reed"
         "student" None None None None true false None []) eq_refl) eq_refl) "student");
      [apply list_elem_of_here | reflexivity].
  - rewrite (proj1 (proj2 (default_permissions_iff_empty (H := Reference.externals) ["role"]
      (User.mk "65f0a1b2c3d4e5f601234567" "bob@example.com" (Raw "pw") "Bob" "Stone"
         "mentor" None None None None true false None ["read:users"]) eq_refl)));
      [reflexivity | discriminate].
Defined.

(** ** C7: the ownership guard *)

Lemma requireOwnership_not_found (findById : string -> option Resource.t)
    (user : Identity.t) (rid : string) :
  findById rid = None ->
  requireOwnership findById (Some user) rid = Threw (notFoundErrorHandler "Resource").
Proof. intros Hnone. unfold requireOwnership. rewrite Hnone. reflexivity. Qed.

Lemma requireOwnership_admin (findById : string -> option Resource.t)
    (user : Identity.t) (rid : string) (res : Resource.t) :
  findById rid = Some res -> Identity.role user = "admin" ->
  requireOwnership findById (Some user) rid = Returned res.
Proof.
  intros Hres Hadmin. unfold requireOwnership. rewrite Hres.
  rewrite bool_decide_eq_true_2 by exact Hadmin. reflexivity.
Qed.

(** With an identity whose [id] is a string, the guard does what its
    comments say: the owner and the team members pass. *)
Lemma requireOwnership_string_id_owner (findById : string -> option Resource.t)
    (user : Identity.t) (rid : string) (res : Resource.t) (uid : string) :
  findById rid = Some res -> Identity.id user = VString uid ->
  Resource.userId res = Some uid ->
  requireOwnership findById (Some user) rid = Returned res.
Proof.
  intros Hres Hid Howner. unfold requireOwnership. rewrite Hres, Howner, Hid. simpl.
  rewrite (bool_decide_eq_true_2 (uid = uid)) by reflexivity.
  case_bool_decide; reflexivity.
Qed.

(** With the identity [verifyToken] attaches ([id: user._id], an ObjectId),
    both comparisons are between a string and an object: every user who is
    not an admin is refused, owner and team members included. *)
Lemma requireOwnership_objectid_forbidden (findById : string -> option Resource.t)
    (u : User.t) (rid : string) (res : Resource.t) :
  findById rid = Some res -> User.role u <> "admin" ->
  requireOwnership findById (Some (identity_of u)) rid
  = Threw (authorizationErrorHandler "Access denied. You do not own this resource").
Proof.
  intros Hres Hrole. unfold requireOwnership. rewrite Hres. simpl.
  rewrite bool_decide_eq_false_2 by exact Hrole.
  assert (Hmem : forall ms, existsb (fun member => strict_eq_string member
                                       (VObjectId (User._id u))) ms = false).
  { induction ms as [|m ms IH]; [reflexivity | simpl; exact IH]. }
  destruct (Resource.userId res), (Resource.createdBy res), (Resource.teamMembers res);
    simpl; rewrite ?Hmem; reflexivity.
Qed.

(** C7.  Alice, a student, presents the access token she was issued;
    [verifyToken] attaches her identity; the resource names her as its owner
    ([userId]) and as a team member; [requireOwnership] answers Forbidden. *)
Theorem requireOwnership_refuses_owner :
  exists (alice : User.t) (token : Token) (ident : Identity.t),
    users Example.world1 = [alice]
    /\ generateAuthToken (H := Reference.externals) Example.env 1000 alice = Returned token
    /\ fst (verifyToken Example.env 2000 (Some (Bearer token)) Example.world1)
       = Returned ident
    /\ Identity.role ident = "student"
    /\ requireOwnership
         (fun _ => Some (Resource.mk (Some (User._id alice)) None (Some [User._id alice])))
         (Some ident) "66aa00000000000000000001"
       = Threw (ApiError 403 "Access denied. You do not own this resource").
Proof.
  eexists _, _, _.
  split; [vm_compute; reflexivity |].
  split; [vm_compute; reflexivity |].
  split; [vm_compute; reflexivity |].
  split; vm_compute; reflexivity.
Qed.

(** ** C2: a deactivated user fails authentication *)

Lemma redis_get_eq (now : Z) (key : RedisKey) (w : World) :
  redis_get now key w = (Returned (Redis.get (redis w) now key), w).
Proof. reflexivity. Qed.

(** C2.  A request carries a token that [jwt.verify] accepts at the time of
    the request (signed with the server's secret, not expired), and the user
    the token names is stored with [isActive = false]: [verifyToken] fails
    with a 401 error, whatever the claims of the token say.  The flag is the
    one of the stored document at the time of the request.  (The message
    names the first test that fails: the Session Store cannot be reached,
    the token is on the blacklist, the account is deactivated.) *)
Theorem verifyToken_rejects_deactivated (env : Env) (now : Z) (w : World)
    (token : Token) (decoded : Claims) (user : User.t) :
  jwt_verify token (JWT_SECRET env) now = Returned decoded ->
  List.find (fun u => bool_decide (User._id u = sub (payload decoded))) (users w) = Some user ->
  User.isActive user = false ->
  exists msg,
    verifyToken env now (Some (Bearer token)) w = (Threw (ApiError 401 msg), w)
    /\ msg = (if negb (session_store_usable env) then "Token verification failed"
              else if blacklisted env now w token then "Token has been revoked"
              else "User account is deactivated")
    /\ errorHandler (B := unit) (ApiError 401 msg) = Failure 401 msg.
Proof.
  intros Hverify Hfind Hinactive.
  unfold verifyToken, session_store_usable, blacklisted.
  cbn [header_truthy startsWithBearer substring7 negb orb].
  unfold middleware, try_catch, bind, redis_get, lift, getRedisClient, User_findById,
    next_err, next_ok, ret, throw.
  destruct (isRedisEnabled env), (redisConnected env); cbn [negb orb andb];
    try destruct (Redis.get (redis w) now (blacklist token)) as [v|];
    try destruct (value_truthy v);
    rewrite ?Hverify, ?Hfind, ?Hinactive; cbn;
    eexists; (split; [reflexivity | split; reflexivity]).
Qed.

(** ** Registration: the validator and the role gate *)

Lemma register_invalid `{Externals} (env : Env) (rnd : Rand) (now : Z)
    (body : RegisterBody.t) (w : World) :
  snd (registerValidation body) <> [] ->
  register env rnd now body w
  = (Threw (validationErrorHandler (snd (registerValidation body))), w).
Proof.
  intros Hne. unfold register.
  destruct (registerValidation body) as [b' errors]. simpl in *.
  destruct errors; [congruence | reflexivity].
Qed.

Lemma registerValidation_role `{Externals} (body : RegisterBody.t) :
  RegisterBody.role (fst (registerValidation body)) = RegisterBody.role body.
Proof. reflexivity. Qed.

(** A role outside the list of the validator leaves its message among the
    errors. *)
Lemma registerValidation_bad_role `{Externals} (body : RegisterBody.t) (r : string) :
  RegisterBody.role body = Some r ->
  r ∉ register_roles ->
  "Invalid role specified" ∈ snd (registerValidation body).
Proof.
  intros Hrole Hnot. unfold registerValidation. simpl. rewrite Hrole. simpl.
  unfold Js.array_includes. rewrite bool_decide_eq_false_2 by exact Hnot.
  rewrite !elem_of_app. do 5 right. left. apply list_elem_of_here.
Qed.

(** When the validator passes, a role that is present is one of its five. *)
Lemma registerValidation_ok_role `{Externals} (body : RegisterBody.t) (r : string) :
  snd (registerValidation body) = [] ->
  RegisterBody.role body = Some r ->
  r ∈ register_roles.
Proof.
  intros Hok Hrole.
  destruct (decide (r ∈ register_roles)) as [Hin | Hnot]; [exact Hin |].
  pose proof (registerValidation_bad_role body r Hrole Hnot) as Hbad.
  rewrite Hok in Hbad. inversion Hbad.
Qed.

(** The role check reads the stores and leaves them unchanged; the role it assigns
    is the requested one or [student]. *)
Lemma role_gate_inv (email role : string) (w w' : World) (assigned : string)
    (adjusted : bool) :
  role_gate email role w = (Returned (assigned, adjusted), w') ->
  w' = w
  /\ (adjusted = false /\ assigned = (if Js.truthy role then role else "student")
      \/ adjusted = true /\ assigned = "student").
Proof.
  unfold role_gate.
  destruct (Js.truthy (if Js.truthy role then role else "student")
            && negb (bool_decide ((if Js.truthy role then role else "student") = "student"))).
  - unfold bind, RoleApproval_findOne_active, ret.
    destruct (List.find _ (approvals w)) as [a|].
    + destruct (Js.array_includes _ (RoleApproval.allowedRoles a));
        intros [= <- <- <-]; split; auto.
    + intros [= <- <- <-]; split; auto.
  - unfold ret. intros [= <- <- <-]; split; auto.
Qed.

Lemma role_gate_total (email role : string) (w : World) :
  exists gate, role_gate email role w = (Returned gate, w).
Proof.
  unfold role_gate.
  destruct (Js.truthy (if Js.truthy role then role else "student")
            && negb (bool_decide ((if Js.truthy role then role else "student") = "student"))).
  - unfold bind, RoleApproval_findOne_active, ret.
    destruct (List.find _ (approvals w)) as [a|].
    + destruct (Js.array_includes _ (RoleApproval.allowedRoles a)); eauto.
    + eauto.
  - unfold ret. eauto.
Qed.

Lemma role_gate_downgrades (email role : string) (w : World) :
  Js.truthy role = true -> role <> "student" ->
  not_pre_approved w email role ->
  role_gate email role w = (Returned ("student", true), w).
Proof.
  intros Htruthy Hne Hnot. unfold role_gate. rewrite Htruthy.
  rewrite bool_decide_eq_false_2 by exact Hne. simpl. rewrite Htruthy. simpl.
  unfold bind, RoleApproval_findOne_active, ret.
  destruct (List.find _ (approvals w)) as [a|] eqn:Hfind; [| reflexivity].
  apply find_some in Hfind. destruct Hfind as [Hin Hmatch].
  apply andb_prop in Hmatch. destruct Hmatch as [Hemail Hactive].
  apply bool_decide_eq_true_1 in Hemail.
  unfold Js.array_includes.
  rewrite bool_decide_eq_false_2; [reflexivity |].
  apply (Hnot a); [apply list_elem_of_In; exact Hin | exact Hemail | exact Hactive].
Qed.

(** ** Saving a user *)

Lemma pre_save_fields (modified : list string) (salt : string) (u : User.t) :
  User._id (pre_save modified salt u) = User._id u
  /\ User.email (pre_save modified salt u) = User.email u
  /\ User.role (pre_save modified salt u) = User.role u
  /\ User.studentId (pre_save modified salt u) = User.studentId u
  /\ User.isActive (pre_save modified salt u) = User.isActive u.
Proof.
  unfold pre_save, User.defaultPermissionsHook, User.hashPasswordHook.
  destruct (negb (User.isModified "passwordHash" modified));
    destruct (User.isModified "role" modified && _); repeat split; reflexivity.
Qed.

Lemma existsb_false_forall {A : Type} (f : A -> bool) (l : list A) :
  (forall x, x ∈ l -> f x = false) -> existsb f l = false.
Proof.
  intros Hall. induction l as [|x l IH]; [reflexivity |]. simpl.
  rewrite (Hall x) by apply list_elem_of_here. simpl.
  apply IH. intros y Hy. apply Hall. apply list_elem_of_further. exact Hy.
Qed.

Lemma find_none_forall {A : Type} (f : A -> bool) (l : list A) :
  (forall x, x ∈ l -> f x = false) -> List.find f l = None.
Proof.
  intros Hall. induction l as [|x l IH]; [reflexivity |]. simpl.
  rewrite (Hall x) by apply list_elem_of_here.
  apply IH. intros y Hy. apply Hall. apply list_elem_of_further. exact Hy.
Qed.

(** An insert that succeeds appends the document the hooks produced and
    touches nothing else. *)
Lemma User_save_new_inv `{Externals} (modified : list string) (salt : string)
    (u u' : User.t) (w w' : World) :
  User_save true modified salt u w = (Returned u', w') ->
  u' = pre_save modified salt u /\ w' = set_users (users w ++ [u']) w.
Proof.
  unfold User_save. fold (pre_save modified salt u).
  destruct (User.validate modified u); [| discriminate].
  repeat match goal with
         | |- context [if existsb ?f ?l then _ else _] => destruct (existsb f l)
         end; try discriminate.
  intros [= <- <-]. split; reflexivity.
Qed.

(** An insert succeeds when the document is valid and collides with no
    stored [_id], [email] or [studentId]. *)
Lemma User_save_new_ok `{Externals} (modified : list string) (salt : string)
    (u : User.t) (w : World) :
  User.validate modified u = [] ->
  (forall x, x ∈ users w -> User._id x <> User._id u) ->
  (forall x, x ∈ users w -> User.email x <> User.email u) ->
  (forall x, x ∈ users w -> is_Some (User.studentId u) ->
             User.studentId x <> User.studentId u) ->
  User_save true modified salt u w
  = (Returned (pre_save modified salt u),
     set_users (users w ++ [pre_save modified salt u]) w).
Proof.
  intros Hvalid Hid Hemail Hsid.
  unfold User_save. fold (pre_save modified salt u). rewrite Hvalid.
  destruct (pre_save_fields modified salt u) as (Eid & Eemail & _ & Esid & _).
  rewrite !existsb_false_forall; [reflexivity | | |].
  - intros x Hx. apply bool_decide_eq_false_2. rewrite Esid.
    intros [Hsome Heq]. exact (Hsid x Hx Hsome Heq).
  - intros x Hx. apply bool_decide_eq_false_2. rewrite Eemail. exact (Hemail x Hx).
  - intros x Hx. apply bool_decide_eq_false_2. rewrite Eid. exact (Hid x Hx).
Qed.

(** ** Issuing tokens *)

Lemma jwt_sign_inv `{Externals} (p : Payload) (secret : option string)
    (expiresIn : string) (now : Z) (t : Token) :
  jwt_sign p secret expiresIn now = Returned t ->
  exists key d, secret = Some key /\ Js.truthy key = true
                /\ timespan expiresIn = Some d
                /\ t = Jws (mkClaims p now (Some (now + d))) key.
Proof.
  unfold jwt_sign. destruct secret as [key|]; [| discriminate].
  destruct (Js.truthy key) eqn:Hk; [| discriminate].
  destruct (timespan expiresIn) as [d|] eqn:Hd; [| discriminate].
  intros [= <-]. exists key, d. auto.
Qed.

Lemma generateTokens_ok `{Externals} (env : Env) (now : Z) (u : User.t) :
  can_sign env ->
  exists at_ rt, generateAuthToken env now u = Returned at_
                 /\ generateRefreshToken env now u = Returned rt.
Proof.
  intros (key & d1 & d2 & Hsecret & Hkey & Hd1 & Hd2).
  unfold generateAuthToken, generateRefreshToken, jwt_sign.
  rewrite Hsecret, Hkey, Hd1, Hd2. eauto.
Qed.

(** A refresh token issued at [now] carries [iat = now], the user's id and
    the type [refresh]. *)
Lemma generateRefreshToken_inv `{Externals} (env : Env) (now : Z) (u : User.t) (t : Token) :
  generateRefreshToken env now u = Returned t ->
  exists key d,
    JWT_SECRET env = Some key
    /\ t = Jws (mkClaims (mkPayload (User._id u) None None None (Some "refresh"))
                  now (Some (now + d))) key.
Proof.
  unfold generateRefreshToken. intros Hsign.
  apply jwt_sign_inv in Hsign. destruct Hsign as (key & d & Hs & _ & _ & ->).
  exists key, d. auto.
Qed.

(** ** Storing the hash of a refresh token *)

Lemma store_refresh_hash_disabled `{Externals} (env : Env) (now : Z) (salt : string)
    (id : ObjectId) (t : Token) (w : World) :
  isRedisEnabled env = false ->
  store_refresh_hash env now salt id t w = (Returned tt, w).
Proof. intros Hoff. unfold store_refresh_hash. rewrite Hoff. reflexivity. Qed.

Lemma store_refresh_hash_enabled `{Externals} (env : Env) (now : Z) (salt : string)
    (id : ObjectId) (t : Token) (w : World) :
  isRedisEnabled env = true -> redisConnected env = true -> 0 < refresh_ttl env ->
  store_refresh_hash env now salt id t w
  = (Returned tt,
     set_redis (<[refresh_token id :=
                    mkEntry (BcryptOf salt (bcrypt_input (token_bytes t)))
                      (now + refresh_ttl env)]> (redis w)) w).
Proof.
  intros Hon Hconn Httl.
  unfold store_refresh_hash, getRedisClient, lift, bind, redis_setEx, Redis.setEx.
  rewrite Hon, Hconn, (proj2 (Z.ltb_lt _ _) Httl). reflexivity.
Qed.

(** When the store call returns with Redis enabled, the slot of the user
    holds the hash of the token, and only the Session Store changed. *)
Lemma store_refresh_hash_inv `{Externals} (env : Env) (now : Z) (salt : string)
    (id : ObjectId) (t : Token) (w w' : World) :
  store_refresh_hash env now salt id t w = (Returned tt, w') ->
  users w' = users w /\ approvals w' = approvals w
  /\ (isRedisEnabled env = false -> w' = w)
  /\ (isRedisEnabled env = true ->
      redis w' = <[refresh_token id :=
                     mkEntry (BcryptOf salt (bcrypt_input (token_bytes t)))
                       (now + refresh_ttl env)]> (redis w)).
Proof.
  unfold store_refresh_hash, getRedisClient, lift, bind, redis_setEx, Redis.setEx,
    bcrypt_hash.
  destruct (isRedisEnabled env).
  - destruct (redisConnected env); [| discriminate].
    destruct (0 <? refresh_ttl env); [| discriminate].
    intros [= <-]. repeat split; try reflexivity; discriminate.
  - intros [= <-]. repeat split; try reflexivity; discriminate.
Qed.

(** The store call returns only when the Session Store can take the hash. *)
Lemma store_refresh_hash_returned_ready `{Externals} (env : Env) (now : Z) (salt : string)
    (id : ObjectId) (t : Token) (w w' : World) (u : unit) :
  store_refresh_hash env now salt id t w = (Returned u, w') ->
  session_store_ready env.
Proof.
  unfold store_refresh_hash, getRedisClient, lift, bind, redis_setEx, Redis.setEx,
    session_store_ready.
  destruct (isRedisEnabled env); [| left; reflexivity].
  destruct (redisConnected env); [| discriminate].
  destruct (0 <? refresh_ttl env) eqn:Httl; [| discriminate].
  intros _. right. split; [reflexivity | apply Z.ltb_lt; exact Httl].
Qed.

Lemma session_store_ready_usable (env : Env) :
  session_store_ready env -> session_store_usable env = true.
Proof.
  unfold session_store_ready, session_store_usable.
  intros [-> | [-> _]]; [reflexivity | apply orb_true_r].
Qed.

(** ** Registration: what a successful call did *)

Lemma register_returned_inv `{Externals} (env : Env) (rnd : Rand) (now : Z)
    (body : RegisterBody.t) (w w' : World) (resp : Response RegisterResponse.t) :
  register env rnd now body w = (Returned resp, w') ->
  let b := fst (registerValidation body) in
  let requested := default "student" (RegisterBody.role b) in
  snd (registerValidation body) = []
  /\ exists assigned adjusted user accessToken refreshToken w1 w2,
       role_gate (RegisterBody.email b) requested w = (Returned (assigned, adjusted), w)
       /\ User_save true all_paths (password_salt rnd) (new_user (new_id rnd) b assigned) w
          = (Returned user, w1)
       /\ generateAuthToken env now user = Returned accessToken
       /\ generateRefreshToken env now user = Returned refreshToken
       /\ store_refresh_hash env now (token_salt rnd) (User._id user) refreshToken w1
          = (Returned tt, w2)
       /\ w' = add_audit (mkAudit "user_registration" (User._id user) true) w2
       /\ resp = register_response env requested adjusted user accessToken refreshToken.
Proof.
  unfold register.
  destruct (registerValidation body) as [b errors] eqn:Hval. simpl.
  destruct errors as [|e errors]; [| discriminate].
  intros Hreg. split; [reflexivity |].
  bind_inv Hreg. unfold User_findOne_email in Hm. injection Hm as <- <-.
  bind_inv Hreg.
  assert (w0 = w) as ->.
  { destruct (List.find _ (users w)); [discriminate | injection Hm as _ <-; reflexivity]. }
  clear Hm.
  bind_inv Hreg.
  assert (w0 = w) as ->.
  { destruct (RegisterBody.studentId b) as [sid|]; [| injection Hm as _ <-; reflexivity].
    destruct (Js.truthy sid); [| injection Hm as _ <-; reflexivity].
    bind_inv Hm. unfold User_findOne_studentId in Hm0. injection Hm0 as <- <-.
    destruct (List.find _ (users w)); [discriminate | injection Hm as _ <-; reflexivity]. }
  clear Hm.
  bind_inv Hreg. destruct a1 as [assigned adjusted].
  pose proof (role_gate_inv _ _ _ _ _ _ Hm) as [-> _].
  bind_inv Hreg. rename a1 into user. rename w0 into w1.
  bind_inv Hreg. rename a1 into accessToken.
  unfold lift in Hm1. injection Hm1 as Hat <-.
  bind_inv Hreg. rename a1 into refreshToken.
  unfold lift in Hm1. injection Hm1 as Hrt <-.
  bind_inv Hreg. destruct a1. rename w0 into w2.
  bind_inv Hreg. unfold logAuth in Hm2. injection Hm2 as <- <-.
  unfold ret in Hreg. injection Hreg as <- <-.
  exists assigned, adjusted, user, accessToken, refreshToken, w1, w2.
  repeat split; assumption || reflexivity.
Qed.

Lemma register_roles_truthy (r : string) : r ∈ register_roles -> Js.truthy r = true.
Proof.
  unfold register_roles. rewrite !elem_of_cons, elem_of_nil.
  intros [-> | [-> | [-> | [-> | [-> | []]]]]]; reflexivity.
Qed.

Lemma register_roles_not_admin (r : string) : r ∈ register_roles -> r <> "admin".
Proof.
  unfold register_roles. rewrite !elem_of_cons, elem_of_nil.
  intros [-> | [-> | [-> | [-> | [-> | []]]]]]; discriminate.
Qed.

(** A successful registration appends one user, whose role is one of the
    five roles of the validator. *)
Lemma register_returned_role `{Externals} (env : Env) (rnd : Rand) (now : Z)
    (body : RegisterBody.t) (w w' : World) (resp : Response RegisterResponse.t) :
  register env rnd now body w = (Returned resp, w') ->
  exists user r,
    users w' = users w ++ [user]
    /\ User.role user ∈ register_roles
    /\ resp = Json 201 r
    /\ UserView.role (RegisterResponse.user r) = User.role user.
Proof.
  intros Hreg. apply register_returned_inv in Hreg.
  destruct Hreg as (Hval & assigned & adjusted & user & at_ & rt & w1 & w2
                    & Hgate & Hsave & _ & _ & Hstore & -> & ->).
  apply User_save_new_inv in Hsave. destruct Hsave as [-> ->].
  apply store_refresh_hash_inv in Hstore. destruct Hstore as (Husers & _).
  destruct (pre_save_fields all_paths (password_salt rnd)
              (new_user (new_id rnd) (fst (registerValidation body)) assigned))
    as (_ & _ & Erole & _).
  eexists _, _. split; [simpl; rewrite Husers; reflexivity |].
  split; [| split; reflexivity].
  rewrite Erole. simpl.
  apply role_gate_inv in Hgate. destruct Hgate as [_ Hassigned].
  assert (Hstudent : "student" ∈ register_roles) by (apply (bool_decide_unpack _); exact I).
  destruct Hassigned as [[_ ->] | [_ ->]]; [| exact Hstudent].
  rewrite registerValidation_role.
  destruct (RegisterBody.role body) as [r|] eqn:Hrole; simpl; [| exact Hstudent].
  pose proof (registerValidation_ok_role body r Hval Hrole) as Hin.
  rewrite (register_roles_truthy r Hin). exact Hin.
Qed.

(** ** C10: the role [admin] is refused by the validator *)

(** C10.  A registration whose [role] is ['admin'] throws the validation
    error (status 400) with the message of the role validator among its
    messages; the stores are not read and not changed, so an approval on
    file makes no difference.  Consequently every registration that succeeds
    creates a user whose role is not ['admin']. *)
Theorem register_admin_rejected `{Externals} (env : Env) (rnd : Rand) (now : Z) (w : World) :
  (forall body, RegisterBody.role body = Some "admin" ->
     exists msgs,
       "Invalid role specified" ∈ msgs
       /\ register env rnd now body w = (Threw (ApiError 400 (Js.join ", " msgs)), w))
  /\ (forall body resp w',
        register env rnd now body w = (Returned resp, w') ->
        exists user r,
          users w' = users w ++ [user] /\ User.role user <> "admin"
          /\ resp = Json 201 r
          /\ UserView.role (RegisterResponse.user r) <> "admin").
Proof.
  split.
  - intros body Hrole.
    assert (Hbad : "Invalid role specified" ∈ snd (registerValidation body)).
    { apply (registerValidation_bad_role body "admin" Hrole).
      intros Hin. exact (register_roles_not_admin "admin" Hin eq_refl). }
    exists (snd (registerValidation body)). split; [exact Hbad |].
    apply register_invalid. intros Hnil. rewrite Hnil in Hbad. inversion Hbad.
  - intros body resp w' Hreg.
    destruct (register_returned_role env rnd now body w w' resp Hreg)
      as (user & r & Husers & Hrole & -> & Hview).
    exists user, r. repeat split; [exact Husers | | ].
    + apply register_roles_not_admin. exact Hrole.
    + rewrite Hview. apply register_roles_not_admin. exact Hrole.
Qed.

(** ** C1: an unapproved role is downgraded *)

Lemma store_refresh_hash_ready `{Externals} (env : Env) (now : Z) (salt : string)
    (id : ObjectId) (t : Token) (w : World) :
  session_store_ready env ->
  exists w', store_refresh_hash env now salt id t w = (Returned tt, w')
             /\ users w' = users w.
Proof.
  intros Hready. destruct (isRedisEnabled env) eqn:Hon.
  - destruct Hready as [Hoff | [Hconn Httl]]; [congruence |].
    rewrite (store_refresh_hash_enabled env now salt id t w Hon Hconn Httl). eauto.
  - rewrite (store_refresh_hash_disabled env now salt id t w Hon). eauto.
Qed.

(** The amended C1.  A registration passes the validator (so the requested
    role is one of team_member, mentor, researcher, community), collides with
    no stored user, yields a document the schema accepts, and the server can
    sign tokens and store the refresh hash.  If the requested role is not
    ['student'] and no active approval of the lowercased email covers it, the
    registration succeeds with status 201, the created user has the role
    ['student'], and the response carries the notice with the requested and
    the assigned role, and a message naming the requested role. *)
Theorem register_unapproved_role_downgraded `{Externals} (env : Env) (rnd : Rand)
    (now : Z) (body b : RegisterBody.t) (w : World) (r : string) :
  registerValidation body = (b, []) ->
  RegisterBody.role body = Some r ->
  r <> "student" ->
  not_pre_approved w (RegisterBody.email b) r ->
  unused w (new_id rnd) b ->
  User.validate all_paths (new_user (new_id rnd) b "student") = [] ->
  can_sign env ->
  session_store_ready env ->
  exists resp w' user,
    register env rnd now body w = (Returned (Json 201 resp), w')
    /\ users w' = users w ++ [user]
    /\ User.role user = "student"
    /\ UserView.role (RegisterResponse.user resp) = "student"
    /\ RegisterResponse.roleNotice resp
       = Some (RoleNotice.mk r "student"
                 "Your requested role is not pre-approved. You have been registered as a student. An admin can update your role later.")
    /\ RegisterResponse.message resp
       = "User registered successfully. Requested role '" +:+ r
         +:+ "' is not pre-approved; assigned 'student'.".
Proof.
  intros Hv Hrole Hne Happroval Hunused Hschema Hsign Hready.
  assert (Hval : snd (registerValidation body) = []) by (rewrite Hv; reflexivity).
  pose proof (registerValidation_ok_role body r Hval Hrole) as Hin.
  pose proof (register_roles_truthy r Hin) as Htruthy.
  assert (Hrole0 : RegisterBody.role b = Some r).
  { rewrite <- Hrole. change b with (fst (b, @nil string)). rewrite <- Hv.
    apply registerValidation_role. }
  clear Hval.
  set (doc := new_user (new_id rnd) b "student").
  set (user := pre_save all_paths (password_salt rnd) doc).
  destruct (pre_save_fields all_paths (password_salt rnd) doc)
    as (Eid & Eemail & Erole & Esid & _).
  assert (Hsave : User_save true all_paths (password_salt rnd) doc w
                  = (Returned user, set_users (users w ++ [user]) w)).
  { apply User_save_new_ok; [exact Hschema | | |].
    - intros x Hx. exact (proj1 (Hunused x Hx)).
    - intros x Hx. exact (proj1 (proj2 (Hunused x Hx))).
    - intros x Hx Hsome. simpl.
      destruct (RegisterBody.studentId b) as [sid|] eqn:Hsid; simpl.
      + exact (proj2 (proj2 (Hunused x Hx)) sid Hsid).
      + destruct Hsome as [? Hsome]. simpl in Hsome. rewrite Hsid in Hsome. discriminate. }
  destruct (generateTokens_ok env now user Hsign) as (at_ & rt & Hat & Hrt).
  destruct (store_refresh_hash_ready env now (token_salt rnd) (User._id user) rt
              (set_users (users w ++ [user]) w) Hready) as (w2 & Hstore & Husers).
  eexists _, (add_audit (mkAudit "user_registration" (User._id user) true) w2), user.
  split.
  - unfold register. rewrite Hv. rewrite Hrole0. simpl.
    rewrite (bind_step (User_findOne_email (RegisterBody.email b)) _ w w None).
    2:{ unfold User_findOne_email. rewrite find_none_forall; [reflexivity |].
        intros x Hx. apply bool_decide_eq_false_2. exact (proj1 (proj2 (Hunused x Hx))). }
    rewrite (bind_step (ret tt) _ w w tt eq_refl).
    rewrite (bind_step _ _ w w tt).
    2:{ destruct (RegisterBody.studentId b) as [sid|] eqn:Hsid; [| reflexivity].
        destruct (Js.truthy sid); [| reflexivity].
        rewrite (bind_step (User_findOne_studentId sid) _ w w None); [reflexivity |].
        unfold User_findOne_studentId. rewrite find_none_forall; [reflexivity |].
        intros x Hx. apply bool_decide_eq_false_2.
        exact (proj2 (proj2 (Hunused x Hx)) sid Hsid). }
    rewrite (bind_step _ _ w w ("student", true)
               (role_gate_downgrades (RegisterBody.email b) r w Htruthy Hne Happroval)).
    cbv beta iota.
    rewrite (bind_step _ _ _ _ _ Hsave).
    rewrite (bind_step (lift (generateAuthToken env now user)) _ _ _ at_)
      by (unfold lift; rewrite Hat; reflexivity).
    rewrite (bind_step (lift (generateRefreshToken env now user)) _ _ _ rt)
      by (unfold lift; rewrite Hrt; reflexivity).
    rewrite (bind_step _ _ _ _ _ Hstore).
    reflexivity.
  - simpl. rewrite Husers. simpl.
    repeat split; rewrite ?Erole; reflexivity.
Qed.

(** ** Logout and the blacklist *)

Lemma jwt_verify_threw (t : Token) (secret : option string) (now : Z) (e : JsError) :
  jwt_verify t secret now = Threw e ->
  err_name e = "JsonWebTokenError" \/ err_name e = "TokenExpiredError".
Proof.
  unfold jwt_verify. destruct t as [c key | s]; [| intros [= <-]; left; reflexivity].
  destruct secret as [k|]; [| intros [= <-]; left; reflexivity].
  destruct (Js.truthy k); [| intros [= <-]; left; reflexivity].
  case_bool_decide; [| intros [= <-]; left; reflexivity].
  destruct (exp c) as [x|]; [| discriminate].
  destruct (x <=? now); [intros [= <-]; right; reflexivity | discriminate].
Qed.

Lemma jwt_verify_returned (t : Token) (secret : option string) (now : Z) (c : Claims) :
  jwt_verify t secret now = Returned c ->
  exists key, t = Jws c key /\ secret = Some key
              /\ match exp c with Some e => now < e | None => True end.
Proof.
  unfold jwt_verify. destruct t as [c0 key | s]; [| discriminate].
  destruct secret as [k|]; [| discriminate].
  destruct (Js.truthy k); [| discriminate].
  case_bool_decide as Hk; [| discriminate]. subst k.
  destruct (exp c0) as [x|] eqn:Hexp.
  - destruct (x <=? now) eqn:Hle; [discriminate |].
    intros [= <-]. exists key. rewrite Hexp. repeat split. lia.
  - intros [= <-]. exists key. rewrite Hexp. auto.
Qed.

Lemma blacklist_access_token_ready (env : Env) (now : Z)
    (authorization : option AuthHeader) (w : World) :
  isRedisEnabled env = true -> blacklist_ready env authorization ->
  exists w', blacklist_access_token env now authorization w = (Returned tt, w').
Proof.
  intros Hon [Hoff | [_ [Hnone | Httl]]]; [congruence | |];
    unfold blacklist_access_token; destruct authorization as [h|]; eauto.
  - rewrite Hnone. eauto.
  - destruct (header_truthy h); [| eauto].
    unfold redis_setEx, Redis.setEx. rewrite (proj2 (Z.ltb_lt _ _) Httl). eauto.
Qed.


(** A logout with a valid refresh token succeeds. *)
Lemma logout_valid (env : Env) (now : Z) (t : Token)
    (authorization : option AuthHeader) (w : World) :
  valid_refresh_token env now t -> blacklist_ready env authorization ->
  exists w', logout env now (Some t) authorization w
             = (Returned (Json 200 (MessageResponse.mk "Logged out successfully")), w').
Proof.
  intros (c & Hverify & Htype) Hready.
  destruct (jwt_verify_returned _ _ _ _ Hverify) as (key & -> & _).
  unfold logout. simpl.
  assert (Hstore : exists w1,
    (if isRedisEnabled env
     then lift (getRedisClient env);;
          redis_del (refresh_token (sub (payload c)));;
          blacklist_access_token env now authorization
     else ret tt) w = (Returned tt, w1)).
  { destruct (isRedisEnabled env) eqn:Hon; [| unfold ret; eauto].
    assert (Hconn : redisConnected env = true).
    { destruct Hready as [Hoff | [Hconn _]]; [congruence | exact Hconn]. }
    rewrite (bind_step _ _ _ _ _ (getRedisClient_connected env w Hconn)).
    rewrite (bind_step (redis_del (refresh_token (sub (payload c)))) _ w _ tt eq_refl).
    apply blacklist_access_token_ready; assumption. }
  destruct Hstore as (w1 & Hstore).
  eexists. apply try_catch_returned.
  rewrite (bind_step (lift (jwt_verify (Jws c key) (JWT_SECRET env) now)) _ w w c)
    by (unfold lift; rewrite Hverify; reflexivity).
  rewrite Htype. simpl.
  rewrite (bind_step (ret tt) _ w w tt eq_refl).
  rewrite (bind_step _ _ _ _ _ Hstore).
  reflexivity.
Qed.

(** A logout without a valid refresh token throws a plain [Error], which the
    error middleware answers with status 500; the stores are unchanged. *)
Lemma logout_invalid (env : Env) (now : Z) (refreshToken : option Token)
    (authorization : option AuthHeader) (w : World) :
  (forall t, refreshToken = Some t -> ~ valid_refresh_token env now t) ->
  exists msg,
    logout env now refreshToken authorization w = (Threw (Error msg), w)
    /\ errorHandler (B := MessageResponse.t) (Error msg) = Failure 500 msg.
Proof.
  intros Hinvalid. unfold logout.
  destruct refreshToken as [t|]; [| exists "Refresh token is required"; split; reflexivity].
  destruct (token_truthy t) eqn:Htruthy; simpl;
    [| exists "Refresh token is required"; split; reflexivity].
  unfold try_catch.
  destruct (jwt_verify t (JWT_SECRET env) now) as [c|e] eqn:Hverify.
  - rewrite (bind_step (lift (Returned c)) _ w w c eq_refl).
    destruct (bool_decide (p_type (payload c) = Some "refresh")) eqn:Htype.
    + exfalso. apply (Hinvalid t eq_refl). exists c. split; [exact Hverify |].
      exact (bool_decide_eq_true_1 _ Htype).
    + simpl. exists "Invalid token type". split; reflexivity.
  - rewrite (bind_threw (lift (Threw e)) _ w w e eq_refl).
    unfold rethrow_refresh.
    destruct (jwt_verify_threw _ _ _ _ Hverify) as [Hname | Hname]; rewrite Hname; simpl.
    + exists "Invalid refresh token". split; reflexivity.
    + exists "Refresh token expired". split; reflexivity.
Qed.

(** A logout with a valid refresh token while Redis is enabled and its
    client is not connected: [getRedisClient] throws, and the error
    middleware answers with status 500. *)
Lemma logout_store_down (env : Env) (now : Z) (t : Token)
    (authorization : option AuthHeader) (w : World) :
  valid_refresh_token env now t ->
  isRedisEnabled env = true -> redisConnected env = false ->
  logout env now (Some t) authorization w
  = (Threw (Error "Redis client not connected"), w).
Proof.
  intros (c & Hverify & Htype) Hon Hdown.
  destruct (jwt_verify_returned _ _ _ _ Hverify) as (key & -> & _).
  unfold logout. simpl. unfold try_catch.
  rewrite (bind_step (lift (jwt_verify (Jws c key) (JWT_SECRET env) now)) _ w w c)
    by (unfold lift; rewrite Hverify; reflexivity).
  rewrite Htype. simpl.
  rewrite (bind_step (ret tt) _ w w tt eq_refl).
  rewrite Hon.
  rewrite (bind_threw _ _ w w (Error "Redis client not connected")); [reflexivity |].
  apply bind_threw. apply getRedisClient_down. exact Hdown.
Qed.

(** ** C5: logout succeeds exactly on a valid refresh token *)

(** The amended C5.  A logout whose [refreshToken] is absent, empty,
    malformed, signed with another key, expired, or not of type [refresh]
    is answered with an error (status 500) and changes nothing.  A logout
    whose refresh token is valid, with or without an [Authorization] header,
    is answered with the success document when the Session Store can take
    the revocation ([blacklist_ready]: Redis is disabled, or its client is
    connected and, with a header, the time to live is positive), and the
    same request repeated while the token is still valid is answered with it
    again.  With Redis enabled and its client not connected a logout with a
    valid token is answered with status 500 and changes nothing. *)
Theorem logout_succeeds_on_valid_token (env : Env) (now : Z)
    (refreshToken : option Token) (authorization : option AuthHeader) (w : World) :
  ((forall t, refreshToken = Some t -> ~ valid_refresh_token env now t) ->
   exists msg,
     serve (logout env now refreshToken authorization) w = (Failure 500 msg, w))
  /\ (forall t, refreshToken = Some t ->
        valid_refresh_token env now t -> blacklist_ready env authorization ->
        exists w',
          serve (logout env now refreshToken authorization) w
          = (Json 200 (MessageResponse.mk "Logged out successfully"), w')
          /\ forall now', valid_refresh_token env now' t ->
               exists w'',
                 serve (logout env now' refreshToken authorization) w'
                 = (Json 200 (MessageResponse.mk "Logged out successfully"), w''))
  /\ (forall t, refreshToken = Some t ->
        valid_refresh_token env now t ->
        isRedisEnabled env = true -> redisConnected env = false ->
        serve (logout env now refreshToken authorization) w
        = (Failure 500 "Redis client not connected", w)).
Proof.
  split; [| split].
  - intros Hinvalid.
    destruct (logout_invalid env now refreshToken authorization w Hinvalid)
      as (msg & Hlogout & Hhandler).
    exists msg. unfold serve. rewrite Hlogout. simpl.
    unfold asyncHandler. rewrite Hhandler. reflexivity.
  - intros t -> Hvalid Hready.
    destruct (logout_valid env now t authorization w Hvalid Hready) as (w' & Hlogout).
    exists w'. split.
    + unfold serve. rewrite Hlogout. reflexivity.
    + intros now' Hvalid'.
      destruct (logout_valid env now' t authorization w' Hvalid' Hready) as (w'' & Hagain).
      exists w''. unfold serve. rewrite Hagain. reflexivity.
  - intros t -> Hvalid Hon Hdown.
    unfold serve. rewrite (logout_store_down env now t authorization w Hvalid Hon Hdown).
    reflexivity.
Qed.

(** ** C4: the time to live of a blacklist entry *)




Lemma User_save_redis `{Externals} (isNew : bool) (modified : list string)
    (salt : string) (u u' : User.t) (w w' : World) :
  User_save isNew modified salt u w = (Returned u', w') ->
  redis w' = redis w /\ User._id u' = User._id u.
Proof.
  unfold User_save. fold (pre_save modified salt u).
  destruct (pre_save_fields modified salt u) as (Eid & _).
  destruct (User.validate modified u); [| discriminate].
  destruct isNew.
  - repeat match goal with
           | |- context [if existsb ?f ?l then _ else _] => destruct (existsb f l)
           end; try discriminate.
    intros [= <- <-]. split; [reflexivity | exact Eid].
  - intros [= <- <-]. split; [reflexivity | exact Eid].
Qed.



(** ** The stored refresh-token hash *)

(** With Redis enabled and its client connected, the check on a slot that
    holds a hash passes exactly when the slot has not expired and the token
    agrees with the hashed input on the bytes bcrypt reads; it leaves the
    stores unchanged. *)
Lemma check_refresh_hash_slot `{Externals} (env : Env) (now : Z) (id : ObjectId)
    (t : Token) (salt input : string) (expires : Z) (w : World) :
  isRedisEnabled env = true ->
  redisConnected env = true ->
  redis w !! refresh_token id = Some (mkEntry (BcryptOf salt input) expires) ->
  (check_refresh_hash env now id t w = (Returned tt, w)
   <-> now < expires /\ bcrypt_input (token_bytes t) = input)
  /\ (~ (now < expires /\ bcrypt_input (token_bytes t) = input) ->
      exists msg, check_refresh_hash env now id t w = (Threw (Error msg), w)).
Proof.
  intros Hon Hconn Hslot.
  unfold check_refresh_hash, bind, lift, getRedisClient, redis_get, Redis.get.
  rewrite Hon, Hconn, Hslot. simpl.
  destruct (now <? expires) eqn:Hlive; simpl.
  - apply Z.ltb_lt in Hlive.
    case_bool_decide as Heq; simpl.
    + split; [split; auto | intros Hno; exfalso; apply Hno; auto].
    + split; [split; [discriminate | intros [_ ?]; contradiction] | eauto].
  - apply Z.ltb_ge in Hlive.
    split; [split; [discriminate | intros [? _]; lia] | eauto].
Qed.

(** With Redis enabled, a check that passes found a hash in the slot of the
    user, not expired, whose input is what bcrypt reads of the token. *)
Lemma check_refresh_hash_passed `{Externals} (env : Env) (now : Z) (id : ObjectId)
    (t : Token) (w w' : World) :
  isRedisEnabled env = true ->
  check_refresh_hash env now id t w = (Returned tt, w') ->
  w' = w
  /\ exists salt expires,
       redis w !! refresh_token id
       = Some (mkEntry (BcryptOf salt (bcrypt_input (token_bytes t))) expires)
       /\ now < expires.
Proof.
  intros Hon. unfold check_refresh_hash, bind, lift, getRedisClient, redis_get, Redis.get.
  rewrite Hon.
  destruct (redisConnected env); [| discriminate].
  destruct (redis w !! refresh_token id) as [[v expires]|]; simpl; [| discriminate].
  destruct (now <? expires) eqn:Hlive; [| discriminate].
  destruct (negb (value_truthy v)); [discriminate |].
  destruct v as [a | salt x]; simpl; [discriminate |].
  case_bool_decide as Heq; simpl; [| discriminate].
  intros [= <-]. split; [reflexivity |].
  exists salt, expires. rewrite <- Heq. split; [reflexivity | lia].
Qed.

(** A check that passes reached the Session Store. *)
Lemma check_refresh_hash_usable `{Externals} (env : Env) (now : Z) (id : ObjectId)
    (t : Token) (w w' : World) (u : unit) :
  check_refresh_hash env now id t w = (Returned u, w') ->
  session_store_usable env = true.
Proof.
  unfold check_refresh_hash, session_store_usable, bind, lift, getRedisClient.
  destruct (isRedisEnabled env); [| reflexivity].
  destruct (redisConnected env); [reflexivity | discriminate].
Qed.

Lemma check_refresh_hash_disabled `{Externals} (env : Env) (now : Z) (id : ObjectId)
    (t : Token) (w : World) :
  isRedisEnabled env = false ->
  check_refresh_hash env now id t w = (Returned tt, w).
Proof. intros Hoff. unfold check_refresh_hash. rewrite Hoff. reflexivity. Qed.

Lemma check_refresh_hash_world `{Externals} (env : Env) (now : Z) (id : ObjectId)
    (t : Token) (w w' : World) :
  check_refresh_hash env now id t w = (Returned tt, w') -> w' = w.
Proof.
  destruct (isRedisEnabled env) eqn:Hon.
  - intros Hcheck. exact (proj1 (check_refresh_hash_passed env now id t w w' Hon Hcheck)).
  - rewrite (check_refresh_hash_disabled env now id t w Hon). intros [= <-]. reflexivity.
Qed.

(** ** Refresh: what a successful call did *)

Lemma refresh_returned_inv `{Externals} (env : Env) (rnd : Rand) (now : Z)
    (t : Token) (w w' : World) (resp : Response RefreshResponse.t) :
  refresh env rnd now (Some t) w = (Returned resp, w') ->
  exists c user accessToken refreshToken w2,
    jwt_verify t (JWT_SECRET env) now = Returned c
    /\ p_type (payload c) = Some "refresh"
    /\ check_refresh_hash env now (sub (payload c)) t w = (Returned tt, w)
    /\ User._id user = sub (payload c)
    /\ generateAuthToken env now user = Returned accessToken
    /\ generateRefreshToken env now user = Returned refreshToken
    /\ store_refresh_hash env now (token_salt rnd) (User._id user) refreshToken w
       = (Returned tt, w2)
    /\ w' = add_audit (mkAudit "token_refresh" (User._id user) true) w2
    /\ resp = Json 200
                (RefreshResponse.mk "Token refreshed successfully"
                   (Tokens.mk accessToken refreshToken
                      (Js.str_or (JWT_EXPIRES_IN env) "24h"))).
Proof.
  unfold refresh. destruct (token_truthy t); simpl; [| discriminate].
  intros Href. apply try_catch_rethrow_returned in Href.
  bind_inv Href. rename a into c. unfold lift in Hm.
  destruct (jwt_verify t (JWT_SECRET env) now) as [c0|] eqn:Hverify; [| discriminate].
  injection Hm as -> <-.
  bind_inv Href.
  destruct (bool_decide (p_type (payload c) = Some "refresh")) eqn:Htype;
    simpl in Hm; [| discriminate].
  injection Hm as _ <-.
  bind_inv Href. destruct a0.
  pose proof (check_refresh_hash_world _ _ _ _ _ _ Hm) as ->.
  bind_inv Href. unfold User_findById in Hm0. injection Hm0 as <- <-.
  destruct (List.find _ (users w)) as [user|] eqn:Hfind; [| discriminate].
  destruct (negb (User.isActive user)); [discriminate |].
  apply find_some in Hfind. destruct Hfind as [_ Hid].
  bind_inv Href. unfold lift in Hm0. injection Hm0 as Hat <-.
  bind_inv Href. unfold lift in Hm0. injection Hm0 as Hrt <-.
  bind_inv Href. destruct a2.
  bind_inv Href. unfold logAuth in Hm1. injection Hm1 as <- <-.
  injection Href as <- <-.
  exists c, user, a0, a1, w0.
  repeat split; try assumption; try reflexivity.
  - exact (bool_decide_eq_true_1 _ Htype).
  - exact (bool_decide_eq_true_1 _ Hid).
Qed.

(** A refresh with a token that fails the stored-hash check throws. *)
Lemma refresh_check_fails `{Externals} (env : Env) (rnd : Rand) (now : Z)
    (c : Claims) (key : string) (w : World) (e : JsError) :
  check_refresh_hash env now (sub (payload c)) (Jws c key) w = (Threw e, w) ->
  exists e', refresh env rnd now (Some (Jws c key)) w = (Threw e', w).
Proof.
  intros Hcheck. unfold refresh. simpl.
  destruct (jwt_verify (Jws c key) (JWT_SECRET env) now) as [c0|e0] eqn:Hverify.
  - destruct (jwt_verify_returned _ _ _ _ Hverify) as (key0 & [= <- <-] & _).
    apply try_catch_rethrow_threw with (e := if bool_decide (p_type (payload c) = Some "refresh")
                                             then e else Error "Invalid token type").
    rewrite (bind_step (lift (jwt_verify (Jws c key) (JWT_SECRET env) now)) _ w w c)
      by (unfold lift; rewrite Hverify; reflexivity).
    destruct (bool_decide (p_type (payload c) = Some "refresh")); simpl.
    + rewrite (bind_step (ret tt) _ w w tt eq_refl).
      rewrite (bind_threw _ _ _ _ _ Hcheck). reflexivity.
    + reflexivity.
  - apply try_catch_rethrow_threw with (e := e0).
    rewrite (bind_threw (lift (jwt_verify (Jws c key) (JWT_SECRET env) now)) _ w w e0)
      by (unfold lift; rewrite Hverify; reflexivity).
    reflexivity.
Qed.

Lemma store_refresh_hash_rotates `{Externals} (env : Env) (salt : string) (now : Z)
    (user : User.t) (rt : Token) (w w2 : World) (e : AuditEntry) :
  isRedisEnabled env = true ->
  generateRefreshToken env now user = Returned rt ->
  store_refresh_hash env now salt (User._id user) rt w = (Returned tt, w2) ->
  rotated_to env salt now (add_audit e w2) rt.
Proof.
  intros Hon Hrt Hstore.
  assert (Hconn : redisConnected env = true).
  { destruct (store_refresh_hash_returned_ready _ _ _ _ _ _ _ _ Hstore) as [Hoff | [Hconn _]];
      [congruence | exact Hconn]. }
  apply generateRefreshToken_inv in Hrt. destruct Hrt as (key & d & _ & ->).
  apply store_refresh_hash_inv in Hstore. destruct Hstore as (_ & _ & _ & Hredis).
  specialize (Hredis Hon).
  eexists _, key. split; [reflexivity |]. split; [reflexivity |]. split; [reflexivity |].
  simpl. rewrite Hredis. split; [apply lookup_insert_eq |].
  intros t now'.
  eapply (proj1 (check_refresh_hash_slot env now' _ t salt _ _ _ Hon Hconn _)).
  Unshelve. simpl. rewrite Hredis. apply lookup_insert_eq.
Qed.

(** ** Rotation on refresh *)

(** What a refresh that succeeds does.  It returns an access token and a
    refresh token issued at the time of the call ([iat = now]); the refresh
    token differs from the presented one when that one was issued in another
    clock second.  With the Session Store enabled the slot of the user then
    holds the hash of the new refresh token, and the stored-hash check
    accepts a token exactly when the slot has not expired and the token
    agrees with the new one on the bytes bcrypt reads; a later
    refresh with the presented token throws when it differs from the new one
    on those bytes. *)
Theorem refresh_rotates `{Externals} (env : Env) (rnd : Rand) (now : Z)
    (t : Token) (w w' : World) (resp : Response RefreshResponse.t) :
  refresh env rnd now (Some t) w = (Returned resp, w') ->
  exists c key tokens ca cr,
    t = Jws c key
    /\ resp = Json 200 (RefreshResponse.mk "Token refreshed successfully" tokens)
    /\ Tokens.accessToken tokens = Jws ca key /\ iat ca = now
    /\ sub (payload ca) = sub (payload c)
    /\ Tokens.refreshToken tokens = Jws cr key /\ iat cr = now
    /\ payload cr = mkPayload (sub (payload c)) None None None (Some "refresh")
    /\ (iat c <> now -> Tokens.refreshToken tokens <> t)
    /\ (isRedisEnabled env = true ->
        rotated_to env (token_salt rnd) now w' (Tokens.refreshToken tokens)
        /\ (bcrypt_input (token_bytes t)
            <> bcrypt_input (token_bytes (Tokens.refreshToken tokens)) ->
            forall rnd' now', exists e,
              refresh env rnd' now' (Some t) w' = (Threw e, w'))).
Proof.
  intros Href. apply refresh_returned_inv in Href.
  destruct Href as (c & user & at_ & rt & w2 & Hverify & Htype & Hcheck & Hid
                    & Hat & Hrt & Hstore & -> & ->).
  destruct (jwt_verify_returned _ _ _ _ Hverify) as (key & -> & Hsecret & _).
  pose proof Hrt as Hrt0.
  apply generateRefreshToken_inv in Hrt. destruct Hrt as (key' & d & Hsecret' & ->).
  unfold generateAuthToken in Hat. apply jwt_sign_inv in Hat.
  destruct Hat as (key'' & d' & Hsecret'' & _ & _ & ->).
  assert (key' = key) as -> by congruence.
  assert (key'' = key) as -> by congruence.
  eexists c, key, _, _, _.
  split; [reflexivity |]. split; [reflexivity |]. simpl.
  split; [reflexivity |]. split; [reflexivity |]. split; [exact Hid |].
  split; [reflexivity |]. split; [reflexivity |].
  split; [rewrite Hid; reflexivity |].
  split.
  { intros Hiat Heq. injection Heq as <-. apply Hiat. reflexivity. }
  intros Hon.
  assert (Hconn : redisConnected env = true).
  { destruct (store_refresh_hash_returned_ready _ _ _ _ _ _ _ _ Hstore) as [Hoff | [Hconn _]];
      [congruence | exact Hconn]. }
  pose proof (store_refresh_hash_rotates env (token_salt rnd) now user _ w w2
                (mkAudit "token_refresh" (User._id user) true) Hon Hrt0 Hstore) as Hrot.
  split; [exact Hrot |].
  intros Hdiff rnd' now'.
  destruct Hrot as (cr & kr & [= <- <-] & _ & _ & Hslot & _).
  destruct (proj2 (check_refresh_hash_slot env now' (User._id user) (Jws c key) _ _ _
                     (add_audit (mkAudit "token_refresh" (User._id user) true) w2)
                     Hon Hconn Hslot)) as (msg & Hfail).
  { intros [_ Heq]. exact (Hdiff Heq). }
  apply (refresh_check_fails env rnd' now' c key _ (Error msg)).
  rewrite <- Hid. exact Hfail.
Qed.

(** ** Login: what a successful call did *)

Lemma login_notice_world (user : User.t) (desiredRole : option string)
    (w w' : World) (n : option RoleNotice.t) :
  login_notice user desiredRole w = (Returned n, w') -> w' = w.
Proof.
  unfold login_notice. destruct desiredRole as [d|]; [| intros [= _ <-]; reflexivity].
  destruct (Js.truthy d && negb (bool_decide (d = User.role user)));
    [| intros [= _ <-]; reflexivity].
  unfold bind, RoleApproval_findOne_active.
  destruct (negb _); intros [= _ <-]; reflexivity.
Qed.

Lemma login_returned_inv `{Externals} (env : Env) (rnd : Rand) (now : Z)
    (body : LoginBody.t) (w w' : World) (resp : Response LoginResponse.t) :
  login env rnd now body w = (Returned resp, w') ->
  exists user accessToken refreshToken roleNotice w1 w2,
    generateAuthToken env now user = Returned accessToken
    /\ generateRefreshToken env now user = Returned refreshToken
    /\ store_refresh_hash env now (token_salt rnd) (User._id user) refreshToken w1
       = (Returned tt, w2)
    /\ w' = add_audit (mkAudit "login_success" (User._id user) true) w2
    /\ resp = Json 200
                (LoginResponse.mk "Login successful" (UserView.of_user user)
                   (User.permissions user) (User.lastLogin user)
                   (Tokens.mk accessToken refreshToken
                      (Js.str_or (JWT_EXPIRES_IN env) "24h"))
                   roleNotice).
Proof.
  unfold login.
  destruct (loginValidation body) as [b errors].
  destruct errors; [| discriminate].
  intros Hlogin.
  bind_inv Hlogin. unfold User_findOne_email in Hm. injection Hm as <- <-.
  destruct (List.find _ (users w)) as [user0|]; [| discriminate].
  destruct (negb (User.isActive user0)); [discriminate |].
  destruct (negb (User.comparePassword user0 (LoginBody.password b))).
  { bind_inv Hlogin. discriminate. }
  bind_inv Hlogin. rename a into user. rename w0 into w1. clear Hm.
  bind_inv Hlogin. apply login_notice_world in Hm. subst w0.
  bind_inv Hlogin. unfold lift in Hm. injection Hm as Hat <-.
  bind_inv Hlogin. unfold lift in Hm. injection Hm as Hrt <-.
  bind_inv Hlogin. destruct a2.
  bind_inv Hlogin. unfold logAuth in Hm0. injection Hm0 as <- <-.
  injection Hlogin as <- <-.
  exists user, a0, a1, a, w1, w0.
  repeat split; assumption.
Qed.

(** ** One refresh-token slot per user *)

(** The refresh-token slot.  With the Session Store enabled:
    - the store holds one slot per user id, and two tokens that pass the
      stored-hash check of a user at the same time agree on the bytes bcrypt
      reads (the first 72 of the token string);
    - every register, login and refresh that succeeds leaves in the slot of
      the user the hash of the refresh token it returns, a token issued at
      the time of the call; from then on the check accepts a token exactly
      when the slot has not expired and the token agrees with that one on
      those bytes. *)
Theorem single_refresh_slot `{Externals} (env : Env) :
  isRedisEnabled env = true ->
  (forall w now id t1 t2 w1 w2,
     check_refresh_hash env now id t1 w = (Returned tt, w1) ->
     check_refresh_hash env now id t2 w = (Returned tt, w2) ->
     bcrypt_input (token_bytes t1) = bcrypt_input (token_bytes t2))
  /\ (forall rnd now body w w' resp,
        register env rnd now body w = (Returned resp, w') ->
        exists r, resp = Json 201 r
          /\ rotated_to env (token_salt rnd) now w'
               (Tokens.refreshToken (RegisterResponse.tokens r)))
  /\ (forall rnd now body w w' resp,
        login env rnd now body w = (Returned resp, w') ->
        exists r, resp = Json 200 r
          /\ rotated_to env (token_salt rnd) now w'
               (Tokens.refreshToken (LoginResponse.tokens r)))
  /\ (forall rnd now t w w' resp,
        refresh env rnd now (Some t) w = (Returned resp, w') ->
        exists r, resp = Json 200 r
          /\ rotated_to env (token_salt rnd) now w'
               (Tokens.refreshToken (RefreshResponse.tokens r))).
Proof.
  intros Hon. split; [| split; [| split]].
  - intros w now id t1 t2 w1 w2 H1 H2.
    apply (check_refresh_hash_passed env now id t1 w w1 Hon) in H1.
    apply (check_refresh_hash_passed env now id t2 w w2 Hon) in H2.
    destruct H1 as (_ & s1 & e1 & Hslot1 & _).
    destruct H2 as (_ & s2 & e2 & Hslot2 & _).
    congruence.
  - intros rnd now body w w' resp Hreg.
    apply register_returned_inv in Hreg.
    destruct Hreg as (_ & assigned & adjusted & user & at_ & rt & w1 & w2
                      & _ & _ & _ & Hrt & Hstore & -> & ->).
    eexists. split; [reflexivity |]. simpl.
    exact (store_refresh_hash_rotates env _ now user rt w1 w2 _ Hon Hrt Hstore).
  - intros rnd now body w w' resp Hlogin.
    apply login_returned_inv in Hlogin.
    destruct Hlogin as (user & at_ & rt & notice & w1 & w2 & _ & Hrt & Hstore & -> & ->).
    eexists. split; [reflexivity |]. simpl.
    exact (store_refresh_hash_rotates env _ now user rt w1 w2 _ Hon Hrt Hstore).
  - intros rnd now t w w' resp Href.
    apply refresh_returned_inv in Href.
    destruct Href as (c & user & at_ & rt & w2 & _ & _ & _ & _ & _ & Hrt & Hstore & -> & ->).
    eexists. split; [reflexivity |]. simpl.
    exact (store_refresh_hash_rotates env _ now user rt w w2 _ Hon Hrt Hstore).
Qed.

(** ** C6: the password-reset request *)

(** The Session Store can be reached and the mail transport accepts every
    message (or there is none and the mail is only logged). *)
Lemma forgotPassword_answer `{Externals} (env : Env) (rnd : Rand) (now : Z)
    (email : string) (w : World) :
  isEmail email = true ->
  (exists key d, JWT_SECRET env = Some key /\ Js.truthy key = true
                 /\ timespan "1h" = Some d) ->
  session_store_usable env = true ->
  match smtp env with NoTransport => True | Transport f => forall to, f to = true end ->
  fst (serve (forgotPassword env rnd now email) w)
  = Json 200
      (MessageResponse.mk
         "If an account with that email exists, a password reset link has been sent").
Proof.
  intros Hemail (key & d & Hsecret & Hkey & Hspan) Husable Hsmtp.
  unfold serve, forgotPassword, forgotPasswordValidation. rewrite Hemail.
  unfold bind at 1. unfold User_findOne_email.
  destruct (List.find _ (users w)) as [user|]; [| reflexivity].
  unfold jwt_sign. rewrite Hsecret, Hkey, Hspan.
  unfold bind, lift, getRedisClient, sendPasswordResetEmail, sendEmail.
  unfold session_store_usable in Husable.
  destruct (isRedisEnabled env); simpl in Husable |- *; try rewrite Husable; simpl;
    destruct (smtp env) as [|f]; try rewrite Hsmtp; reflexivity.
Qed.

(** C6.  Alice has an account, nobody@example.com has none, and the mail
    transport rejects.  The request for the unknown address is answered with
    the success document; the request for Alice's address is answered with
    an error: the two responses tell the addresses apart. *)
Theorem forgotPassword_discloses_on_mail_failure :
  (exists alice, users Example.world1 = [alice] /\ User.email alice = "alice@example.com")
  /\ fst (serve (forgotPassword (H := Reference.externals) Example.env_smtp_down
                   Example.rnd 2000 "nobody@example.com") Example.world1)
     = Json 200
         (MessageResponse.mk
            "If an account with that email exists, a password reset link has been sent")
  /\ fst (serve (forgotPassword (H := Reference.externals) Example.env_smtp_down
                   Example.rnd 2000 "alice@example.com") Example.world1)
     = Failure 500 "sendMail failed".
Proof.
  split; [eexists; split; vm_compute; reflexivity |].
  split; vm_compute; reflexivity.
Qed.

(** ** The compact serialization and the bytes bcrypt reads *)

Lemma join_cons (sep x : string) (l : list string) :
  l <> [] -> Js.join sep (x :: l) = x +:+ sep +:+ Js.join sep l.
Proof. destruct l; [congruence | reflexivity]. Qed.

Lemma append_cons (x : ascii) (a b : string) : String x a +:+ b = String x (a +:+ b).
Proof. reflexivity. Qed.

Lemma append_nil (b : string) : EmptyString +:+ b = b.
Proof. reflexivity. Qed.

Lemma append_assoc (a b c : string) : (a +:+ b) +:+ c = a +:+ (b +:+ c).
Proof.
  induction a as [|x a IH]; [reflexivity |].
  rewrite !append_cons, IH. reflexivity.
Qed.

Lemma base64url_triple (a b c : ascii) (r : string) :
  Reference.base64url (String a (String b (String c r)))
  = String (Reference.b64_char
              ((65536 * Reference.code a + 256 * Reference.code b + Reference.code c) / 262144))
      (String (Reference.b64_char
                 ((65536 * Reference.code a + 256 * Reference.code b + Reference.code c)
                  / 4096 mod 64))
         (String (Reference.b64_char
                    ((65536 * Reference.code a + 256 * Reference.code b + Reference.code c)
                     / 64 mod 64))
            (String (Reference.b64_char
                       ((65536 * Reference.code a + 256 * Reference.code b + Reference.code c)
                        mod 64))
               (Reference.base64url r)))).
Proof. reflexivity. Qed.

(** In the compact serialization the first 72 bytes of a token end inside
    the [sub] claim: they are the header, the dot, and 35 characters that
    encode the opening brace, the key [sub] and the first characters of the
    id.  Two tokens whose
    ids start with the same nineteen characters agree on them, whatever
    their other claims, times and keys. *)
Lemma compact_prefix_by_sub (c1 c2 : Claims) (key1 key2 : string) (p r1 r2 : string) :
  String.length p = 19%nat ->
  Reference.json_escape (sub (payload c1)) = p +:+ r1 ->
  Reference.json_escape (sub (payload c2)) = p +:+ r2 ->
  bcrypt_input (Reference.compact (Jws c1 key1))
  = bcrypt_input (Reference.compact (Jws c2 key2)).
Proof.
  intros Hlen H1 H2.
  assert (Hshape : forall c key r,
    Reference.json_escape (sub (payload c)) = p +:+ r ->
    exists rest tail,
      bcrypt_input (Reference.compact (Jws c key))
      = bcrypt_input
          ("eyJhbGciOiJIUzI1NiIsInR5cCI6IkpXVCJ9."
           +:+ Reference.base64url
                 (String "{" (String (ascii_of_nat 34) (String "s" (String "u" (String "b"
                    (String (ascii_of_nat 34) (String ":" (String (ascii_of_nat 34)
                       (p +:+ rest)))))))))
           +:+ tail)).
  { intros c key r Hsub.
    unfold Reference.compact, Reference.json_claims.
    cbv zeta. rewrite <- (app_comm_cons []). rewrite app_nil_l.
    rewrite join_cons.
    2:{ intros Hnil. do 4 (apply app_eq_nil in Hnil; destruct Hnil as [_ Hnil]).
        discriminate Hnil. }
    change (Reference.base64url
              ("{" +:+ Reference.json_field "alg" (Reference.json_string "HS256") +:+ ","
               +:+ Reference.json_field "typ" (Reference.json_string "JWT") +:+ "}"))
      with "eyJhbGciOiJIUzI1NiIsInR5cCI6IkpXVCJ9".
    unfold Reference.json_field at 1. unfold Reference.json_string at 1 2.
    rewrite Hsub.
    eexists _, _.
    unfold Reference.dq. rewrite !append_assoc, !append_cons, !append_nil.
    reflexivity. }
  destruct (Hshape c1 key1 r1 H1) as (rest1 & tail1 & ->).
  destruct (Hshape c2 key2 r2 H2) as (rest2 & tail2 & ->).
  do 19 (destruct p as [|? p]; [discriminate Hlen |]).
  destruct p; [| discriminate Hlen].
  unfold bcrypt_input, Reference.dq. rewrite !append_cons, !append_nil.
  rewrite !base64url_triple.
  reflexivity.
Qed.

(** Hence, with the compact serialization, once the slot of a user holds the
    hash of one of her tokens, the stored-hash check accepts every token
    that names her, whatever its other claims, its times and its key, for as
    long as the slot lives. *)
Lemma stored_hash_accepts_every_token_of_the_user (env : Env) (salt : string)
    (now now' : Z) (w : World) (c c' : Claims) (key key' : string) (p r : string) :
  rotated_to (H := Reference.externals) env salt now w (Jws c key) ->
  sub (payload c') = sub (payload c) ->
  String.length p = 19%nat ->
  Reference.json_escape (sub (payload c)) = p +:+ r ->
  now' < now + refresh_ttl env ->
  check_refresh_hash (H := Reference.externals) env now' (sub (payload c)) (Jws c' key') w
  = (Returned tt, w).
Proof.
  intros (c0 & key0 & [= <- <-] & _ & _ & _ & Hcheck) Hsub Hlen Hp Hlive.
  apply Hcheck. split; [exact Hlive |].
  apply (compact_prefix_by_sub c' c key' key p r r Hlen); [rewrite Hsub |]; exact Hp.
Qed.

(** ** The claims the code does not meet, at concrete inputs *)

(** C1 as stated fails: the requested role is ['admin'], no approval is on
    file, every other field is valid (the same body without a role
    registers), and the registration is refused with status 400. *)
Lemma register_admin_not_downgraded :
  RegisterBody.role (Example.alice_body (Some "admin")) = Some "admin"
  /\ approvals Example.empty = []
  /\ is_success (fst (serve (register (H := Reference.externals) Example.env Example.rnd
                               1000 (Example.alice_body None)) Example.empty)) = true
  /\ fst (serve (register (H := Reference.externals) Example.env Example.rnd 1000
                   (Example.alice_body (Some "admin"))) Example.empty)
     = Failure 400 "Invalid role specified".
Proof. repeat split; vm_compute; reflexivity. Qed.

(** C3.  Alice refreshes at 2000 with the refresh token issued at 1000.  The call succeeds and returns a new refresh token, and at 2500
    the token she presented is accepted again: the two tokens agree on their
    first 72 bytes, so the old one passes the stored-hash comparison. *)
Lemma refresh_old_token_still_accepted :
  exists tokens,
    Example.refresh_tokens (fst Example.refresh_a) = Some tokens
    /\ Tokens.refreshToken tokens <> Example.refresh1
    /\ bcrypt_input (Reference.compact (Tokens.refreshToken tokens))
       = bcrypt_input (Reference.compact Example.refresh1)
    /\ is_success
         (fst (serve (refresh (H := Reference.externals) Example.env Example.rnd 2500
                        (Some Example.refresh1))
                 (snd Example.refresh_a)))
       = true.
Proof.
  eexists. split; [vm_compute; reflexivity |].
  split; [discriminate |].
  split; vm_compute; reflexivity.
Qed.


(** C5 as stated fails: a logout without a refresh token, and a logout with
    a string that is no token, are answered with status 500. *)
Lemma logout_without_token_fails :
  fst (serve (logout Example.env 2000 None (Some (Bearer Example.access1))) Example.world1)
  = Failure 500 "Refresh token is required"
  /\ fst (serve (logout Example.env 2000 (Some (Junk "not-a-token")) None) Example.world1)
     = Failure 500 "Invalid refresh token".
Proof. split; vm_compute; reflexivity. Qed.

(** C9.  Alice, registered at 1000, logs in at 2000 from one client and at
    3000 from another.  After the last login the refresh
    tokens of the registration and of the first login both pass the
    stored-hash check, and the oldest is still accepted by refresh. *)
Lemma later_login_keeps_earlier_tokens :
  exists first second,
    Example.login_tokens (fst Example.login_a) = Some first
    /\ Example.login_tokens (fst Example.login_b) = Some second
    /\ Tokens.refreshToken first <> Tokens.refreshToken second
    /\ fst (check_refresh_hash (H := Reference.externals) Example.env 3500
              "65f0a1b2c3d4e5f601234567" (Tokens.refreshToken first) (snd Example.login_b))
       = Returned tt
    /\ fst (check_refresh_hash (H := Reference.externals) Example.env 3500
              "65f0a1b2c3d4e5f601234567" Example.refresh1 (snd Example.login_b))
       = Returned tt
    /\ is_success
         (fst (serve (refresh (H := Reference.externals) Example.env Example.rnd 3500
                        (Some Example.refresh1)) (snd Example.login_b))) = true.
Proof.
  eexists _, _. split; [vm_compute; reflexivity |].
  split; [vm_compute; reflexivity |].
  split; [discriminate |].
  split; [vm_compute; reflexivity |].
  split; vm_compute; reflexivity.
Qed.

(** ** The theorems at work *)

Lemma pair_eta_fst {A B : Type} (p : A * B) (a : A) : fst p = a -> p = (a, snd p).
Proof. intros <-. destruct p; reflexivity. Qed.

(** The amended C1 at work: Alice asks for the role mentor, nothing is on
    file for her address, and she is registered as a student with the
    notice. *)
Lemma register_unapproved_role_downgraded_witness :
  exists resp w' user,
    register (H := Reference.externals) Example.env Example.rnd 1000
      (Example.alice_body (Some "mentor")) Example.empty
    = (Returned (Json 201 resp), w')
    /\ users w' = users Example.empty ++ [user]
    /\ User.role user = "student"
    /\ UserView.role (RegisterResponse.user resp) = "student"
    /\ RegisterResponse.roleNotice resp
       = Some (RoleNotice.mk "mentor" "student"
                 "Your requested role is not pre-approved. You have been registered as a student. An admin can update your role later.")
    /\ RegisterResponse.message resp
       = "User registered successfully. Requested role '" +:+ "mentor"
         +:+ "' is not pre-approved; assigned 'student'.".
Proof.
  eapply (register_unapproved_role_downgraded (H := Reference.externals)
            Example.env Example.rnd 1000 (Example.alice_body (Some "mentor"))).
  - vm_compute. reflexivity.
  - reflexivity.
  - discriminate.
  - intros a Ha. inversion Ha.
  - intros x Hx. inversion Hx.
  - vm_compute. reflexivity.
  - exists "s3cret", 86400, 604800. repeat split; vm_compute; reflexivity.
  - right. split; [reflexivity | vm_compute; reflexivity].
Defined.

(** C2 at work: Alice's account is deactivated at 5000 while her access token
    is valid until 87400; the guard refuses the token. *)
Lemma verifyToken_rejects_deactivated_witness :
  exists msg,
    verifyToken Example.env 5000 (Some (Bearer Example.access1)) Example.world_deactivated
    = (Threw (ApiError 401 msg), Example.world_deactivated)
    /\ msg = "User account is deactivated"
    /\ errorHandler (B := unit) (ApiError 401 msg) = Failure 401 msg.
Proof.
  edestruct (verifyToken_rejects_deactivated Example.env 5000 Example.world_deactivated
               Example.access1) as (msg & Hguard & Hmsg & Hanswer).
  - vm_compute. reflexivity.
  - vm_compute. reflexivity.
  - reflexivity.
  - exists msg. split; [exact Hguard |]. split; [| exact Hanswer].
    rewrite Hmsg. vm_compute. reflexivity.
Defined.

(** A refresh at work: Alice refreshes at 2000 with the token issued at
    1000. *)
Lemma refresh_rotates_witness :
  exists resp c key tokens ca cr,
    Example.refresh1 = Jws c key
    /\ resp = Json 200 (RefreshResponse.mk "Token refreshed successfully" tokens)
    /\ Tokens.accessToken tokens = Jws ca key /\ iat ca = 2000
    /\ sub (payload ca) = sub (payload c)
    /\ Tokens.refreshToken tokens = Jws cr key /\ iat cr = 2000
    /\ payload cr = mkPayload (sub (payload c)) None None None (Some "refresh")
    /\ (iat c <> 2000 -> Tokens.refreshToken tokens <> Example.refresh1)
    /\ (isRedisEnabled Example.env = true ->
        rotated_to (H := Reference.externals) Example.env (token_salt Example.rnd) 2000
          (snd Example.refresh_a) (Tokens.refreshToken tokens)
        /\ (bcrypt_input (Reference.compact Example.refresh1)
            <> bcrypt_input (Reference.compact (Tokens.refreshToken tokens)) ->
            forall rnd' now', exists e,
              refresh (H := Reference.externals) Example.env rnd' now'
                (Some Example.refresh1) (snd Example.refresh_a)
              = (Threw e, snd Example.refresh_a))).
Proof.
  eexists.
  eapply (refresh_rotates (H := Reference.externals) Example.env Example.rnd 2000
            Example.refresh1 Example.world1).
  apply pair_eta_fst. vm_compute. reflexivity.
Defined.


(** The amended C5 at work: Alice logs out at 2000 with her refresh token,
    and again. *)
Lemma logout_succeeds_on_valid_token_witness :
  valid_refresh_token Example.env 2000 Example.refresh1
  /\ blacklist_ready Example.env (Some (Bearer Example.access1))
  /\ exists w',
       serve (logout Example.env 2000 (Some Example.refresh1)
                (Some (Bearer Example.access1))) Example.world1
       = (Json 200 (MessageResponse.mk "Logged out successfully"), w')
       /\ forall now', valid_refresh_token Example.env now' Example.refresh1 ->
            exists w'',
              serve (logout Example.env now' (Some Example.refresh1)
                       (Some (Bearer Example.access1))) w'
              = (Json 200 (MessageResponse.mk "Logged out successfully"), w'').
Proof.
  assert (Hvalid : valid_refresh_token Example.env 2000 Example.refresh1).
  { eexists. split; vm_compute; reflexivity. }
  assert (Hready : blacklist_ready Example.env (Some (Bearer Example.access1))).
  { right. split; [reflexivity | right; vm_compute; reflexivity]. }
  split; [exact Hvalid |]. split; [exact Hready |].
  exact (proj1 (proj2 (logout_succeeds_on_valid_token Example.env 2000 (Some Example.refresh1)
                  (Some (Bearer Example.access1)) Example.world1))
           Example.refresh1 eq_refl Hvalid Hready).
Defined.

(** The slot at work: the login of Alice at 2000. *)
Lemma single_refresh_slot_witness :
  isRedisEnabled Example.env = true
  /\ exists r,
       fst Example.login_a = Returned (Json 200 r)
       /\ rotated_to (H := Reference.externals) Example.env (token_salt Example.rnd) 2000
            (snd Example.login_a) (Tokens.refreshToken (LoginResponse.tokens r)).
Proof.
  split; [reflexivity |].
  assert (Hlogin : exists resp, Example.login_a = (Returned resp, snd Example.login_a)).
  { eexists. apply pair_eta_fst. vm_compute. reflexivity. }
  destruct Hlogin as (resp & Hlogin).
  destruct (proj1 (proj2 (proj2 (single_refresh_slot (H := Reference.externals)
                                   Example.env eq_refl)))
              Example.rnd 2000 Example.alice_login Example.world1
              (snd Example.login_a) resp Hlogin) as (r & -> & Hrot).
  exists r. split; [| exact Hrot].
  rewrite Hlogin. reflexivity.
Defined.

(** C10 at work: Alice asks for the role admin. *)
Lemma register_admin_rejected_witness :
  RegisterBody.role (Example.alice_body (Some "admin")) = Some "admin"
  /\ exists msgs,
       "Invalid role specified" ∈ msgs
       /\ register (H := Reference.externals) Example.env Example.rnd 1000
            (Example.alice_body (Some "admin")) Example.world1
          = (Threw (ApiError 400 (Js.join ", " msgs)), Example.world1).
Proof.
  split; [reflexivity |].
  exact (proj1 (register_admin_rejected (H := Reference.externals) Example.env Example.rnd
                  1000 Example.world1)
           (Example.alice_body (Some "admin")) eq_refl).
Defined.

(** * Further properties *)

(** ** The optional guard *)

Lemma optionalAuth_total (env : Env) (now : Z) (authorization : option AuthHeader)
    (w : World) :
  exists r, optionalAuth env now authorization w = (Returned r, w).
Proof.
  unfold optionalAuth. destruct authorization as [h|]; [| eexists; reflexivity].
  destruct (negb (header_truthy h) || negb (startsWithBearer h)); [eexists; reflexivity |].
  unfold try_catch, bind, redis_get, lift, getRedisClient, User_findById, ret.
  destruct (isRedisEnabled env); [destruct (redisConnected env) |];
    repeat match goal with
    | |- context [match Redis.get ?r ?n ?k with _ => _ end] =>
        destruct (Redis.get r n k) as [?v|]
    | |- context [if value_truthy ?v then _ else _] => destruct (value_truthy v)
    | |- context [match jwt_verify ?t ?s ?n with _ => _ end] =>
        destruct (jwt_verify t s n) as [?c|?e]
    | |- context [match List.find ?p ?l with _ => _ end] =>
        destruct (List.find p l) as [?u|]
    | |- context [if User.isActive ?u then _ else _] => destruct (User.isActive u)
    end;
    eexists; reflexivity.
Qed.

(** What [verifyToken] did when it attached an identity. *)
Lemma verifyToken_returned_inv (env : Env) (now : Z) (authorization : option AuthHeader)
    (w w' : World) (i : Identity.t) :
  verifyToken env now authorization w = (Returned i, w') ->
  exists token decoded user,
    authorization = Some (Bearer token)
    /\ blacklisted env now w token = false
    /\ jwt_verify token (JWT_SECRET env) now = Returned decoded
    /\ List.find (fun u => bool_decide (User._id u = sub (payload decoded))) (users w)
       = Some user
    /\ User.isActive user = true
    /\ i = identity_of user
    /\ w' = add_audit (mkAudit "token_verification" (User._id user) true) w.
Proof.
  unfold verifyToken, blacklisted. destruct authorization as [h|]; [| discriminate].
  destruct (negb (header_truthy h) || negb (startsWithBearer h)) eqn:Hh; [discriminate |].
  unfold middleware, try_catch, bind, redis_get, lift, getRedisClient, User_findById,
    logAuth, next_err, next_ok, ret, throw.
  destruct (isRedisEnabled env); [destruct (redisConnected env) |]; simpl.
  - destruct (Redis.get (redis w) now (blacklist (substring7 h))) as [v|] eqn:Hget.
    + destruct (value_truthy v) eqn:Hv; [discriminate |].
      destruct (jwt_verify (substring7 h) (JWT_SECRET env) now) as [c|e] eqn:Hverify.
      * destruct (List.find _ (users w)) as [u|] eqn:Hfind; [| discriminate].
        destruct (User.isActive u) eqn:Hact; simpl; [| discriminate].
        intros [= <- <-].
        destruct h as [t|s]; [| simpl in Hverify; discriminate].
        exists t, c, u. simpl in *. rewrite Hget. repeat split; assumption.
      * repeat case_bool_decide; discriminate.
    + destruct (jwt_verify (substring7 h) (JWT_SECRET env) now) as [c|e] eqn:Hverify.
      * destruct (List.find _ (users w)) as [u|] eqn:Hfind; [| discriminate].
        destruct (User.isActive u) eqn:Hact; simpl; [| discriminate].
        intros [= <- <-].
        destruct h as [t|s]; [| simpl in Hverify; discriminate].
        exists t, c, u. simpl in *. rewrite Hget. repeat split; assumption.
      * repeat case_bool_decide; discriminate.
  - discriminate.
  - destruct (jwt_verify (substring7 h) (JWT_SECRET env) now) as [c|e] eqn:Hverify.
    + destruct (List.find _ (users w)) as [u|] eqn:Hfind; [| discriminate].
      destruct (User.isActive u) eqn:Hact; simpl; [| discriminate].
      intros [= <- <-].
      destruct h as [t|s]; [| simpl in Hverify; discriminate].
      exists t, c, u. simpl in *. repeat split; assumption.
    + repeat case_bool_decide; discriminate.
Qed.

(** [verifyToken] attaches an identity only when it can reach the Session
    Store. *)
Lemma verifyToken_returned_usable (env : Env) (now : Z) (authorization : option AuthHeader)
    (w w' : World) (i : Identity.t) :
  verifyToken env now authorization w = (Returned i, w') ->
  session_store_usable env = true.
Proof.
  unfold verifyToken, session_store_usable. destruct authorization as [h|]; [| discriminate].
  destruct (negb (header_truthy h) || negb (startsWithBearer h)); [discriminate |].
  unfold middleware, try_catch, bind, lift, getRedisClient, next_err, ret, throw.
  destruct (isRedisEnabled env); [| reflexivity].
  destruct (redisConnected env); [reflexivity |]. simpl. discriminate.
Qed.

(** What makes [verifyToken] attach an identity. *)
Lemma verifyToken_admits (env : Env) (now : Z) (w : World) (token : Token)
    (decoded : Claims) (user : User.t) :
  session_store_usable env = true ->
  blacklisted env now w token = false ->
  jwt_verify token (JWT_SECRET env) now = Returned decoded ->
  List.find (fun u => bool_decide (User._id u = sub (payload decoded))) (users w) = Some user ->
  User.isActive user = true ->
  verifyToken env now (Some (Bearer token)) w
  = (Returned (identity_of user),
     add_audit (mkAudit "token_verification" (User._id user) true) w).
Proof.
  unfold session_store_usable, blacklisted. intros Husable Hbl Hverify Hfind Hact.
  unfold verifyToken. simpl.
  apply middleware_inr, try_catch_returned.
  unfold bind, redis_get, lift, getRedisClient, User_findById, logAuth, next_ok,
    next_err, ret.
  destruct (isRedisEnabled env); simpl in *.
  - rewrite Husable, Hbl, Hverify, Hfind, Hact. reflexivity.
  - rewrite Hverify, Hfind, Hact. reflexivity.
Qed.

(** X1.  [optionalAuth] never passes an error on and never writes: whatever
    the header, it hands over to the next handler with the stores as they
    were. *)
Theorem optionalAuth_never_fails (env : Env) (now : Z) (authorization : option AuthHeader)
    (w : World) :
  exists attached, optionalAuth env now authorization w = (Returned attached, w).
Proof. apply optionalAuth_total. Qed.

(** X2.  [optionalAuth] attaches an identity exactly when [verifyToken]
    admits the same request, and it is the same identity. *)
Theorem optionalAuth_attaches_what_verifyToken_admits (env : Env) (now : Z)
    (authorization : option AuthHeader) (w : World) (i : Identity.t) :
  fst (optionalAuth env now authorization w) = Returned (Some i)
  <-> fst (verifyToken env now authorization w) = Returned i.
Proof.
  unfold optionalAuth, verifyToken.
  destruct authorization as [h|]; [| split; discriminate].
  destruct (negb (header_truthy h) || negb (startsWithBearer h)); [split; discriminate |].
  unfold middleware, try_catch, bind, redis_get, lift, getRedisClient, User_findById,
    logAuth, next_err, next_ok, ret, throw.
  destruct (isRedisEnabled env); [destruct (redisConnected env) |]; simpl.
  - destruct (Redis.get (redis w) now (blacklist (substring7 h))) as [v|];
      [destruct (value_truthy v); [split; discriminate |] |];
      (destruct (jwt_verify (substring7 h) (JWT_SECRET env) now) as [c|e];
       [destruct (List.find _ (users w)) as [u|]; [| split; discriminate];
        destruct (User.isActive u); simpl; [| split; discriminate];
        split; intros [= <-]; reflexivity
       | repeat case_bool_decide; split; discriminate]).
  - split; discriminate.
  - destruct (jwt_verify (substring7 h) (JWT_SECRET env) now) as [c|e].
    + destruct (List.find _ (users w)) as [u|]; [| split; discriminate].
      destruct (User.isActive u); simpl; [| split; discriminate].
      split; intros [= <-]; reflexivity.
    + repeat case_bool_decide; split; discriminate.
Qed.

(** X3.  [verifyToken] admits a bearer token exactly when it can reach the
    Session Store (Redis is disabled, or its client is connected), the token
    is not on the blacklist, [jwt.verify] accepts it and the user it names is
    stored and active.  The identity it attaches is read from the stored
    user, not from the claims, and the [type] claim is not examined. *)
Theorem verifyToken_admits_exactly (env : Env) (now : Z) (w w' : World) (token : Token)
    (i : Identity.t) :
  verifyToken env now (Some (Bearer token)) w = (Returned i, w')
  <-> exists decoded user,
        session_store_usable env = true
        /\ blacklisted env now w token = false
        /\ jwt_verify token (JWT_SECRET env) now = Returned decoded
        /\ List.find (fun u => bool_decide (User._id u = sub (payload decoded))) (users w)
           = Some user
        /\ User.isActive user = true
        /\ i = identity_of user
        /\ w' = add_audit (mkAudit "token_verification" (User._id user) true) w.
Proof.
  split.
  - intros Hv. pose proof (verifyToken_returned_usable _ _ _ _ _ _ Hv) as Husable.
    apply verifyToken_returned_inv in Hv.
    destruct Hv as (t & c & u & [= <-] & Hbl & Hverify & Hfind & Hact & -> & ->).
    exists c, u. repeat split; assumption.
  - intros (c & u & Husable & Hbl & Hverify & Hfind & Hact & -> & ->).
    apply (verifyToken_admits env now w token c u); assumption.
Qed.

(** ** The role and permission guards *)

(** A wider list of roles admits whoever a narrower one admits. *)
Lemma requireRole_mono (roles roles' : list string) (user : option Identity.t) :
  roles ⊆ roles' ->
  requireRole roles user = Returned tt -> requireRole roles' user = Returned tt.
Proof.
  intros Hsub. unfold requireRole, Js.array_includes.
  destruct user as [i|]; [| discriminate].
  case_bool_decide as Hin; simpl; [| discriminate].
  intros _. rewrite bool_decide_eq_true_2; [reflexivity |]. apply Hsub. exact Hin.
Qed.

(** X4.  The four named role guards form a ladder: whoever passes
    [requireAdmin] passes [requireMentor], whoever passes that passes
    [requireTeamMember], and whoever passes that passes [requireStudent].
    A user whose role is [community] is refused by all four with status
    403, and a request without identity with 401. *)
Theorem role_guards_form_a_ladder (user : option Identity.t) :
  (requireAdmin user = Returned tt -> requireMentor user = Returned tt)
  /\ (requireMentor user = Returned tt -> requireTeamMember user = Returned tt)
  /\ (requireTeamMember user = Returned tt -> requireStudent user = Returned tt)
  /\ (forall i, user = Some i -> Identity.role i = "community" ->
        forall guard, guard ∈ [requireAdmin; requireMentor; requireTeamMember; requireStudent] ->
          exists msg, guard user = Threw (ApiError 403 msg))
  /\ (user = None ->
        forall guard, guard ∈ [requireAdmin; requireMentor; requireTeamMember; requireStudent] ->
          guard user = Threw (ApiError 401 "Authentication required. Please log in.")).
Proof.
  split; [| split; [| split; [| split]]].
  - apply requireRole_mono. intros r. rewrite !elem_of_cons, !elem_of_nil. tauto.
  - apply requireRole_mono. intros r. rewrite !elem_of_cons, !elem_of_nil. tauto.
  - apply requireRole_mono. intros r. rewrite !elem_of_cons, !elem_of_nil. tauto.
  - intros i -> Hrole guard Hguard.
    rewrite !elem_of_cons, elem_of_nil in Hguard.
    destruct Hguard as [-> | [-> | [-> | [-> | []]]]];
      unfold requireAdmin, requireMentor, requireTeamMember, requireStudent, requireRole;
      rewrite Hrole; eexists; reflexivity.
  - intros -> guard Hguard.
    rewrite !elem_of_cons, elem_of_nil in Hguard.
    destruct Hguard as [-> | [-> | [-> | [-> | []]]]]; reflexivity.
Qed.

Lemma requirePermission_forallb (ps : list string) (i : Identity.t) :
  requirePermission ps (Some i) = Returned tt
  <-> forallb (fun p => Js.array_includes p (Identity.permissions i)) ps = true.
Proof.
  unfold requirePermission.
  destruct (forallb _ ps); simpl; split; congruence.
Qed.

(** X5.  [requirePermission] asks for every listed permission: a list
    passes exactly when each of its parts passes, the empty list passes for
    every authenticated user, and on the identity of a stored user the guard
    agrees with the model's [hasAllPermissions] (and with [hasPermission] on
    each element); when the list is not empty, passing implies
    [hasAnyPermission]. *)
Theorem requirePermission_asks_for_all (ps qs : list string) (u : User.t) :
  (forall user,
     requirePermission (ps ++ qs) user = Returned tt
     <-> requirePermission ps user = Returned tt /\ requirePermission qs user = Returned tt)
  /\ requirePermission [] (Some (identity_of u)) = Returned tt
  /\ (requirePermission ps (Some (identity_of u)) = Returned tt
      <-> User.hasAllPermissions u ps = true)
  /\ (User.hasAllPermissions u ps = true
      <-> forall p, p ∈ ps -> User.hasPermission u p = true)
  /\ (ps <> [] -> User.hasAllPermissions u ps = true -> User.hasAnyPermission u ps = true).
Proof.
  split; [| split; [| split; [| split]]].
  - intros [i|]; [| simpl; split; [discriminate | intros [? _]; discriminate]].
    rewrite !requirePermission_forallb, forallb_app, andb_true_iff. reflexivity.
  - reflexivity.
  - apply requirePermission_forallb.
  - unfold User.hasAllPermissions, User.hasPermission.
    rewrite forallb_forall. split; intros Hall p Hp; apply Hall.
    + apply list_elem_of_In. exact Hp.
    + apply list_elem_of_In. exact Hp.
  - unfold User.hasAllPermissions, User.hasAnyPermission.
    destruct ps as [|p ps]; [congruence |]. simpl.
    intros _ Hall. apply andb_prop in Hall. destruct Hall as [-> _]. reflexivity.
Qed.

(** ** Default permissions along the roles *)

Lemma list_subseteq_forallb (l1 l2 : list string) :
  forallb (fun p => bool_decide (p ∈ l2)) l1 = true -> l1 ⊆ l2.
Proof.
  rewrite forallb_forall. intros Hall p Hp.
  apply (bool_decide_eq_true_1 _ (Hall p (proj1 (list_elem_of_In _ _) Hp))).
Qed.

(** X6.  The default permissions grow along the ladder community, student,
    team_member, mentor, researcher, admin: each role has every default
    permission of the role before it. *)
Theorem default_permissions_grow_with_role (u1 u2 : User.t) :
  (User.role u1, User.role u2)
    ∈ [("community", "student"); ("student", "team_member"); ("team_member", "mentor");
       ("mentor", "researcher"); ("researcher", "admin")] ->
  User.getDefaultPermissions u1 ⊆ User.getDefaultPermissions u2.
Proof.
  rewrite !elem_of_cons, elem_of_nil. unfold User.getDefaultPermissions.
  intros [[= -> ->] | [[= -> ->] | [[= -> ->] | [[= -> ->] | [[= -> ->] | []]]]]];
    apply list_subseteq_forallb; vm_compute; reflexivity.
Qed.

(** X7.  The default permissions of [admin] are all the values of the
    permission enum, so an admin who holds them passes [requirePermission]
    for every list of valid permissions. *)
Theorem admin_defaults_pass_every_permission_guard (u : User.t) (ps : list string) :
  User.role u = "admin" ->
  User.permissions u = User.getDefaultPermissions u ->
  Forall (fun p => p ∈ User.permission_values) ps ->
  requirePermission ps (Some (identity_of u)) = Returned tt
  /\ (forall p, p ∈ User.permissions u <-> p ∈ User.permission_values).
Proof.
  intros Hrole Hperms Hvalid.
  assert (Hall : forall p, p ∈ User.permissions u <-> p ∈ User.permission_values).
  { rewrite Hperms. unfold User.getDefaultPermissions. rewrite Hrole.
    intros p. split; revert p.
    - apply list_subseteq_forallb. vm_compute. reflexivity.
    - apply list_subseteq_forallb. vm_compute. reflexivity. }
  split; [| exact Hall].
  apply requirePermission_forallb. simpl.
  rewrite forallb_forall. intros p Hp.
  unfold Js.array_includes. apply bool_decide_eq_true_2. apply Hall.
  rewrite Forall_forall in Hvalid. apply Hvalid. apply list_elem_of_In. exact Hp.
Qed.

(** ** The project and workshop guards *)

Lemma existsb_strict_eq_objectid (o : ObjectId) (members : list ObjectId) :
  existsb (fun member => strict_eq_string member (VObjectId o)) members = false.
Proof. induction members as [|m ms IH]; [reflexivity | simpl; exact IH]. Qed.

(** With an identity whose [id] is a string, the project guard admits the
    team leader, the mentor and the team members. *)
Lemma requireProjectTeamMember_string_id (findById : string -> option Project.t)
    (i : Identity.t) (uid : string) (id projectId : option string) (project : Project.t) :
  param_or id projectId ≫= findById = Some project ->
  Identity.id i = VString uid ->
  Project.teamLeaderId project = Some uid \/ Project.mentorId project = Some uid
  \/ uid ∈ Project.teamMembers project ->
  requireProjectTeamMember findById (Some i) id projectId = Returned project.
Proof.
  intros Hfind Hid Hmember. unfold requireProjectTeamMember. rewrite Hfind, Hid.
  case_bool_decide; [reflexivity |].
  destruct Hmember as [-> | [-> | Hin]].
  - simpl. rewrite bool_decide_eq_true_2 by reflexivity. reflexivity.
  - simpl. rewrite bool_decide_eq_true_2 by reflexivity. rewrite orb_true_r. reflexivity.
  - assert (Hex : existsb (fun member => strict_eq_string member (VString uid))
                    (Project.teamMembers project) = true).
    { apply existsb_exists. exists uid. split; [apply list_elem_of_In; exact Hin |].
      simpl. apply bool_decide_eq_true_2. reflexivity. }
    rewrite Hex. destruct (_ || _); reflexivity.
Qed.

(** X8.  Behind [verifyToken], [requireProjectTeamMember] and
    [requireWorkshopInstructor] admit administrators only.  The identity
    [verifyToken] attaches carries the ObjectId of the user as its [id], and
    both guards compare it with [===] to a string: for a user who is not an
    administrator the project guard answers 403 whoever leads, mentors or is
    a member of the project, and the workshop guard answers 403 whoever the
    instructor is. *)
Theorem member_guards_admit_only_admins_behind_verifyToken (env : Env) (now : Z)
    (authorization : option AuthHeader) (w w' : World) (i : Identity.t) :
  verifyToken env now authorization w = (Returned i, w') ->
  (forall findById id projectId project,
     param_or id projectId ≫= findById = Some project ->
     requireProjectTeamMember findById (Some i) id projectId
     = if bool_decide (Identity.role i = "admin") then Returned project
       else Threw (ApiError 403 "Access denied. You are not a member of this project"))
  /\ (forall findById id workshopId workshop instructor,
        param_or id workshopId ≫= findById = Some workshop ->
        Workshop.instructorId workshop = Some instructor ->
        requireWorkshopInstructor findById (Some i) id workshopId
        = if bool_decide (Identity.role i = "admin") then Returned workshop
          else Threw (ApiError 403
                        "Access denied. You are not the instructor of this workshop")).
Proof.
  intros Hv. apply verifyToken_returned_inv in Hv.
  destruct Hv as (t & c & u & _ & _ & _ & _ & _ & -> & _).
  split.
  - intros findById id projectId project Hfind.
    unfold requireProjectTeamMember. rewrite Hfind.
    cbn [identity_of Identity.role Identity.id].
    case_bool_decide; [reflexivity |].
    rewrite existsb_strict_eq_objectid.
    destruct (Project.teamLeaderId project), (Project.mentorId project); reflexivity.
  - intros findById id workshopId workshop instructor Hfind Hinstr.
    unfold requireWorkshopInstructor. rewrite Hfind, Hinstr. simpl.
    case_bool_decide; reflexivity.
Qed.

(** ** The error middleware *)

Lemma truthy_ne (s : string) : Js.truthy s = true <-> s <> "".
Proof.
  unfold Js.truthy. case_bool_decide as Hs; simpl.
  - split; [discriminate | intros Hne; contradiction].
  - split; [intros _; exact Hs | reflexivity].
Qed.

(** What [errorHandler] sends: the status and the message of the last test
    that applies.  The status is that of one of its own branches, 500, or
    the [statusCode] the error carries. *)
Lemma errorHandler_sends {B : Type} (err : JsError) :
  exists statusCode message,
    errorHandler (B := B) err
    = (if sends_document statusCode then Failure statusCode message
       else Irregular statusCode)
    /\ message <> ""
    /\ (statusCode ∈ [400; 401; 404; 409; 429; 500]
        \/ err_statusCode err = Some statusCode /\ statusCode <> 0).
Proof.
  unfold errorHandler.
  match goal with
  | |- context [sends_document ?s] => set (statusCode := s)
  end.
  match goal with
  | |- context [Failure statusCode ?m] => set (message := m)
  end.
  exists statusCode, message. split; [reflexivity |]. split.
  - subst message.
    match goal with
    | |- (if Js.truthy ?m then _ else _) <> _ =>
        destruct (Js.truthy m) eqn:Ht; [apply truthy_ne; exact Ht | discriminate]
    end.
  - subst statusCode. clear message.
    destruct (Js.truthy (err_message err)
              && Js.includes "Authentication error" (err_message err));
      [left; cbn; set_unfold; tauto |].
    destruct (bool_decide (err_status err = Some 429)); [left; cbn; set_unfold; tauto |].
    destruct (bool_decide (err_code err = Some "LIMIT_UNEXPECTED_FILE"));
      [left; cbn; set_unfold; tauto |].
    destruct (bool_decide (err_code err = Some "LIMIT_FILE_SIZE"));
      [left; cbn; set_unfold; tauto |].
    destruct (bool_decide (err_name err = "TokenExpiredError"));
      [left; cbn; set_unfold; tauto |].
    destruct (bool_decide (err_name err = "JsonWebTokenError"));
      [left; cbn; set_unfold; tauto |].
    destruct (bool_decide (err_name err = "ValidationError"));
      [left; cbn; set_unfold; tauto |].
    destruct (err_dupKey err); [left; cbn; set_unfold; tauto |].
    destruct (bool_decide (err_name err = "CastError")); [left; cbn; set_unfold; tauto |].
    cbn [fst]. destruct (err_statusCode err) as [n|]; [| left; set_unfold; tauto].
    destruct (n =? 0) eqn:Hn; [left; set_unfold; tauto |].
    right. split; [reflexivity | apply Z.eqb_neq; exact Hn].
Qed.

(** X9.  An [ApiError] whose status is that of an error response (400 to
    599) and whose message is not empty reaches the client with its own
    status and message, unless the message contains
    ['Authentication error']: such a message is replaced, with status 401,
    whatever the status of the error was.  This covers the errors of the
    handler factories (400, 401, 403, 404, 409, 429, 500). *)
Theorem errorHandler_keeps_api_errors {B : Type} (statusCode : Z) (message : string) :
  400 <= statusCode <= 599 ->
  message <> "" ->
  (Js.includes "Authentication error" message = false ->
   errorHandler (B := B) (ApiError statusCode message) = Failure statusCode message)
  /\ (Js.includes "Authentication error" message = true ->
      forall status,
        errorHandler (B := B) (ApiError status message)
        = Failure 401 "Socket authentication failed.").
Proof.
  intros Hstatus Hmessage.
  assert (Htruthy : Js.truthy message = true) by (apply truthy_ne; exact Hmessage).
  split; intros Hinc; [| intros status];
    unfold errorHandler, ApiError; simpl; rewrite Htruthy, Hinc; simpl.
  - rewrite Htruthy.
    assert (Hnz : (statusCode =? 0) = false) by (apply Z.eqb_neq; lia).
    rewrite Hnz. unfold sends_document.
    replace (300 <=? statusCode) with true by (symmetry; apply Z.leb_le; lia).
    replace (statusCode <=? 999) with true by (symmetry; apply Z.leb_le; lia).
    replace (statusCode =? 304) with false by (symmetry; apply Z.eqb_neq; lia).
    reflexivity.
  - reflexivity.
Qed.

(** X10.  Whatever the error, [errorHandler] answers with a message that is
    not empty and with the status of one of its own branches (400, 401,
    404, 409, 429), with 500, or with the [statusCode] the error carries.
    So unless the error carries a [statusCode] of its own outside 400 to
    599, the client receives an error document with a status between 400
    and 599; an error without [statusCode] that no branch recognises is
    answered with 500, and with ['Internal Server Error'] when it has no
    message. *)
Theorem errorHandler_always_answers {B : Type} (err : JsError) :
  (match err_statusCode err with
   | Some n => n = 0 \/ 400 <= n <= 599
   | None => True
   end ->
   exists statusCode message,
     errorHandler (B := B) err = Failure statusCode message
     /\ 400 <= statusCode <= 599 /\ message <> "")
  /\ (forall statusCode,
        errorHandler (B := B) err = Irregular statusCode ->
        err_statusCode err = Some statusCode /\ ~ 400 <= statusCode <= 599)
  /\ (err_statusCode err = None ->
      err_name err = "Error" -> err_dupKey err = None ->
      err_code err = None -> err_status err = None ->
      Js.includes "Authentication error" (err_message err) = false ->
      errorHandler (B := B) err
      = Failure 500 (if Js.truthy (err_message err) then err_message err
                     else "Internal Server Error")).
Proof.
  destruct (errorHandler_sends (B := B) err) as (statusCode & message & Hsend & Hmsg & Hstatus).
  assert (Hown : statusCode ∈ [400; 401; 404; 409; 429; 500] ->
                 sends_document statusCode = true /\ 400 <= statusCode <= 599).
  { set_unfold. intros [-> | [-> | [-> | [-> | [-> | [-> | []]]]]]]; split; reflexivity || lia. }
  split; [| split].
  - intros Hcarried. exists statusCode, message.
    assert (Hrange : sends_document statusCode = true /\ 400 <= statusCode <= 599).
    { destruct Hstatus as [Hin | [Heq Hnz]]; [exact (Hown Hin) |].
      rewrite Heq in Hcarried. destruct Hcarried as [-> | Hr]; [contradiction |].
      split; [| exact Hr]. unfold sends_document.
      replace (300 <=? statusCode) with true by (symmetry; apply Z.leb_le; lia).
      replace (statusCode <=? 999) with true by (symmetry; apply Z.leb_le; lia).
      replace (statusCode =? 304) with false by (symmetry; apply Z.eqb_neq; lia).
      reflexivity. }
    destruct Hrange as [Hsd Hr]. rewrite Hsend, Hsd. repeat split; assumption || lia.
  - intros status Hirr. rewrite Hsend in Hirr.
    destruct (sends_document statusCode) eqn:Hsd; [discriminate |].
    injection Hirr as <-.
    destruct Hstatus as [Hin | [Heq Hnz]].
    + destruct (Hown Hin) as [Hsd' _]. congruence.
    + split; [exact Heq |]. intros Hr. unfold sends_document in Hsd.
      replace (300 <=? statusCode) with true in Hsd by (symmetry; apply Z.leb_le; lia).
      replace (statusCode <=? 999) with true in Hsd by (symmetry; apply Z.leb_le; lia).
      replace (statusCode =? 304) with false in Hsd by (symmetry; apply Z.eqb_neq; lia).
      discriminate.
  - intros Hnone Hname Hdup Hcode Hst Hinc. unfold errorHandler.
    rewrite Hnone, Hname, Hdup, Hcode, Hst, Hinc. rewrite andb_false_r. reflexivity.
Qed.

(** ** Updating a stored user *)

(** The documents of [l] with the one whose [_id] is that of [u'] replaced
    by [u']. *)
Lemma User_save_update_inv `{Externals} (modified : list string) (salt : string)
    (u u' : User.t) (w w' : World) :
  User_save false modified salt u w = (Returned u', w') ->
  User.validate modified u = []
  /\ u' = pre_save modified salt u
  /\ w' = set_users (replace_user u' (users w)) w.
Proof.
  unfold User_save, replace_user. fold (pre_save modified salt u).
  destruct (User.validate modified u); [| discriminate].
  intros [= <- <-]. repeat split; reflexivity.
Qed.

Lemma User_save_update_ok `{Externals} (modified : list string) (salt : string)
    (u : User.t) (w : World) :
  User.validate modified u = [] ->
  User_save false modified salt u w
  = (Returned (pre_save modified salt u),
     set_users (replace_user (pre_save modified salt u) (users w)) w).
Proof.
  intros Hvalid. unfold User_save, replace_user. fold (pre_save modified salt u).
  rewrite Hvalid. reflexivity.
Qed.

(** After a replacement, the lookup by [_id] that found a document finds the
    new one. *)
Lemma find_replace_user (u u' : User.t) (l : list User.t) :
  List.find (fun x => bool_decide (User._id x = User._id u')) l = Some u ->
  List.find (fun x => bool_decide (User._id x = User._id u')) (replace_user u' l) = Some u'.
Proof.
  unfold replace_user. induction l as [|x l IH]; [discriminate |]. simpl.
  case_bool_decide as Hx; simpl.
  - intros _. rewrite bool_decide_eq_true_2 by reflexivity. reflexivity.
  - rewrite bool_decide_eq_false_2 by exact Hx. exact IH.
Qed.

(** A replacement keeps the documents with another [_id]. *)
Lemma find_replace_user_other (u' : User.t) (id : ObjectId) (l : list User.t) :
  id <> User._id u' ->
  List.find (fun x => bool_decide (User._id x = id)) (replace_user u' l)
  = List.find (fun x => bool_decide (User._id x = id)) l.
Proof.
  intros Hne. unfold replace_user. induction l as [|x l IH]; [reflexivity |]. simpl.
  destruct (bool_decide (User._id x = User._id u')) eqn:Hx.
  - apply bool_decide_eq_true_1 in Hx.
    rewrite (bool_decide_eq_false_2 (User._id u' = id)) by congruence.
    rewrite (bool_decide_eq_false_2 (User._id x = id)) by congruence.
    exact IH.
  - destruct (bool_decide (User._id x = id)); [reflexivity | exact IH].
Qed.

Lemma validate_nothing_checked `{Externals} (modified : list string) (u : User.t) :
  (forall path, path ∈ all_paths -> path ∉ modified) ->
  User.validate modified u = [].
Proof.
  intros Hnone. unfold User.validate, User.isModified.
  assert (Hoff : forall path, path ∈ all_paths -> bool_decide (path ∈ modified) = false).
  { intros path Hp. apply bool_decide_eq_false_2. apply Hnone. exact Hp. }
  rewrite !Hoff by (apply (bool_decide_unpack _); vm_compute; exact I).
  reflexivity.
Qed.

Lemma pre_save_untouched (modified : list string) (salt : string) (u : User.t) :
  "passwordHash" ∉ modified -> "role" ∉ modified -> pre_save modified salt u = u.
Proof.
  intros Hp Hr. unfold pre_save, User.hashPasswordHook, User.defaultPermissionsHook,
    User.isModified.
  rewrite (bool_decide_eq_false_2 _ Hp), (bool_decide_eq_false_2 _ Hr). reflexivity.
Qed.

Lemma pre_save_password (salt : string) (u : User.t) :
  pre_save ["passwordHash"] salt u
  = User.set_passwordHash (bcrypt_hash id (User.passwordHash u) salt) u.
Proof. reflexivity. Qed.

Lemma validate_password `{Externals} (p : string) (u : User.t) :
  (8 <= String.length p)%nat ->
  User.validate ["passwordHash"] (User.set_passwordHash (Raw p) u) = [].
Proof.
  intros Hlen. unfold User.validate, User.isModified.
  assert (Htruthy : Js.truthy p = true) by (destruct p; [simpl in Hlen; lia | reflexivity]).
  assert (Hlong : (8 <=? String.length p)%nat = true) by (apply Nat.leb_le; exact Hlen).
  cbn [User.passwordHash User.set_passwordHash].
  rewrite Htruthy, Hlong.
  reflexivity.
Qed.

(** ** Login: who is let in, and what it changes *)

Lemma updateLastLogin_eq `{Externals} (now : Z) (u : User.t) (w : World) :
  updateLastLogin now u w
  = (Returned (User.set_lastLogin now u),
     set_users (replace_user (User.set_lastLogin now u) (users w)) w).
Proof.
  unfold updateLastLogin.
  rewrite User_save_update_ok.
  - rewrite pre_save_untouched; [reflexivity | |];
      rewrite list_elem_of_singleton; discriminate.
  - apply validate_nothing_checked. intros path Hp.
    rewrite list_elem_of_singleton. intros ->.
    revert Hp. apply (bool_decide_unpack _). vm_compute. exact I.
Qed.

(** What a login that succeeds found and did. *)
Lemma login_returned_user `{Externals} (env : Env) (rnd : Rand) (now : Z)
    (body : LoginBody.t) (w w' : World) (resp : Response LoginResponse.t) :
  login env rnd now body w = (Returned resp, w') ->
  exists user0 r,
    snd (loginValidation body) = []
    /\ List.find (fun u => bool_decide
                             (User.email u
                              = schema_email (normalizeEmail (LoginBody.email body))))
         (users w) = Some user0
    /\ User.isActive user0 = true
    /\ User.comparePassword user0 (LoginBody.password body) = true
    /\ users w' = replace_user (User.set_lastLogin now user0) (users w)
    /\ approvals w' = approvals w
    /\ resp = Json 200 r
    /\ LoginResponse.user r = UserView.of_user (User.set_lastLogin now user0)
    /\ LoginResponse.permissions r = User.permissions user0.
Proof.
  unfold login.
  destruct (loginValidation body) as [b errors] eqn:Hval.
  assert (Hb : b = fst (loginValidation body)) by (rewrite Hval; reflexivity).
  destruct errors; [| discriminate].
  intros Hlogin.
  bind_inv Hlogin. unfold User_findOne_email in Hm. injection Hm as <- <-.
  destruct (List.find _ (users w)) as [user0|] eqn:Hfind; [| discriminate].
  destruct (User.isActive user0) eqn:Hact; simpl in Hlogin; [| discriminate].
  destruct (User.comparePassword user0 (LoginBody.password b)) eqn:Hpw; simpl in Hlogin.
  2:{ bind_inv Hlogin. discriminate. }
  rewrite (bind_step _ _ _ _ _ (updateLastLogin_eq now user0 w)) in Hlogin.
  bind_inv Hlogin. apply login_notice_world in Hm. subst w0.
  bind_inv Hlogin. unfold lift in Hm. injection Hm as Hat <-.
  bind_inv Hlogin. unfold lift in Hm. injection Hm as Hrt <-.
  bind_inv Hlogin. destruct a2.
  apply store_refresh_hash_inv in Hm. destruct Hm as (Husers & Happrovals & _).
  bind_inv Hlogin. unfold logAuth in Hm. injection Hm as <- <-.
  injection Hlogin as <- <-.
  subst b. simpl in *.
  eexists user0, _.
  repeat split; try assumption; reflexivity.
Qed.

Lemma NoDup_fmap_eq {A B : Type} (f : A -> B) (l : list A) (x y : A) :
  NoDup (f <$> l) -> x ∈ l -> y ∈ l -> f x = f y -> x = y.
Proof.
  induction l as [|a l IH]; [intros _ Hx; inversion Hx |].
  rewrite fmap_cons, NoDup_cons, !elem_of_cons.
  intros [Hnot Hnd] [-> | Hx] [-> | Hy] Heq.
  - reflexivity.
  - exfalso. apply Hnot. rewrite Heq. apply list_elem_of_fmap_2. exact Hy.
  - exfalso. apply Hnot. rewrite <- Heq. apply list_elem_of_fmap_2. exact Hx.
  - exact (IH Hnd Hx Hy Heq).
Qed.

Lemma replace_user_Forall2 (u' : User.t) (R : User.t -> User.t -> Prop) (l : list User.t) :
  (forall x, R x x) ->
  (forall x, x ∈ l -> User._id x = User._id u' -> R x u') ->
  Forall2 R l (replace_user u' l).
Proof.
  intros Hrefl. unfold replace_user.
  induction l as [|x l IH]; intros Hnew; [constructor |]. simpl. constructor.
  - case_bool_decide as Hx; [apply Hnew; [apply list_elem_of_here | exact Hx] | apply Hrefl].
  - apply IH. intros y Hy. apply Hnew. apply list_elem_of_further. exact Hy.
Qed.

(** X11.  A login that succeeds, whatever [desiredRole] it carries, changes
    of the stored users only the [lastLogin] of the user who logged in:
    roles, permissions, password hashes and the approvals on file are as
    before, and the response reports the stored role and permissions. *)
Theorem login_never_changes_roles `{Externals} (env : Env) (rnd : Rand) (now : Z)
    (body : LoginBody.t) (w w' : World) (resp : Response LoginResponse.t) :
  indexes_hold w ->
  login env rnd now body w = (Returned resp, w') ->
  Forall2 (fun x x' => x' = x \/ x' = User.set_lastLogin now x) (users w) (users w')
  /\ approvals w' = approvals w
  /\ exists r user,
       resp = Json 200 r /\ user ∈ users w
       /\ UserView.id (LoginResponse.user r) = User._id user
       /\ UserView.role (LoginResponse.user r) = User.role user
       /\ LoginResponse.permissions r = User.permissions user.
Proof.
  intros (Hids & _) Hlogin. apply login_returned_user in Hlogin.
  destruct Hlogin as (user0 & r & _ & Hfind & _ & _ & Husers & Happrovals & -> & Hview & Hperm).
  apply find_some in Hfind. destruct Hfind as [Hin _]. apply list_elem_of_In in Hin.
  split; [| split; [exact Happrovals |]].
  - rewrite Husers. apply replace_user_Forall2; [left; reflexivity |].
    intros x Hx Hid. right.
    rewrite (NoDup_fmap_eq User._id (users w) x user0 Hids Hx Hin Hid). reflexivity.
  - exists r, user0. rewrite Hview. repeat split; try reflexivity; assumption.
Qed.


(** What a refresh that succeeds found. *)
Lemma refresh_returned_user `{Externals} (env : Env) (rnd : Rand) (now : Z)
    (t : Token) (w w' : World) (resp : Response RefreshResponse.t) :
  refresh env rnd now (Some t) w = (Returned resp, w') ->
  exists c user,
    jwt_verify t (JWT_SECRET env) now = Returned c
    /\ p_type (payload c) = Some "refresh"
    /\ List.find (fun u => bool_decide (User._id u = sub (payload c))) (users w) = Some user
    /\ User.isActive user = true
    /\ users w' = users w /\ approvals w' = approvals w.
Proof.
  unfold refresh. destruct (token_truthy t); simpl; [| discriminate].
  intros Href. apply try_catch_rethrow_returned in Href.
  bind_inv Href. rename a into c. unfold lift in Hm.
  destruct (jwt_verify t (JWT_SECRET env) now) as [c0|] eqn:Hverify; [| discriminate].
  injection Hm as -> <-.
  bind_inv Href.
  destruct (bool_decide (p_type (payload c) = Some "refresh")) eqn:Htype;
    simpl in Hm; [| discriminate].
  injection Hm as _ <-.
  bind_inv Href. destruct a0.
  pose proof (check_refresh_hash_world _ _ _ _ _ _ Hm) as ->.
  bind_inv Href. unfold User_findById in Hm0. injection Hm0 as <- <-.
  destruct (List.find _ (users w)) as [user|] eqn:Hfind; [| discriminate].
  destruct (User.isActive user) eqn:Hact; simpl in Href; [| discriminate].
  bind_inv Href. unfold lift in Hm0. injection Hm0 as Hat <-.
  bind_inv Href. unfold lift in Hm0. injection Hm0 as Hrt <-.
  bind_inv Href. destruct a2.
  apply store_refresh_hash_inv in Hm0. destruct Hm0 as (Husers & Happrovals & _).
  bind_inv Href. unfold logAuth in Hm0. injection Hm0 as <- <-.
  injection Href as <- <-.
  exists c, user. repeat split; try assumption.
  exact (bool_decide_eq_true_1 _ Htype).
Qed.

(** X13.  Sessions are opened for stored, active users only.  A login that
    succeeds found, under the email of the request, an active user whose
    password hash accepts the password; a refresh that succeeds found, under
    the [sub] of a verified token of type [refresh], an active user.  So a
    user whose stored [isActive] is false can neither log in nor refresh,
    whatever tokens they hold. *)
Theorem sessions_only_for_active_users `{Externals} (env : Env) (rnd : Rand) (now : Z)
    (w : World) :
  (forall body resp w',
     login env rnd now body w = (Returned resp, w') ->
     exists user, user ∈ users w /\ User.isActive user = true
                  /\ User.email user = schema_email (normalizeEmail (LoginBody.email body))
                  /\ User.comparePassword user (LoginBody.password body) = true)
  /\ (forall t resp w',
        refresh env rnd now (Some t) w = (Returned resp, w') ->
        exists c user, jwt_verify t (JWT_SECRET env) now = Returned c
                       /\ p_type (payload c) = Some "refresh"
                       /\ user ∈ users w /\ User._id user = sub (payload c)
                       /\ User.isActive user = true)
  /\ (forall user, user ∈ users w -> User.isActive user = false ->
        indexes_hold w ->
        (forall body resp w',
           User.email user = schema_email (normalizeEmail (LoginBody.email body)) ->
           login env rnd now body w <> (Returned resp, w'))
        /\ (forall c key resp w',
              sub (payload c) = User._id user ->
              refresh env rnd now (Some (Jws c key)) w <> (Returned resp, w'))).
Proof.
  assert (Hlogin : forall body resp w',
     login env rnd now body w = (Returned resp, w') ->
     exists user, user ∈ users w /\ User.isActive user = true
                  /\ User.email user = schema_email (normalizeEmail (LoginBody.email body))
                  /\ User.comparePassword user (LoginBody.password body) = true).
  { intros body resp w' Hl. apply login_returned_user in Hl.
    destruct Hl as (user0 & r & _ & Hfind & Hact & Hpw & _).
    apply find_some in Hfind. destruct Hfind as [Hin Hemail].
    exists user0. repeat split; try assumption.
    - apply list_elem_of_In. exact Hin.
    - exact (bool_decide_eq_true_1 _ Hemail). }
  assert (Hrefresh : forall t resp w',
        refresh env rnd now (Some t) w = (Returned resp, w') ->
        exists c user, jwt_verify t (JWT_SECRET env) now = Returned c
                       /\ p_type (payload c) = Some "refresh"
                       /\ user ∈ users w /\ User._id user = sub (payload c)
                       /\ User.isActive user = true).
  { intros t resp w' Hr. apply refresh_returned_user in Hr.
    destruct Hr as (c & user & Hverify & Htype & Hfind & Hact & _).
    apply find_some in Hfind. destruct Hfind as [Hin Hid].
    exists c, user. repeat split; try assumption.
    - apply list_elem_of_In. exact Hin.
    - exact (bool_decide_eq_true_1 _ Hid). }
  split; [exact Hlogin |]. split; [exact Hrefresh |].
  intros user Hin Hinactive (Hids & Hemails & _). split.
  - intros body resp w' Hemail Hl. apply Hlogin in Hl.
    destruct Hl as (user' & Hin' & Hact' & Hemail' & _).
    assert (user' = user) as ->.
    { apply (NoDup_fmap_eq User.email (users w)); try assumption. congruence. }
    congruence.
  - intros c key resp w' Hsub Hr. apply Hrefresh in Hr.
    destruct Hr as (c' & user' & Hverify & _ & Hin' & Hid' & Hact').
    apply jwt_verify_returned in Hverify. destruct Hverify as (key' & [= <- <-] & _).
    assert (user' = user) as ->.
    { apply (NoDup_fmap_eq User._id (users w)); try assumption. congruence. }
    congruence.
Qed.

(** ** Token types *)

(** X14.  The routes that take a token of one type refuse a verified token of
    another type with ['Invalid token type'] and touch nothing: refresh and
    logout take [refresh] tokens only (an access token carries no type),
    reset-password takes [password_reset] tokens only and verify-email
    [email_verification] tokens only. *)
Theorem token_types_are_kept_apart `{Externals} (env : Env) (rnd : Rand) (now : Z)
    (t : Token) (c : Claims) (w : World) :
  jwt_verify t (JWT_SECRET env) now = Returned c ->
  (p_type (payload c) <> Some "refresh" ->
   refresh env rnd now (Some t) w = (Threw (Error "Invalid token type"), w)
   /\ forall authorization,
        logout env now (Some t) authorization w = (Threw (Error "Invalid token type"), w))
  /\ (p_type (payload c) <> Some "password_reset" ->
      forall newPassword,
        password_errors newPassword = [] ->
        resetPassword env rnd now (ResetPasswordBody.mk (Some t) newPassword) w
        = (Threw (Error "Invalid token type"), w))
  /\ (p_type (payload c) <> Some "email_verification" ->
      verifyEmail env now t w = (Threw (Error "Invalid token type"), w)).
Proof.
  intros Hverify.
  destruct (jwt_verify_returned _ _ _ _ Hverify) as (key & -> & _).
  split; [| split].
  - intros Htype. split; [| intros authorization].
    + unfold refresh. simpl token_truthy. cbn [negb].
      unfold try_catch, bind, lift. rewrite Hverify.
      rewrite bool_decide_eq_false_2 by exact Htype. reflexivity.
    + unfold logout. simpl token_truthy. cbn [negb].
      unfold try_catch, bind, lift. rewrite Hverify.
      rewrite bool_decide_eq_false_2 by exact Htype. reflexivity.
  - intros Htype newPassword Hpw.
    unfold resetPassword, resetPasswordValidation. cbn [ResetPasswordBody.token
      ResetPasswordBody.newPassword token_truthy]. rewrite Hpw. cbn [app].
    unfold try_catch, bind, lift. rewrite Hverify.
    rewrite bool_decide_eq_false_2 by exact Htype. reflexivity.
  - intros Htype. unfold verifyEmail, try_catch, bind, lift. rewrite Hverify.
    rewrite bool_decide_eq_false_2 by exact Htype. reflexivity.
Qed.

(** ** Revocation *)

(** With Redis enabled, a token with a live blacklist entry is refused. *)
Lemma verifyToken_revoked (env : Env) (now : Z) (h : AuthHeader) (w : World)
    (expires : Z) :
  isRedisEnabled env = true ->
  redis w !! blacklist (substring7 h) = Some (mkEntry (Raw (Junk "revoked")) expires) ->
  now < expires ->
  exists msg, verifyToken env now (Some h) w = (Threw (ApiError 401 msg), w).
Proof.
  intros Hon Hentry Hlive. unfold verifyToken.
  destruct (negb (header_truthy h) || negb (startsWithBearer h)).
  - eexists. reflexivity.
  - rewrite Hon. destruct (redisConnected env) eqn:Hconn.
    + eexists. apply middleware_inl, try_catch_returned.
      unfold bind, lift, getRedisClient, redis_get, Redis.get. rewrite Hconn, Hentry. simpl.
      rewrite (proj2 (Z.ltb_lt _ _) Hlive). reflexivity.
    + eexists. apply middleware_inl.
      unfold try_catch, bind, lift, getRedisClient. rewrite Hconn. reflexivity.
Qed.

(** With Redis enabled and no stored hash for the user a token names, a
    refresh with that token throws. *)
Lemma refresh_empty_slot `{Externals} (env : Env) (rnd : Rand) (now : Z)
    (c : Claims) (key : string) (w : World) :
  isRedisEnabled env = true ->
  redis w !! refresh_token (sub (payload c)) = None ->
  exists e, refresh env rnd now (Some (Jws c key)) w = (Threw e, w).
Proof.
  intros Hon Hslot.
  destruct (redisConnected env) eqn:Hconn.
  - apply (refresh_check_fails env rnd now c key w
             (Error "Refresh token not found or expired")).
    unfold check_refresh_hash, bind, lift, getRedisClient, redis_get, Redis.get.
    rewrite Hon, Hconn, Hslot. reflexivity.
  - apply (refresh_check_fails env rnd now c key w (Error "Redis client not connected")).
    unfold check_refresh_hash, bind, lift, getRedisClient.
    rewrite Hon, Hconn. reflexivity.
Qed.

(** What a logout that succeeds did. *)
Lemma logout_returned_inv (env : Env) (now : Z) (t : Token)
    (authorization : option AuthHeader) (w w' : World)
    (resp : Response MessageResponse.t) :
  logout env now (Some t) authorization w = (Returned resp, w') ->
  exists c,
    jwt_verify t (JWT_SECRET env) now = Returned c
    /\ p_type (payload c) = Some "refresh"
    /\ users w' = users w /\ approvals w' = approvals w
    /\ audit w' = audit w ++ [mkAudit "user_logout" (sub (payload c)) true]
    /\ (isRedisEnabled env = false -> redis w' = redis w)
    /\ (isRedisEnabled env = true ->
        redis w' !! refresh_token (sub (payload c)) = None
        /\ forall h, authorization = Some h -> header_truthy h = true ->
             redis w' !! blacklist (substring7 h)
             = Some (mkEntry (Raw (Junk "revoked")) (now + blacklist_ttl env)))
    /\ resp = Json 200 (MessageResponse.mk "Logged out successfully").
Proof.
  unfold logout.
  destruct (token_truthy t); simpl; [| discriminate].
  intros Hlogout. apply try_catch_rethrow_returned in Hlogout.
  bind_inv Hlogout. rename a into c. unfold lift in Hm.
  destruct (jwt_verify t (JWT_SECRET env) now) as [c0|] eqn:Hverify; [| discriminate].
  injection Hm as -> <-.
  bind_inv Hlogout.
  destruct (bool_decide (p_type (payload c) = Some "refresh")) eqn:Htype;
    simpl in Hm; [| discriminate].
  injection Hm as _ <-.
  bind_inv Hlogout. destruct a0.
  bind_inv Hlogout. unfold logAuth in Hm0. injection Hm0 as _ <-.
  injection Hlogout as <- <-.
  exists c. split; [reflexivity |].
  split; [exact (bool_decide_eq_true_1 _ Htype) |].
  destruct (isRedisEnabled env) eqn:Hon.
  - client_inv Hm.
    rewrite (bind_step (redis_del (refresh_token (sub (payload c)))) _ w _ tt eq_refl) in Hm.
    unfold blacklist_access_token in Hm.
    destruct authorization as [h|].
    + destruct (header_truthy h) eqn:Hh.
      * unfold redis_setEx, Redis.setEx in Hm.
        destruct (0 <? blacklist_ttl env); [| discriminate].
        injection Hm as <-. simpl.
        repeat split; try reflexivity; try discriminate.
        -- rewrite lookup_insert_ne by discriminate. apply lookup_delete_eq.
        -- intros h' [= <-] _. apply lookup_insert_eq.
      * injection Hm as <-. simpl.
        repeat split; try reflexivity; try discriminate.
        -- apply lookup_delete_eq.
        -- intros h' [= <-] Hh'. congruence.
    + injection Hm as <-. simpl.
      repeat split; try reflexivity; try discriminate.
      apply lookup_delete_eq.
  - injection Hm as <-. simpl.
    repeat split; try reflexivity; discriminate.
Qed.

(** X15.  With the Session Store enabled, a logout that succeeds signs the
    user out: the slot of the refresh-token hash of the user is empty, so a
    refresh with any token of that user throws until the next login, and a
    request that presents the [Authorization] header of the logout is
    refused by [verifyToken] with status 401 for the next
    [blacklist_ttl env] seconds.  The users and the approvals are
    unchanged. *)
Theorem logout_signs_out `{Externals} (env : Env) (now : Z) (t : Token)
    (authorization : option AuthHeader) (w w' : World)
    (resp : Response MessageResponse.t) :
  isRedisEnabled env = true ->
  logout env now (Some t) authorization w = (Returned resp, w') ->
  exists c key,
    t = Jws c key
    /\ (forall rnd' now' c' key',
          sub (payload c') = sub (payload c) ->
          exists e, refresh env rnd' now' (Some (Jws c' key')) w' = (Threw e, w'))
    /\ (forall h now',
          authorization = Some h -> header_truthy h = true ->
          now' < now + blacklist_ttl env ->
          exists msg, verifyToken env now' (Some h) w' = (Threw (ApiError 401 msg), w'))
    /\ users w' = users w /\ approvals w' = approvals w.
Proof.
  intros Hon Hlogout. apply logout_returned_inv in Hlogout.
  destruct Hlogout as (c & Hverify & _ & Husers & Happrovals & _ & _ & Hredis & _).
  destruct (Hredis Hon) as [Hslot Hblack].
  destruct (jwt_verify_returned _ _ _ _ Hverify) as (key & -> & _).
  exists c, key. split; [reflexivity |]. split; [| split; [| split; assumption]].
  - intros rnd' now' c' key' Hsub.
    apply refresh_empty_slot; [exact Hon | rewrite Hsub; exact Hslot].
  - intros h now' Hauth Hh Hlive.
    apply (verifyToken_revoked env now' h w' (now + blacklist_ttl env) Hon); [| exact Hlive].
    exact (Hblack h Hauth Hh).
Qed.

(** ** Changing the password *)

Lemma find_by_own_id (u : User.t) (id : ObjectId) (l : list User.t) :
  List.find (fun x => bool_decide (User._id x = id)) l = Some u ->
  List.find (fun x => bool_decide (User._id x = User._id u)) l = Some u.
Proof.
  intros Hfind. pose proof (find_some _ _ Hfind) as [_ Hid].
  apply bool_decide_eq_true_1 in Hid. rewrite Hid. exact Hfind.
Qed.

Lemma comparePassword_hashed (p salt : string) (u : User.t) (candidate : string) :
  User.comparePassword (User.set_passwordHash (bcrypt_hash id (Raw p) salt) u) candidate
  = bool_decide (bcrypt_input candidate = bcrypt_input p).
Proof. reflexivity. Qed.

(** The document a password change saves: a new password is hashed, one
    that is the text of the stored hash leaves the document as it is. *)
Lemma change_document_eq `{Externals} (rnd : Rand) (body : ChangePasswordBody.t)
    (user : User.t) :
  change_document rnd body user
  = if bool_decide (hashed_text id (User.passwordHash user)
                    = ChangePasswordBody.newPassword body)
    then user
    else User.set_passwordHash
           (bcrypt_hash id (Raw (ChangePasswordBody.newPassword body)) (password_salt rnd))
           user.
Proof.
  unfold change_document, assign_passwordHash.
  case_bool_decide.
  - apply pre_save_untouched; apply not_elem_of_nil.
  - rewrite pre_save_password. reflexivity.
Qed.

Lemma change_document_fields `{Externals} (rnd : Rand) (body : ChangePasswordBody.t)
    (user : User.t) :
  User._id (change_document rnd body user) = User._id user
  /\ User.email (change_document rnd body user) = User.email user
  /\ User.role (change_document rnd body user) = User.role user
  /\ User.studentId (change_document rnd body user) = User.studentId user
  /\ User.permissions (change_document rnd body user) = User.permissions user
  /\ User.isActive (change_document rnd body user) = User.isActive user.
Proof.
  rewrite change_document_eq. case_bool_decide; repeat split; reflexivity.
Qed.

(** What a password change that succeeds found and did. *)
Lemma changePassword_returned_inv `{Externals} (env : Env) (rnd : Rand) (now : Z)
    (authorization : option AuthHeader) (body : ChangePasswordBody.t) (w w' : World)
    (resp : Response MessageResponse.t) :
  changePassword env rnd now authorization body w = (Returned resp, w') ->
  exists token user,
    authorization = Some (Bearer token)
    /\ changePasswordValidation body = []
    /\ List.find (fun x => bool_decide (User._id x = User._id user)) (users w) = Some user
    /\ User.isActive user = true
    /\ User.comparePassword user (ChangePasswordBody.currentPassword body) = true
    /\ User.comparePassword user (ChangePasswordBody.newPassword body) = false
    /\ users w' = replace_user (change_document rnd body user) (users w)
    /\ approvals w' = approvals w
    /\ (isRedisEnabled env = false -> redis w' = redis w)
    /\ (isRedisEnabled env = true ->
        redis w' !! refresh_token (User._id user) = None
        /\ redis w' !! blacklist token
           = Some (mkEntry (Raw (Junk "revoked")) (now + blacklist_ttl env)))
    /\ resp = Json 200
                (MessageResponse.mk "Password changed successfully. Please log in again.").
Proof.
  unfold changePassword. intros Hcp.
  bind_inv Hcp. rename a into req_user.
  apply verifyToken_returned_inv in Hm.
  destruct Hm as (token & c & user & -> & _ & _ & Hfind & Hact & -> & ->).
  destruct (changePasswordValidation body) eqn:Hval; [| discriminate].
  bind_inv Hcp. unfold User_findById in Hm. injection Hm as <- <-.
  apply find_by_own_id in Hfind.
  cbn [identity_of Identity.id toString add_audit users] in Hcp.
  rewrite Hfind in Hcp.
  destruct (User.comparePassword user (ChangePasswordBody.currentPassword body)) eqn:Hcur;
    simpl in Hcp.
  2:{ bind_inv Hcp. discriminate. }
  destruct (bcrypt_compare id (Raw (ChangePasswordBody.newPassword body))
              (User.passwordHash user)) eqn:Hsame; [discriminate |].
  destruct (assign_passwordHash (ChangePasswordBody.newPassword body) user)
    as [user1 modified] eqn:Hassign.
  bind_inv Hcp. rename a into user'.
  apply User_save_update_inv in Hm. destruct Hm as (_ & -> & ->).
  assert (Hdoc : pre_save modified (password_salt rnd) user1 = change_document rnd body user).
  { unfold change_document. rewrite Hassign. reflexivity. }
  rewrite Hdoc in Hcp. clear Hdoc Hassign user1 modified.
  destruct (change_document_fields rnd body user) as (Eid & _).
  rewrite Eid in Hcp.
  bind_inv Hcp. destruct a.
  bind_inv Hcp. unfold logAuth in Hm0. injection Hm0 as _ <-.
  injection Hcp as <- <-.
  exists token, user.
  split; [reflexivity |]. split; [reflexivity |]. split; [exact Hfind |].
  split; [exact Hact |]. split; [exact Hcur |]. split; [exact Hsame |].
  destruct (isRedisEnabled env) eqn:Hon.
  - client_inv Hm.
    rewrite (bind_step (redis_del _) _ _ _ tt eq_refl) in Hm.
    unfold blacklist_access_token, redis_setEx, Redis.setEx in Hm. simpl in Hm.
    destruct (0 <? blacklist_ttl env); [| discriminate].
    injection Hm as <-. simpl.
    repeat split; try reflexivity; try discriminate.
    + rewrite lookup_insert_ne by discriminate. apply lookup_delete_eq.
    + apply lookup_insert_eq.
  - injection Hm as <-. simpl.
    repeat split; try reflexivity; discriminate.
Qed.

(** X16.  A password change that succeeds keeps the role and the permissions
    of the user and stores the hash of the new password, which then accepts
    it; only when the new password is the text of the stored hash itself
    (Mongoose then sees no change of the path) the stored hash stays as it
    was.  With the Session Store enabled the change also signs the user
    out: a refresh with any token of the user throws until the next login,
    and the access token of the request is refused by [verifyToken] for the
    next [blacklist_ttl env] seconds.  With the Session Store disabled
    nothing is revoked. *)
Theorem changePassword_sets_password_and_signs_out `{Externals} (env : Env) (rnd : Rand)
    (now : Z) (authorization : option AuthHeader) (body : ChangePasswordBody.t)
    (w w' : World) (resp : Response MessageResponse.t) :
  changePassword env rnd now authorization body w = (Returned resp, w') ->
  exists user user',
    List.find (fun x => bool_decide (User._id x = User._id user)) (users w) = Some user
    /\ List.find (fun x => bool_decide (User._id x = User._id user)) (users w') = Some user'
    /\ (hashed_text id (User.passwordHash user) <> ChangePasswordBody.newPassword body ->
        User.passwordHash user'
        = bcrypt_hash id (Raw (ChangePasswordBody.newPassword body)) (password_salt rnd)
        /\ User.comparePassword user' (ChangePasswordBody.newPassword body) = true)
    /\ (hashed_text id (User.passwordHash user) = ChangePasswordBody.newPassword body ->
        user' = user
        /\ User.comparePassword user' (ChangePasswordBody.newPassword body) = false)
    /\ User.role user' = User.role user
    /\ User.permissions user' = User.permissions user
    /\ (isRedisEnabled env = true ->
        (forall rnd' now' c key,
           sub (payload c) = User._id user ->
           exists e, refresh env rnd' now' (Some (Jws c key)) w' = (Threw e, w'))
        /\ (forall now', now' < now + blacklist_ttl env ->
              exists msg,
                verifyToken env now' authorization w' = (Threw (ApiError 401 msg), w')))
    /\ (isRedisEnabled env = false -> redis w' = redis w).
Proof.
  intros Hcp. apply changePassword_returned_inv in Hcp.
  destruct Hcp as (token & user & -> & _ & Hfind & _ & _ & Hnew & Husers & _ & Hoff & Hon & _).
  destruct (change_document_fields rnd body user) as (Eid & _ & Erole & _ & Eperm & _).
  exists user, (change_document rnd body user).
  split; [exact Hfind |].
  split.
  { rewrite Husers. rewrite <- Eid in Hfind |- *.
    exact (find_replace_user user (change_document rnd body user) (users w) Hfind). }
  split.
  { intros Hdiff. rewrite change_document_eq, bool_decide_eq_false_2 by exact Hdiff.
    split; [reflexivity |].
    rewrite comparePassword_hashed. apply bool_decide_eq_true_2. reflexivity. }
  split.
  { intros Hsame. rewrite change_document_eq, bool_decide_eq_true_2 by exact Hsame.
    split; [reflexivity | exact Hnew]. }
  split; [exact Erole |]. split; [exact Eperm |].
  split; [| exact Hoff].
  intros Hredis. destruct (Hon Hredis) as [Hslot Hblack]. split.
  - intros rnd' now' c key Hsub.
    apply refresh_empty_slot; [exact Hredis | rewrite Hsub; exact Hslot].
  - intros now' Hlive.
    exact (verifyToken_revoked env now' (Bearer token) w' _ Hredis Hblack Hlive).
Qed.

(** ** Resetting the password *)

Lemma rethrow_reset_throws {A : Type} (e : JsError) (w : World) :
  exists e', rethrow_reset (A := A) e w = (Threw e', w).
Proof. unfold rethrow_reset, throw. repeat case_bool_decide; eauto. Qed.

Lemma try_catch_reset_returned {A : Type} (m : M A) (w w' : World) (a : A) :
  try_catch m rethrow_reset w = (Returned a, w') -> m w = (Returned a, w').
Proof.
  unfold try_catch. destruct (m w) as [[x|e] w1]; [auto |].
  destruct (rethrow_reset_throws (A := A) e w1) as [e' ->]. discriminate.
Qed.

Lemma try_catch_reset_threw {A : Type} (m : M A) (w w1 : World) (e : JsError) :
  m w = (Threw e, w1) -> exists e', try_catch m rethrow_reset w = (Threw e', w1).
Proof. intros Hm. unfold try_catch. rewrite Hm. apply rethrow_reset_throws. Qed.

(** The check of a reset token reads the store and leaves it unchanged;
    with Redis enabled it passes on a live hash of the bytes bcrypt reads of
    the token. *)
Lemma check_reset_hash_passed `{Externals} (env : Env) (now : Z) (id : ObjectId)
    (t : Token) (w w' : World) :
  check_reset_hash env now id t w = (Returned tt, w') ->
  w' = w
  /\ (isRedisEnabled env = true ->
      exists salt expires,
        redis w !! password_reset id
        = Some (mkEntry (BcryptOf salt (bcrypt_input (token_bytes t))) expires)
        /\ now < expires).
Proof.
  unfold check_reset_hash, bind, lift, getRedisClient, redis_get, Redis.get.
  destruct (isRedisEnabled env); [| intros [= <-]; split; [reflexivity | discriminate]].
  destruct (redisConnected env); [| discriminate].
  destruct (redis w !! password_reset id) as [[v expires]|]; simpl; [| discriminate].
  destruct (now <? expires) eqn:Hlive; [| discriminate].
  destruct (negb (value_truthy v)); [discriminate |].
  destruct v as [a | salt x]; simpl; [discriminate |].
  case_bool_decide as Heq; simpl; [| discriminate].
  intros [= <-]. split; [reflexivity |]. intros _.
  exists salt, expires. rewrite <- Heq. split; [reflexivity | lia].
Qed.

Lemma check_reset_hash_slot `{Externals} (env : Env) (now : Z) (id : ObjectId)
    (t : Token) (salt : string) (expires : Z) (w : World) :
  session_store_usable env = true ->
  redis w !! password_reset id
  = Some (mkEntry (BcryptOf salt (bcrypt_input (token_bytes t))) expires) ->
  now < expires ->
  check_reset_hash env now id t w = (Returned tt, w).
Proof.
  unfold session_store_usable. intros Husable Hslot Hlive.
  unfold check_reset_hash, bind, lift, getRedisClient, redis_get, Redis.get.
  destruct (isRedisEnabled env); [| reflexivity]. simpl in Husable.
  rewrite Husable, Hslot. simpl. rewrite (proj2 (Z.ltb_lt _ _) Hlive). simpl.
  rewrite bool_decide_eq_true_2 by reflexivity. reflexivity.
Qed.

Lemma check_reset_hash_empty `{Externals} (env : Env) (now : Z) (id : ObjectId)
    (t : Token) (w : World) :
  isRedisEnabled env = true ->
  redis w !! password_reset id = None ->
  exists msg, check_reset_hash env now id t w = (Threw (Error msg), w).
Proof.
  intros Hon Hslot. unfold check_reset_hash, bind, lift, getRedisClient, redis_get, Redis.get.
  rewrite Hon, Hslot. destruct (redisConnected env); eexists; reflexivity.
Qed.

(** The document a reset writes: the user with the hash of the new
    password, or the user as it was when the new password is the text of
    the stored hash. *)
Lemma password_errors_length `{Externals} (p : string) :
  password_errors p = [] -> (8 <= String.length p)%nat.
Proof.
  unfold password_errors. destruct (8 <=? String.length p)%nat eqn:Hlen.
  - intros _. apply Nat.leb_le. exact Hlen.
  - discriminate.
Qed.

(** What a reset that succeeds found and did. *)
Lemma resetPassword_returned_inv `{Externals} (env : Env) (rnd : Rand) (now : Z)
    (body : ResetPasswordBody.t) (w w' : World) (resp : Response MessageResponse.t) :
  resetPassword env rnd now body w = (Returned resp, w') ->
  exists t c user,
    ResetPasswordBody.token body = Some t
    /\ resetPasswordValidation body = []
    /\ jwt_verify t (JWT_SECRET env) now = Returned c
    /\ p_type (payload c) = Some "password_reset"
    /\ check_reset_hash env now (sub (payload c)) t w = (Returned tt, w)
    /\ List.find (fun x => bool_decide (User._id x = User._id user)) (users w) = Some user
    /\ User._id user = sub (payload c)
    /\ User.isActive user = true
    /\ users w' = replace_user (reset_document rnd body user) (users w)
    /\ approvals w' = approvals w
    /\ redis w' = (if isRedisEnabled env
                   then delete (password_reset (User._id user)) (redis w)
                   else redis w)
    /\ resp = Json 200 (MessageResponse.mk "Password reset successfully").
Proof.
  unfold resetPassword.
  destruct (resetPasswordValidation body) eqn:Hval; [| discriminate].
  intros Hreset. apply try_catch_reset_returned in Hreset.
  bind_inv Hreset. rename a into c. unfold lift in Hm.
  destruct (ResetPasswordBody.token body) as [t|] eqn:Htoken; [| discriminate].
  destruct (jwt_verify t (JWT_SECRET env) now) as [c0|] eqn:Hverify; [| discriminate].
  injection Hm as -> <-.
  bind_inv Hreset.
  destruct (bool_decide (p_type (payload c) = Some "password_reset")) eqn:Htype;
    simpl in Hm; [| discriminate].
  injection Hm as _ <-.
  bind_inv Hreset. destruct a0. simpl in Hm.
  pose proof (proj1 (check_reset_hash_passed _ _ _ _ _ _ Hm)) as ->.
  bind_inv Hreset. unfold User_findById in Hm0. injection Hm0 as <- <-.
  destruct (List.find _ (users w)) as [user|] eqn:Hfind; [| discriminate].
  destruct (User.isActive user) eqn:Hact; simpl in Hreset; [| discriminate].
  pose proof (find_some _ _ Hfind) as [_ Hid]. apply bool_decide_eq_true_1 in Hid.
  apply find_by_own_id in Hfind.
  destruct (assign_passwordHash (ResetPasswordBody.newPassword body) user)
    as [user1 modified] eqn:Hassign.
  bind_inv Hreset. rename a0 into user'.
  apply User_save_update_inv in Hm0. destruct Hm0 as (_ & -> & ->).
  bind_inv Hreset. destruct a0.
  bind_inv Hreset. unfold logAuth in Hm1. injection Hm1 as _ <-.
  injection Hreset as <- <-.
  exists t, c, user.
  assert (Hdoc : pre_save modified (password_salt rnd) user1 = reset_document rnd body user).
  { unfold reset_document. rewrite Hassign. reflexivity. }
  assert (Hdocid : User._id (pre_save modified (password_salt rnd) user1) = User._id user).
  { rewrite (proj1 (pre_save_fields modified (password_salt rnd) user1)).
    unfold assign_passwordHash in Hassign.
    destruct (bool_decide _) in Hassign; injection Hassign as <- _; reflexivity. }
  rewrite Hdoc in *. apply bool_decide_eq_true_1 in Htype.
  assert (Hw0 : users w0 = replace_user (reset_document rnd body user) (users w)
                /\ approvals w0 = approvals w
                /\ redis w0 = (if isRedisEnabled env
                               then delete (password_reset (User._id user)) (redis w)
                               else redis w)).
  { rewrite Hdocid in Hm0.
    destruct (isRedisEnabled env); [client_inv Hm0 |];
      injection Hm0 as <-; repeat split; reflexivity. }
  destruct Hw0 as (Husers & Happrovals & Hredis).
  repeat split; try assumption; reflexivity.
Qed.

Lemma reset_document_fields `{Externals} (rnd : Rand) (body : ResetPasswordBody.t)
    (user : User.t) :
  User._id (reset_document rnd body user) = User._id user
  /\ User.email (reset_document rnd body user) = User.email user
  /\ User.role (reset_document rnd body user) = User.role user
  /\ User.studentId (reset_document rnd body user) = User.studentId user
  /\ User.permissions (reset_document rnd body user) = User.permissions user
  /\ User.isActive (reset_document rnd body user) = User.isActive user.
Proof.
  unfold reset_document, assign_passwordHash.
  case_bool_decide.
  - rewrite pre_save_untouched by (apply not_elem_of_nil). repeat split; reflexivity.
  - rewrite pre_save_password. repeat split; reflexivity.
Qed.

(** X17.  With the Session Store enabled a reset token works once: the reset
    that succeeds deletes the stored hash of the token, and the same request
    sent again, at any later time, throws and changes nothing. *)
Theorem reset_token_is_single_use `{Externals} (env : Env) (rnd : Rand) (now : Z)
    (body : ResetPasswordBody.t) (w w' : World) (resp : Response MessageResponse.t) :
  isRedisEnabled env = true ->
  resetPassword env rnd now body w = (Returned resp, w') ->
  exists t c,
    ResetPasswordBody.token body = Some t
    /\ jwt_verify t (JWT_SECRET env) now = Returned c
    /\ redis w' !! password_reset (sub (payload c)) = None
    /\ forall rnd' now', exists e, resetPassword env rnd' now' body w' = (Threw e, w').
Proof.
  intros Hon Hreset. apply resetPassword_returned_inv in Hreset.
  destruct Hreset as (t & c & user & Htoken & Hval & Hverify & Htype & _ & _ & Hid & _
                      & _ & _ & Hredis & _).
  rewrite Hon, Hid in Hredis.
  assert (Hslot : redis w' !! password_reset (sub (payload c)) = None).
  { rewrite Hredis. apply lookup_delete_eq. }
  exists t, c. repeat split; try assumption.
  intros rnd' now'. unfold resetPassword. rewrite Hval, Htoken.
  destruct (jwt_verify t (JWT_SECRET env) now') as [c'|e'] eqn:Hverify'.
  - destruct (jwt_verify_returned _ _ _ _ Hverify) as (key & -> & _).
    destruct (jwt_verify_returned _ _ _ _ Hverify') as (key' & [= <- <-] & _).
    destruct (check_reset_hash_empty env now' (sub (payload c)) (Jws c key) w' Hon Hslot)
      as (msg & Hempty).
    apply try_catch_reset_threw with (e := Error msg).
    unfold bind at 1. unfold lift. rewrite Htype. simpl.
    unfold bind at 1. unfold ret.
    unfold bind at 1. rewrite Hempty.
    reflexivity.
  - apply try_catch_reset_threw with (e := e').
    unfold bind, lift. reflexivity.
Qed.

(** X18.  A password reset revokes no session: every stored refresh-token
    hash and every blacklist entry is as it was before the reset, with the
    Session Store enabled or not.  (A password change, by contrast, empties
    the slot of the user.) *)
Theorem resetPassword_keeps_sessions `{Externals} (env : Env) (rnd : Rand) (now : Z)
    (body : ResetPasswordBody.t) (w w' : World) (resp : Response MessageResponse.t) :
  resetPassword env rnd now body w = (Returned resp, w') ->
  (forall id, redis w' !! refresh_token id = redis w !! refresh_token id)
  /\ (forall t, redis w' !! blacklist t = redis w !! blacklist t)
  /\ (forall now' id t, check_refresh_hash env now' id t w = (Returned tt, w) ->
        check_refresh_hash env now' id t w' = (Returned tt, w')).
Proof.
  intros Hreset. apply resetPassword_returned_inv in Hreset.
  destruct Hreset as (t & c & user & _ & _ & _ & _ & _ & _ & _ & _ & _ & _ & Hredis & _).
  assert (Hrefresh : forall id, redis w' !! refresh_token id = redis w !! refresh_token id).
  { intros id. rewrite Hredis. destruct (isRedisEnabled env); [| reflexivity].
    apply lookup_delete_ne. discriminate. }
  split; [exact Hrefresh |]. split.
  - intros t'. rewrite Hredis. destruct (isRedisEnabled env); [| reflexivity].
    apply lookup_delete_ne. discriminate.
  - intros now' id t'.
    unfold check_refresh_hash, bind, lift, getRedisClient, redis_get, Redis.get.
    destruct (isRedisEnabled env); [| intros _; reflexivity].
    destruct (redisConnected env); [| discriminate].
    rewrite Hrefresh.
    destruct (redis w !! refresh_token id) as [[v expires]|]; simpl; [| discriminate].
    destruct (now' <? expires); [| discriminate].
    destruct (negb (value_truthy v)); [discriminate |].
    destruct (negb (bcrypt_compare token_bytes (Raw t') v)); [discriminate |].
    intros _. reflexivity.
Qed.

(** A reset that finds everything in order succeeds. *)
Lemma resetPassword_ok `{Externals} (env : Env) (rnd : Rand) (now : Z) (t : Token)
    (c : Claims) (newPassword : string) (user : User.t) (w : World) :
  session_store_usable env = true ->
  password_errors newPassword = [] ->
  jwt_verify t (JWT_SECRET env) now = Returned c ->
  p_type (payload c) = Some "password_reset" ->
  check_reset_hash env now (sub (payload c)) t w = (Returned tt, w) ->
  List.find (fun x => bool_decide (User._id x = sub (payload c))) (users w) = Some user ->
  User.isActive user = true ->
  exists w',
    resetPassword env rnd now (ResetPasswordBody.mk (Some t) newPassword) w
    = (Returned (Json 200 (MessageResponse.mk "Password reset successfully")), w')
    /\ users w'
       = replace_user (reset_document rnd (ResetPasswordBody.mk (Some t) newPassword) user)
           (users w).
Proof.
  intros Husable Hpw Hverify Htype Hcheck Hfind Hact.
  destruct (jwt_verify_returned _ _ _ _ Hverify) as (key & -> & _).
  unfold resetPassword, resetPasswordValidation.
  cbn [ResetPasswordBody.token ResetPasswordBody.newPassword token_truthy].
  rewrite Hpw. cbn [app].
  assert (Hsave : exists w1,
    User_save false (snd (assign_passwordHash newPassword user)) (password_salt rnd)
      (fst (assign_passwordHash newPassword user)) w
    = (Returned (reset_document rnd (ResetPasswordBody.mk (Some (Jws c key)) newPassword) user),
       w1)
    /\ users w1
       = replace_user
           (reset_document rnd (ResetPasswordBody.mk (Some (Jws c key)) newPassword) user)
           (users w)).
  { unfold reset_document, assign_passwordHash. cbn [ResetPasswordBody.newPassword].
    case_bool_decide; cbn [fst snd].
    - rewrite User_save_update_ok by (apply validate_nothing_checked; intros;
                                       apply not_elem_of_nil).
      eexists. split; reflexivity.
    - rewrite User_save_update_ok
        by (apply validate_password; apply password_errors_length; exact Hpw).
      eexists. split; reflexivity. }
  destruct Hsave as (w1 & Hsave & Husers).
  assert (Hdel : exists w2,
    (if isRedisEnabled env
     then lift (getRedisClient env);;
          redis_del (password_reset
                       (User._id (reset_document rnd
                                    (ResetPasswordBody.mk (Some (Jws c key)) newPassword) user)))
     else ret tt) w1 = (Returned tt, w2) /\ users w2 = users w1).
  { unfold session_store_usable in Husable.
    destruct (isRedisEnabled env); [| eexists; split; reflexivity].
    simpl in Husable.
    rewrite (bind_step _ _ _ _ _ (getRedisClient_connected env w1 Husable)).
    eexists; split; reflexivity. }
  destruct Hdel as (w2 & Hdel & Husers2).
  eexists. split.
  - apply try_catch_returned.
    rewrite (bind_step (lift (jwt_verify (Jws c key) (JWT_SECRET env) now)) _ w w c)
      by (unfold lift; rewrite Hverify; reflexivity).
    rewrite Htype. rewrite bool_decide_eq_true_2 by reflexivity. cbn [negb].
    rewrite (bind_step (ret tt) _ w w tt eq_refl).
    cbn [default from_option].
    rewrite (bind_step _ _ _ _ _ Hcheck).
    rewrite (bind_step (User_findById (sub (payload c))) _ w w (Some user))
      by (unfold User_findById; rewrite Hfind; reflexivity).
    rewrite Hact. cbn [negb].
    destruct (assign_passwordHash newPassword user) as [user1 modified].
    cbn [fst snd] in Hsave.
    rewrite (bind_step _ _ _ _ _ Hsave).
    rewrite (bind_step _ _ _ _ _ Hdel).
    reflexivity.
  - simpl. rewrite Husers2. exact Husers.
Qed.

(** ** From the reset request to the new password *)

(** What a reset request for a registered address does when the token can
    be signed and the mail goes out. *)
Lemma forgotPassword_known `{Externals} (env : Env) (rnd : Rand) (now : Z)
    (email : string) (w : World) (user : User.t) (key : string) (d : Z) :
  isEmail email = true ->
  List.find (fun u => bool_decide (User.email u = schema_email (normalizeEmail email)))
    (users w) = Some user ->
  JWT_SECRET env = Some key -> Js.truthy key = true -> timespan "1h" = Some d ->
  session_store_usable env = true ->
  sendEmail env (User.email user) = Returned tt ->
  exists w1,
    forgotPassword env rnd now email w
    = (Returned
         (Json 200
            (MessageResponse.mk
               "If an account with that email exists, a password reset link has been sent")),
       w1)
    /\ users w1 = users w /\ approvals w1 = approvals w
    /\ (isRedisEnabled env = true ->
        redis w1 !! password_reset (User._id user)
        = Some (mkEntry (BcryptOf (token_salt rnd)
                           (bcrypt_input (token_bytes (reset_token user key now d))))
                  (now + 3600))).
Proof.
  intros Hemail Hfind Hsecret Hkey Hspan Husable Hmail.
  unfold forgotPassword, forgotPasswordValidation. rewrite Hemail.
  rewrite (bind_step (User_findOne_email (normalizeEmail email)) _ w w (Some user))
    by (unfold User_findOne_email; rewrite Hfind; reflexivity).
  rewrite (bind_step _ _ w w (reset_token user key now d))
    by (unfold lift, jwt_sign; rewrite Hsecret, Hkey, Hspan; reflexivity).
  unfold sendPasswordResetEmail. rewrite Hmail.
  unfold session_store_usable in Husable.
  destruct (isRedisEnabled env).
  - simpl in Husable. unfold bind, lift, getRedisClient. rewrite Husable.
    eexists. split; [reflexivity |]. simpl.
    repeat split. intros _. apply lookup_insert_eq.
  - eexists. split; [reflexivity |]. simpl. repeat split. discriminate.
Qed.

Lemma find_by_id_of_member (w : World) (user : User.t) :
  NoDup (User._id <$> users w) -> user ∈ users w ->
  List.find (fun x => bool_decide (User._id x = User._id user)) (users w) = Some user.
Proof.
  intros Hids Hin.
  destruct (List.find (fun x => bool_decide (User._id x = User._id user)) (users w))
    as [x|] eqn:Hfind.
  - apply find_some in Hfind. destruct Hfind as [Hx Hid].
    apply bool_decide_eq_true_1 in Hid. apply list_elem_of_In in Hx.
    rewrite (NoDup_fmap_eq User._id (users w) x user Hids Hx Hin Hid). reflexivity.
  - exfalso. apply list_elem_of_In in Hin.
    pose proof (find_none _ _ Hfind user Hin) as Hno. simpl in Hno.
    rewrite bool_decide_eq_true_2 in Hno by reflexivity. discriminate.
Qed.

(** X19.  From the reset request to the new password.  For the address of an
    active user, when the Session Store can be reached, the token can be
    signed and the mail goes out, the reset request succeeds; the token it
    mails, presented within its lifetime and within the hour the stored hash
    lives, together with a password the validator accepts (and that is not
    the text of the stored hash), resets the password: the stored hash of
    the user then accepts the new password, and exactly the candidates of
    which bcrypt reads the same bytes. *)
Theorem reset_link_sets_the_password `{Externals} (env : Env) (rnd rnd' : Rand)
    (now now' : Z) (email newPassword : string) (w : World) (user : User.t)
    (key : string) (d : Z) :
  indexes_hold w ->
  isEmail email = true ->
  List.find (fun u => bool_decide (User.email u = schema_email (normalizeEmail email)))
    (users w) = Some user ->
  User.isActive user = true ->
  JWT_SECRET env = Some key -> Js.truthy key = true -> timespan "1h" = Some d ->
  session_store_usable env = true ->
  sendEmail env (User.email user) = Returned tt ->
  now' < now + d -> now' < now + 3600 ->
  password_errors newPassword = [] ->
  hashed_text id (User.passwordHash user) <> newPassword ->
  exists w1 w2 user',
    forgotPassword env rnd now email w
    = (Returned
         (Json 200
            (MessageResponse.mk
               "If an account with that email exists, a password reset link has been sent")),
       w1)
    /\ resetPassword env rnd' now'
         (ResetPasswordBody.mk (Some (reset_token user key now d)) newPassword) w1
       = (Returned (Json 200 (MessageResponse.mk "Password reset successfully")), w2)
    /\ List.find (fun x => bool_decide (User._id x = User._id user)) (users w2) = Some user'
    /\ User.role user' = User.role user
    /\ User.permissions user' = User.permissions user
    /\ forall candidate,
         User.comparePassword user' candidate = true
         <-> bcrypt_input candidate = bcrypt_input newPassword.
Proof.
  intros (Hids & _) Hemail Hfind Hact Hsecret Hkey Hspan Husable Hmail Hexp Hlive Hpw Hfresh.
  destruct (forgotPassword_known env rnd now email w user key d
              Hemail Hfind Hsecret Hkey Hspan Husable Hmail)
    as (w1 & Hforgot & Husers1 & _ & Hslot).
  assert (Hin : user ∈ users w).
  { apply find_some in Hfind. apply list_elem_of_In. exact (proj1 Hfind). }
  pose proof (find_by_id_of_member w user Hids Hin) as Hbyid.
  assert (Hverify : jwt_verify (reset_token user key now d) (JWT_SECRET env) now'
                    = Returned (mkClaims (mkPayload (User._id user) None None None
                                            (Some "password_reset")) now (Some (now + d)))).
  { unfold reset_token, jwt_verify. rewrite Hsecret, Hkey.
    rewrite bool_decide_eq_true_2 by reflexivity. simpl.
    rewrite (proj2 (Z.leb_gt _ _)) by lia. reflexivity. }
  assert (Hcheck : check_reset_hash env now' (User._id user) (reset_token user key now d) w1
                   = (Returned tt, w1)).
  { destruct (isRedisEnabled env) eqn:Hon.
    - exact (check_reset_hash_slot env now' _ _ _ _ w1 Husable (Hslot eq_refl) Hlive).
    - unfold check_reset_hash. rewrite Hon. reflexivity. }
  destruct (resetPassword_ok env rnd' now' (reset_token user key now d) _ newPassword user w1
              Husable Hpw Hverify eq_refl Hcheck)
    as (w2 & Hreset & Husers2).
  { simpl. rewrite Husers1. exact Hbyid. }
  { exact Hact. }
  exists w1, w2, (User.set_passwordHash (bcrypt_hash id (Raw newPassword) (password_salt rnd'))
                    user).
  split; [exact Hforgot |]. split; [exact Hreset |].
  assert (Hdoc : reset_document rnd'
                   (ResetPasswordBody.mk (Some (reset_token user key now d)) newPassword) user
                 = User.set_passwordHash
                     (bcrypt_hash id (Raw newPassword) (password_salt rnd')) user).
  { unfold reset_document, assign_passwordHash. cbn [ResetPasswordBody.newPassword].
    rewrite bool_decide_eq_false_2 by exact Hfresh. reflexivity. }
  rewrite Hdoc in Husers2.
  split.
  { rewrite Husers2, Husers1.
    exact (find_replace_user user
             (User.set_passwordHash (bcrypt_hash id (Raw newPassword) (password_salt rnd'))
                user) (users w) Hbyid). }
  split; [reflexivity |]. split; [reflexivity |].
  intros candidate. rewrite comparePassword_hashed. apply bool_decide_eq_true.
Qed.

(** ** Verifying the email address *)

Lemma rethrow_verification_throws {A : Type} (e : JsError) (w : World) :
  exists e', rethrow_verification (A := A) e w = (Threw e', w).
Proof. unfold rethrow_verification, throw. repeat case_bool_decide; eauto. Qed.

Lemma try_catch_verification_returned {A : Type} (m : M A) (w w' : World) (a : A) :
  try_catch m rethrow_verification w = (Returned a, w') -> m w = (Returned a, w').
Proof.
  unfold try_catch. destruct (m w) as [[x|e] w1]; [auto |].
  destruct (rethrow_verification_throws (A := A) e w1) as [e' ->]. discriminate.
Qed.

(** What a verification that succeeds found and did. *)
Lemma verifyEmail_returned_inv `{Externals} (env : Env) (now : Z) (token : Token)
    (w w' : World) (resp : Response MessageResponse.t) :
  verifyEmail env now token w = (Returned resp, w') ->
  exists c user,
    jwt_verify token (JWT_SECRET env) now = Returned c
    /\ p_type (payload c) = Some "email_verification"
    /\ List.find (fun x => bool_decide (User._id x = sub (payload c))) (users w) = Some user
    /\ approvals w' = approvals w /\ redis w' = redis w
    /\ (User.emailVerified user = true /\ w' = w
        /\ resp = Json 200 (MessageResponse.mk "Email already verified")
        \/ User.emailVerified user = false
           /\ users w' = replace_user (User.set_emailVerified true user) (users w)
           /\ audit w' = audit w ++ [mkAudit "email_verification" (User._id user) true]
           /\ resp = Json 200 (MessageResponse.mk "Email verified successfully")).
Proof.
  unfold verifyEmail. intros Hv. apply try_catch_verification_returned in Hv.
  bind_inv Hv. rename a into c. unfold lift in Hm.
  destruct (jwt_verify token (JWT_SECRET env) now) as [c0|] eqn:Hverify; [| discriminate].
  injection Hm as -> <-.
  bind_inv Hv.
  destruct (bool_decide (p_type (payload c) = Some "email_verification")) eqn:Htype;
    simpl in Hm; [| discriminate].
  injection Hm as _ <-. apply bool_decide_eq_true_1 in Htype.
  bind_inv Hv. unfold User_findById in Hm. injection Hm as <- <-.
  destruct (List.find _ (users w)) as [user|] eqn:Hfind; [| discriminate].
  exists c, user.
  destruct (User.emailVerified user) eqn:Hverified.
  - injection Hv as <- <-. repeat split; try assumption; try reflexivity.
    left. repeat split; reflexivity.
  - bind_inv Hv. rename a0 into user'.
    apply User_save_update_inv in Hm. destruct Hm as (_ & -> & ->).
    rewrite pre_save_untouched in Hv
      by (rewrite list_elem_of_singleton; discriminate).
    bind_inv Hv. unfold logAuth in Hm. injection Hm as _ <-.
    injection Hv as <- <-. repeat split; try assumption; try reflexivity.
    right. repeat split; reflexivity.
Qed.

(** X20.  Verifying an email address is idempotent.  After a verification
    that succeeded, the user the token names is stored with
    [emailVerified = true], and the same token presented again while it is
    valid is answered with ['Email already verified'] and changes
    nothing. *)
Theorem verifyEmail_is_idempotent `{Externals} (env : Env) (now : Z) (token : Token)
    (w w' : World) (resp : Response MessageResponse.t) :
  verifyEmail env now token w = (Returned resp, w') ->
  exists c user',
    jwt_verify token (JWT_SECRET env) now = Returned c
    /\ List.find (fun x => bool_decide (User._id x = sub (payload c))) (users w') = Some user'
    /\ User.emailVerified user' = true
    /\ forall now' c',
         jwt_verify token (JWT_SECRET env) now' = Returned c' ->
         verifyEmail env now' token w'
         = (Returned (Json 200 (MessageResponse.mk "Email already verified")), w').
Proof.
  intros Hv. apply verifyEmail_returned_inv in Hv.
  destruct Hv as (c & user & Hverify & Htype & Hfind & _ & _ & Hcase).
  assert (Hstored : exists user',
            List.find (fun x => bool_decide (User._id x = sub (payload c))) (users w')
            = Some user' /\ User.emailVerified user' = true).
  { destruct Hcase as [(Hverified & -> & _) | (_ & Husers & _)].
    - exists user. split; assumption.
    - exists (User.set_emailVerified true user). split; [| reflexivity].
      rewrite Husers.
      pose proof (find_some _ _ Hfind) as [_ Hid]. apply bool_decide_eq_true_1 in Hid.
      rewrite <- Hid.
      exact (find_replace_user user (User.set_emailVerified true user) (users w)
               (find_by_own_id _ _ _ Hfind)). }
  destruct Hstored as (user' & Hfind' & Hverified').
  exists c, user'. split; [exact Hverify |]. split; [exact Hfind' |].
  split; [exact Hverified' |].
  intros now' c' Hverify'.
  destruct (jwt_verify_returned _ _ _ _ Hverify) as (key & -> & _).
  destruct (jwt_verify_returned _ _ _ _ Hverify') as (key' & [= <- <-] & _).
  unfold verifyEmail. apply try_catch_returned.
  unfold bind, lift, User_findById. rewrite Hverify', Htype.
  rewrite bool_decide_eq_true_2 by reflexivity. simpl.
  rewrite Hfind', Hverified'. reflexivity.
Qed.

(** ** From registration to the first requests *)

Lemma existsb_false_elem {A : Type} (f : A -> bool) (l : list A) (x : A) :
  existsb f l = false -> x ∈ l -> f x = false.
Proof.
  intros Hex Hin. apply list_elem_of_In in Hin.
  destruct (f x) eqn:Hfx; [| reflexivity].
  assert (existsb f l = true) by (apply existsb_exists; eauto). congruence.
Qed.

(** An insert that succeeds found no stored document with the [_id], the
    [email] or the [studentId] of the new one. *)
Lemma User_save_new_fresh `{Externals} (modified : list string) (salt : string)
    (u u' : User.t) (w w' : World) :
  User_save true modified salt u w = (Returned u', w') ->
  forall x, x ∈ users w ->
    User._id x <> User._id u' /\ User.email x <> User.email u'
    /\ (is_Some (User.studentId u') -> User.studentId x <> User.studentId u').
Proof.
  unfold User_save. fold (pre_save modified salt u).
  destruct (User.validate modified u); [| discriminate].
  destruct (existsb _ (users w)) eqn:Hid; [discriminate |].
  destruct (existsb _ (users w)) eqn:Hemail in |- *; [discriminate |].
  destruct (existsb _ (users w)) eqn:Hsid in |- *; [discriminate |].
  intros [= <- _] x Hx.
  pose proof (existsb_false_elem _ _ x Hid Hx) as H1.
  pose proof (existsb_false_elem _ _ x Hemail Hx) as H2.
  pose proof (existsb_false_elem _ _ x Hsid Hx) as H3.
  simpl in H1, H2, H3.
  apply bool_decide_eq_false_1 in H1. apply bool_decide_eq_false_1 in H2.
  apply bool_decide_eq_false_1 in H3.
  split; [exact H1 |]. split; [exact H2 |]. intros Hsome Heq. apply H3. split; assumption.
Qed.

Lemma find_app_none {A : Type} (f : A -> bool) (l l' : list A) :
  (forall x, x ∈ l -> f x = false) -> List.find f (l ++ l') = List.find f l'.
Proof.
  intros Hall. induction l as [|x l IH]; [reflexivity |]. simpl.
  rewrite (Hall x) by apply list_elem_of_here.
  apply IH. intros y Hy. apply Hall. apply list_elem_of_further. exact Hy.
Qed.

(** The document a registration stores: the hooks hash the password and,
    the permission list being empty, derive the permissions from the
    role. *)
Lemma pre_save_new_user (salt : string) (id : ObjectId) (b : RegisterBody.t)
    (role : string) :
  pre_save all_paths salt (new_user id b role)
  = User.set_permissions
      (default [] (User.table_lookup role User.rolePermissions))
      (User.set_passwordHash (bcrypt_hash Datatypes.id (Raw (RegisterBody.password b)) salt)
         (new_user id b role)).
Proof. reflexivity. Qed.

Lemma registerValidation_fields `{Externals} (body : RegisterBody.t) :
  snd (registerValidation body) = [] ->
  isEmail (RegisterBody.email body) = true
  /\ (8 <= String.length (RegisterBody.password body))%nat
  /\ RegisterBody.email (fst (registerValidation body))
     = normalizeEmail (RegisterBody.email body)
  /\ RegisterBody.password (fst (registerValidation body)) = RegisterBody.password body.
Proof.
  unfold registerValidation. cbn [fst snd].
  intros Hnil. apply app_eq_nil in Hnil. destruct Hnil as [Hemail Hnil].
  apply app_eq_nil in Hnil. destruct Hnil as [_ Hnil].
  apply app_eq_nil in Hnil. destruct Hnil as [Hpw _].
  split; [destruct (isEmail (RegisterBody.email body)); [reflexivity | discriminate] |].
  split; [apply password_errors_length; exact Hpw |].
  split; reflexivity.
Qed.

Lemma store_refresh_hash_session_ready `{Externals} (env : Env) (now : Z) (salt : string)
    (id : ObjectId) (t : Token) (w w' : World) :
  store_refresh_hash env now salt id t w = (Returned tt, w') -> session_store_ready env.
Proof.
  apply store_refresh_hash_returned_ready.
Qed.

Lemma tokens_can_sign `{Externals} (env : Env) (now : Z) (u : User.t) (at_ rt : Token) :
  generateAuthToken env now u = Returned at_ ->
  generateRefreshToken env now u = Returned rt ->
  can_sign env.
Proof.
  unfold generateAuthToken, generateRefreshToken. intros Hat Hrt.
  apply jwt_sign_inv in Hat. destruct Hat as (key & d & Hsecret & Hkey & Hd & _).
  apply jwt_sign_inv in Hrt. destruct Hrt as (key' & d' & _ & _ & Hd' & _).
  exists key, d, d'. auto.
Qed.

(** What a registration that succeeds stored and answered. *)
Lemma register_returned_user `{Externals} (env : Env) (rnd : Rand) (now : Z)
    (body : RegisterBody.t) (w w' : World) (resp : Response RegisterResponse.t) :
  register env rnd now body w = (Returned resp, w') ->
  exists assigned adjusted accessToken refreshToken,
    let b := fst (registerValidation body) in
    let user := pre_save all_paths (password_salt rnd) (new_user (new_id rnd) b assigned) in
    snd (registerValidation body) = []
    /\ role_gate (RegisterBody.email b) (default "student" (RegisterBody.role b)) w
       = (Returned (assigned, adjusted), w)
    /\ (forall x, x ∈ users w ->
          User._id x <> User._id user /\ User.email x <> User.email user
          /\ (is_Some (User.studentId user) -> User.studentId x <> User.studentId user))
    /\ generateAuthToken env now user = Returned accessToken
    /\ generateRefreshToken env now user = Returned refreshToken
    /\ session_store_ready env
    /\ users w' = users w ++ [user]
    /\ approvals w' = approvals w
    /\ (forall t, redis w' !! blacklist t = redis w !! blacklist t)
    /\ resp = register_response env (default "student" (RegisterBody.role b)) adjusted user
                accessToken refreshToken.
Proof.
  intros Hreg. apply register_returned_inv in Hreg.
  destruct Hreg as (Hval & assigned & adjusted & user & at_ & rt & w1 & w2
                    & Hgate & Hsave & Hat & Hrt & Hstore & -> & ->).
  pose proof (User_save_new_fresh _ _ _ _ _ _ Hsave) as Hfresh.
  apply User_save_new_inv in Hsave. destruct Hsave as [-> ->].
  pose proof (store_refresh_hash_session_ready _ _ _ _ _ _ _ Hstore) as Hready.
  pose proof (store_refresh_hash_inv _ _ _ _ _ _ _ Hstore) as (Husers & Happrovals & Hoff & Hon).
  exists assigned, adjusted, at_, rt. cbv zeta.
  repeat split; try assumption; try reflexivity; try (apply Hfresh; assumption).
  intros t. simpl.
  destruct (isRedisEnabled env) eqn:Hredis.
  - rewrite (Hon eq_refl). simpl. apply lookup_insert_ne. discriminate.
  - rewrite (Hoff eq_refl). reflexivity.
Qed.

Lemma login_notice_total (user : User.t) (desiredRole : option string) (w : World) :
  exists n, login_notice user desiredRole w = (Returned n, w).
Proof.
  unfold login_notice. destruct desiredRole as [d|]; [| eexists; reflexivity].
  destruct (Js.truthy d && negb (bool_decide (d = User.role user)));
    [| eexists; reflexivity].
  unfold bind, RoleApproval_findOne_active.
  destruct (negb _); eexists; reflexivity.
Qed.

(** A login that finds an active user and the right password succeeds when
    the server can sign and store. *)
Lemma login_ok `{Externals} (env : Env) (rnd : Rand) (now : Z) (body : LoginBody.t)
    (w : World) (user : User.t) :
  snd (loginValidation body) = [] ->
  List.find (fun u => bool_decide
                        (User.email u = schema_email (normalizeEmail (LoginBody.email body))))
    (users w) = Some user ->
  User.isActive user = true ->
  User.comparePassword user (LoginBody.password body) = true ->
  can_sign env -> session_store_ready env ->
  exists r w',
    login env rnd now body w = (Returned (Json 200 r), w')
    /\ LoginResponse.user r = UserView.of_user (User.set_lastLogin now user)
    /\ LoginResponse.permissions r = User.permissions user.
Proof.
  intros Hval Hfind Hact Hpw Hsign Hready.
  unfold login.
  destruct (loginValidation body) as [b errors] eqn:Hv. simpl in Hval. subst errors.
  unfold loginValidation in Hv. injection Hv as <- _.
  cbn [LoginBody.email LoginBody.password LoginBody.desiredRole].
  rewrite (bind_step (User_findOne_email _) _ w w (Some user))
    by (unfold User_findOne_email; rewrite Hfind; reflexivity).
  rewrite Hact, Hpw. cbn [negb].
  rewrite (bind_step _ _ _ _ _ (updateLastLogin_eq now user w)).
  destruct (login_notice_total (User.set_lastLogin now user) (LoginBody.desiredRole body)
              (set_users (replace_user (User.set_lastLogin now user) (users w)) w))
    as (n & Hnotice).
  rewrite (bind_step _ _ _ _ _ Hnotice).
  destruct (generateTokens_ok env now (User.set_lastLogin now user) Hsign)
    as (at_ & rt & Hat & Hrt).
  rewrite (bind_step (lift (generateAuthToken env now _)) _ _ _ at_)
    by (unfold lift; rewrite Hat; reflexivity).
  rewrite (bind_step (lift (generateRefreshToken env now _)) _ _ _ rt)
    by (unfold lift; rewrite Hrt; reflexivity).
  destruct (store_refresh_hash_ready env now (token_salt rnd)
              (User._id (User.set_lastLogin now user)) rt
              (set_users (replace_user (User.set_lastLogin now user) (users w)) w) Hready)
    as (w2 & Hstore & _).
  rewrite (bind_step _ _ _ _ _ Hstore).
  eexists _, _. split; [reflexivity |]. split; reflexivity.
Qed.

(** X21.  Whoever registered can log in.  After a registration that
    succeeded, a login with the email and the password of the registration
    succeeds, at any time and whatever the salts, and it reports the user
    that was registered, with the role the registration assigned. *)
Theorem registered_user_can_log_in `{Externals} (env : Env) (rnd : Rand) (now : Z)
    (body : RegisterBody.t) (w w' : World) (resp : Response RegisterResponse.t) :
  register env rnd now body w = (Returned resp, w') ->
  forall rnd' now',
  exists r0 r w'',
    resp = Json 201 r0
    /\ login env rnd' now'
         (LoginBody.mk (RegisterBody.email body) (RegisterBody.password body) None) w'
       = (Returned (Json 200 r), w'')
    /\ UserView.id (LoginResponse.user r) = UserView.id (RegisterResponse.user r0)
    /\ UserView.email (LoginResponse.user r) = UserView.email (RegisterResponse.user r0)
    /\ UserView.role (LoginResponse.user r) = UserView.role (RegisterResponse.user r0).
Proof.
  intros Hreg rnd' now'. apply register_returned_user in Hreg.
  destruct Hreg as (assigned & adjusted & at_ & rt & Hreg). cbv zeta in Hreg.
  destruct Hreg as (Hval & _ & Hfresh & Hat & Hrt & Hready & Husers & _ & _ & ->).
  destruct (registerValidation_fields body Hval) as (Hemail & Hlen & Hbemail & Hbpw).
  set (b := fst (registerValidation body)) in *.
  set (user := pre_save all_paths (password_salt rnd) (new_user (new_id rnd) b assigned)) in *.
  assert (Hmail : User.email user = schema_email (normalizeEmail (RegisterBody.email body))).
  { subst user. rewrite (proj1 (proj2 (pre_save_fields _ _ _))).
    cbn [new_user User.email]. fold b. rewrite Hbemail. reflexivity. }
  destruct (login_ok env rnd' now'
              (LoginBody.mk (RegisterBody.email body) (RegisterBody.password body) None)
              w' user) as (r & w'' & Hlogin & Hview & _).
  - unfold loginValidation. cbn [snd LoginBody.email LoginBody.password LoginBody.desiredRole].
    rewrite Hemail.
    assert (Htruthy : Js.truthy (RegisterBody.password body) = true).
    { destruct (RegisterBody.password body); [simpl in Hlen; lia | reflexivity]. }
    rewrite Htruthy. reflexivity.
  - cbn [LoginBody.email]. rewrite Husers.
    rewrite find_app_none.
    + simpl. rewrite bool_decide_eq_true_2 by exact Hmail. reflexivity.
    + intros x Hx. apply bool_decide_eq_false_2. rewrite <- Hmail.
      exact (proj1 (proj2 (Hfresh x Hx))).
  - subst user. rewrite (proj2 (proj2 (proj2 (proj2 (pre_save_fields _ _ _))))).
    reflexivity.
  - subst user. rewrite pre_save_new_user. cbn [LoginBody.password].
    unfold User.comparePassword, bcrypt_compare, bcrypt_hash.
    cbn [User.passwordHash User.set_permissions User.set_passwordHash hashed_text].
    fold b. rewrite Hbpw. apply bool_decide_eq_true_2. reflexivity.
  - exact (tokens_can_sign env now user at_ rt Hat Hrt).
  - exact Hready.
  - eexists _, r, w''. split; [reflexivity |]. split; [exact Hlogin |].
    rewrite Hview. repeat split; reflexivity.
Qed.

(** X22.  Whoever registered is authenticated by the access token of the
    response.  While the token has not expired and is not blacklisted,
    [verifyToken] admits it and attaches the identity of the new user: the
    role the registration assigned and the default permissions of that
    role. *)
Theorem registered_user_authenticates `{Externals} (env : Env) (rnd : Rand) (now now' : Z)
    (body : RegisterBody.t) (w w' : World) (r0 : RegisterResponse.t) (d : Z) :
  register env rnd now body w = (Returned (Json 201 r0), w') ->
  timespan (Js.str_or (JWT_EXPIRES_IN env) "24h") = Some d ->
  now' < now + d ->
  redis w !! blacklist (Tokens.accessToken (RegisterResponse.tokens r0)) = None ->
  exists i w'',
    verifyToken env now' (Some (Bearer (Tokens.accessToken (RegisterResponse.tokens r0)))) w'
    = (Returned i, w'')
    /\ toString (Identity.id i) = UserView.id (RegisterResponse.user r0)
    /\ Identity.role i = UserView.role (RegisterResponse.user r0)
    /\ Identity.permissions i
       = default [] (User.table_lookup (Identity.role i) User.rolePermissions).
Proof.
  intros Hreg Hspan Hlive Hblack. apply register_returned_user in Hreg.
  destruct Hreg as (assigned & adjusted & at_ & rt & Hreg). cbv zeta in Hreg.
  destruct Hreg as (_ & _ & Hfresh & Hat & _ & Hready & Husers & _ & Hredis & Hresp).
  set (b := fst (registerValidation body)) in *.
  set (user := pre_save all_paths (password_salt rnd) (new_user (new_id rnd) b assigned)) in *.
  unfold register_response in Hresp. injection Hresp as ->. cbn [RegisterResponse.tokens
    RegisterResponse.user Tokens.accessToken] in *.
  unfold generateAuthToken in Hat. apply jwt_sign_inv in Hat.
  destruct Hat as (key & d' & Hsecret & Hkey & Hspan' & ->).
  assert (d' = d) as -> by congruence.
  eexists _, _. split.
  - eapply (verifyToken_admits env now' w' _ _ user).
    + apply session_store_ready_usable. exact Hready.
    + unfold blacklisted, Redis.get. rewrite Hredis, Hblack. apply andb_false_r.
    + unfold jwt_verify. rewrite Hsecret, Hkey.
      rewrite bool_decide_eq_true_2 by reflexivity. simpl.
      rewrite (proj2 (Z.leb_gt _ _)) by lia. reflexivity.
    + rewrite Husers. simpl. rewrite find_app_none.
      * simpl. rewrite bool_decide_eq_true_2 by reflexivity. reflexivity.
      * intros x Hx. apply bool_decide_eq_false_2. exact (proj1 (Hfresh x Hx)).
    + subst user. rewrite (proj2 (proj2 (proj2 (proj2 (pre_save_fields _ _ _))))).
      reflexivity.
  - split; [reflexivity |]. split; [reflexivity |].
    assert (Hperm : Identity.permissions (identity_of user)
                    = default [] (User.table_lookup (Identity.role (identity_of user))
                                    User.rolePermissions)).
    { subst user. rewrite pre_save_new_user. reflexivity. }
    exact Hperm.
Qed.

(** ** Registration with an approval on file *)

Lemma role_gate_approved (email role : string) (w : World) (a : RoleApproval.t) :
  Js.truthy role = true ->
  List.find (fun a => bool_decide (RoleApproval.email a = schema_email (Js.toLowerCase email))
                      && RoleApproval.isActive a) (approvals w) = Some a ->
  role ∈ RoleApproval.allowedRoles a ->
  role_gate email role w = (Returned (role, false), w).
Proof.
  intros Htruthy Hfind Hin. unfold role_gate. rewrite Htruthy.
  destruct (Js.truthy role && negb (bool_decide (role = "student"))); [| reflexivity].
  unfold bind, RoleApproval_findOne_active. rewrite Hfind.
  unfold Js.array_includes. rewrite bool_decide_eq_true_2 by exact Hin. reflexivity.
Qed.

(** A registration that passes the validator, collides with nothing and
    yields a valid document succeeds with the outcome of the role check. *)
Lemma register_succeeds `{Externals} (env : Env) (rnd : Rand) (now : Z)
    (body b : RegisterBody.t) (w : World) (assigned : string) (adjusted : bool) :
  registerValidation body = (b, []) ->
  role_gate (RegisterBody.email b) (default "student" (RegisterBody.role b)) w
  = (Returned (assigned, adjusted), w) ->
  unused w (new_id rnd) b ->
  User.validate all_paths (new_user (new_id rnd) b assigned) = [] ->
  can_sign env ->
  session_store_ready env ->
  exists accessToken refreshToken w',
    let user := pre_save all_paths (password_salt rnd) (new_user (new_id rnd) b assigned) in
    register env rnd now body w
    = (Returned (register_response env (default "student" (RegisterBody.role b)) adjusted
                   user accessToken refreshToken), w')
    /\ users w' = users w ++ [user].
Proof.
  intros Hv Hgate Hunused Hschema Hsign Hready.
  set (doc := new_user (new_id rnd) b assigned).
  set (user := pre_save all_paths (password_salt rnd) doc).
  destruct (pre_save_fields all_paths (password_salt rnd) doc)
    as (Eid & Eemail & Erole & Esid & _).
  assert (Hsave : User_save true all_paths (password_salt rnd) doc w
                  = (Returned user, set_users (users w ++ [user]) w)).
  { apply User_save_new_ok; [exact Hschema | | |].
    - intros x Hx. exact (proj1 (Hunused x Hx)).
    - intros x Hx. exact (proj1 (proj2 (Hunused x Hx))).
    - intros x Hx Hsome. simpl.
      destruct (RegisterBody.studentId b) as [sid|] eqn:Hsid; simpl.
      + exact (proj2 (proj2 (Hunused x Hx)) sid Hsid).
      + destruct Hsome as [? Hsome]. simpl in Hsome. rewrite Hsid in Hsome. discriminate. }
  destruct (generateTokens_ok env now user Hsign) as (at_ & rt & Hat & Hrt).
  destruct (store_refresh_hash_ready env now (token_salt rnd) (User._id user) rt
              (set_users (users w ++ [user]) w) Hready) as (w2 & Hstore & Husers).
  exists at_, rt, (add_audit (mkAudit "user_registration" (User._id user) true) w2).
  cbv zeta. split; [| simpl; rewrite Husers; reflexivity].
  unfold register. rewrite Hv.
  rewrite (bind_step (User_findOne_email (RegisterBody.email b)) _ w w None).
  2:{ unfold User_findOne_email. rewrite find_none_forall; [reflexivity |].
      intros x Hx. apply bool_decide_eq_false_2. exact (proj1 (proj2 (Hunused x Hx))). }
  rewrite (bind_step (ret tt) _ w w tt eq_refl).
  rewrite (bind_step _ _ w w tt).
  2:{ destruct (RegisterBody.studentId b) as [sid|] eqn:Hsid; [| reflexivity].
      destruct (Js.truthy sid); [| reflexivity].
      rewrite (bind_step (User_findOne_studentId sid) _ w w None); [reflexivity |].
      unfold User_findOne_studentId. rewrite find_none_forall; [reflexivity |].
      intros x Hx. apply bool_decide_eq_false_2.
      exact (proj2 (proj2 (Hunused x Hx)) sid Hsid). }
  rewrite (bind_step _ _ w w (assigned, adjusted) Hgate).
  cbv beta iota.
  rewrite (bind_step _ _ _ _ _ Hsave).
  rewrite (bind_step (lift (generateAuthToken env now user)) _ _ _ at_)
    by (unfold lift; rewrite Hat; reflexivity).
  rewrite (bind_step (lift (generateRefreshToken env now user)) _ _ _ rt)
    by (unfold lift; rewrite Hrt; reflexivity).
  rewrite (bind_step _ _ _ _ _ Hstore).
  reflexivity.
Qed.

(** X23.  A registration honours an approval on file.  When an active
    approval of the lowercased email lists the requested role, a
    registration that passes the validator, collides with no stored user and
    yields a document the schema accepts succeeds with status 201, the
    created user has the requested role and the default permissions of that
    role, and the response carries no notice. *)
Theorem register_approved_role_assigned `{Externals} (env : Env) (rnd : Rand) (now : Z)
    (body b : RegisterBody.t) (w : World) (r : string) (a : RoleApproval.t) :
  registerValidation body = (b, []) ->
  RegisterBody.role body = Some r ->
  List.find (fun a => bool_decide (RoleApproval.email a
                                   = schema_email (Js.toLowerCase (RegisterBody.email b)))
                      && RoleApproval.isActive a) (approvals w) = Some a ->
  r ∈ RoleApproval.allowedRoles a ->
  unused w (new_id rnd) b ->
  User.validate all_paths (new_user (new_id rnd) b r) = [] ->
  can_sign env ->
  session_store_ready env ->
  exists resp w' user,
    register env rnd now body w = (Returned (Json 201 resp), w')
    /\ users w' = users w ++ [user]
    /\ User.role user = r
    /\ User.permissions user = default [] (User.table_lookup r User.rolePermissions)
    /\ UserView.role (RegisterResponse.user resp) = r
    /\ RegisterResponse.roleNotice resp = None
    /\ RegisterResponse.message resp = "User registered successfully".
Proof.
  intros Hv Hrole Hfind Hin Hunused Hschema Hsign Hready.
  assert (Hval : snd (registerValidation body) = []) by (rewrite Hv; reflexivity).
  pose proof (registerValidation_ok_role body r Hval Hrole) as Hreg.
  pose proof (register_roles_truthy r Hreg) as Htruthy.
  assert (Hrole0 : RegisterBody.role b = Some r).
  { rewrite <- Hrole. change b with (fst (b, @nil string)). rewrite <- Hv.
    apply registerValidation_role. }
  destruct (register_succeeds env rnd now body b w r false Hv) as (at_ & rt & w' & Hok).
  - rewrite Hrole0. simpl. exact (role_gate_approved _ r w a Htruthy Hfind Hin).
  - exact Hunused.
  - exact Hschema.
  - exact Hsign.
  - exact Hready.
  - cbv zeta in Hok. destruct Hok as [Hregister Husers].
    eexists _, w', _. split; [exact Hregister |]. split; [exact Husers |].
    rewrite pre_save_new_user. repeat split; reflexivity.
Qed.

(** ** The unique indexes of the user collection *)

Lemma replace_user_fmap {B : Type} (f : User.t -> B) (u' : User.t) (l : list User.t) :
  (forall x, x ∈ l -> User._id x = User._id u' -> f x = f u') ->
  f <$> replace_user u' l = f <$> l.
Proof.
  unfold replace_user. induction l as [|x l IH]; intros Hsame; [reflexivity |].
  rewrite !fmap_cons. f_equal.
  - case_bool_decide as Hx; [| reflexivity].
    symmetry. apply Hsame; [apply list_elem_of_here | exact Hx].
  - apply IH. intros y Hy. apply Hsame. apply list_elem_of_further. exact Hy.
Qed.

Lemma replace_user_omap {B : Type} (f : User.t -> option B) (u' : User.t) (l : list User.t) :
  (forall x, x ∈ l -> User._id x = User._id u' -> f x = f u') ->
  omap f (replace_user u' l) = omap f l.
Proof.
  unfold replace_user. induction l as [|x l IH]; intros Hsame; [reflexivity |].
  assert (Hx : f (if bool_decide (User._id x = User._id u') then u' else x) = f x).
  { case_bool_decide as Hid; [| reflexivity].
    symmetry. apply Hsame; [apply list_elem_of_here | exact Hid]. }
  assert (Htail : omap f (map (fun x => if bool_decide (User._id x = User._id u')
                                        then u' else x) l) = omap f l).
  { apply IH. intros y Hy. apply Hsame. apply list_elem_of_further. exact Hy. }
  cbn. rewrite Hx. cbn in Htail. rewrite Htail. reflexivity.
Qed.

(** Replacing a stored document by one with the same keys keeps the
    indexes. *)
Lemma indexes_hold_replace (w w' : World) (u0 u' : User.t) :
  indexes_hold w ->
  List.find (fun x => bool_decide (User._id x = User._id u0)) (users w) = Some u0 ->
  User._id u' = User._id u0 -> User.email u' = User.email u0 ->
  User.studentId u' = User.studentId u0 ->
  users w' = replace_user u' (users w) ->
  indexes_hold w'.
Proof.
  intros (Hids & Hemails & Hsids) Hfind Eid Eemail Esid Husers.
  assert (Hin : u0 ∈ users w).
  { apply find_some in Hfind. apply list_elem_of_In. exact (proj1 Hfind). }
  assert (Hsame : forall x, x ∈ users w -> User._id x = User._id u' -> x = u0).
  { intros x Hx Hid. apply (NoDup_fmap_eq User._id (users w)); try assumption. congruence. }
  unfold indexes_hold. rewrite Husers.
  rewrite (replace_user_fmap User._id), (replace_user_fmap User.email),
    (replace_user_omap User.studentId).
  - repeat split; assumption.
  - intros x Hx Hid. rewrite (Hsame x Hx Hid). congruence.
  - intros x Hx Hid. rewrite (Hsame x Hx Hid). congruence.
  - intros x Hx Hid. exact Hid.
Qed.

(** Appending a document whose keys are free keeps the indexes. *)
Lemma indexes_hold_append (w w' : World) (u : User.t) :
  indexes_hold w ->
  (forall x, x ∈ users w ->
     User._id x <> User._id u /\ User.email x <> User.email u
     /\ (is_Some (User.studentId u) -> User.studentId x <> User.studentId u)) ->
  users w' = users w ++ [u] ->
  indexes_hold w'.
Proof.
  intros (Hids & Hemails & Hsids) Hfresh Husers.
  unfold indexes_hold. rewrite Husers, !fmap_app, omap_app.
  repeat split.
  - apply NoDup_app. split; [exact Hids |]. split; [| apply NoDup_singleton].
    intros i Hi Hi'. apply list_elem_of_fmap in Hi. destruct Hi as (x & -> & Hx).
    simpl in Hi'. apply list_elem_of_singleton in Hi'.
    exact (proj1 (Hfresh x Hx) Hi').
  - apply NoDup_app. split; [exact Hemails |]. split; [| apply NoDup_singleton].
    intros i Hi Hi'. apply list_elem_of_fmap in Hi. destruct Hi as (x & -> & Hx).
    simpl in Hi'. apply list_elem_of_singleton in Hi'.
    exact (proj1 (proj2 (Hfresh x Hx)) Hi').
  - apply NoDup_app. split; [exact Hsids |]. split.
    + intros s Hs Hs'. apply list_elem_of_omap in Hs. destruct Hs as (x & Hx & Hsx).
      simpl in Hs'. destruct (User.studentId u) as [su|] eqn:Hsu; simpl in Hs';
        [| inversion Hs'].
      apply list_elem_of_singleton in Hs'. subst su.
      apply (proj2 (proj2 (Hfresh x Hx))); [eauto | congruence].
    + simpl. destruct (User.studentId u); simpl; [apply NoDup_singleton | apply NoDup_nil_2].
Qed.

(** X24.  The handlers keep the unique indexes of the user collection.  If
    no two stored users share an [_id], an [email] or a [studentId], the
    same holds after every registration, login, password change, password
    reset and email verification that succeeds. *)
Theorem handlers_keep_indexes `{Externals} (env : Env) (rnd : Rand) (now : Z) (w : World) :
  indexes_hold w ->
  (forall body resp w', register env rnd now body w = (Returned resp, w') -> indexes_hold w')
  /\ (forall body resp w', login env rnd now body w = (Returned resp, w') -> indexes_hold w')
  /\ (forall authorization body resp w',
        changePassword env rnd now authorization body w = (Returned resp, w') ->
        indexes_hold w')
  /\ (forall body resp w',
        resetPassword env rnd now body w = (Returned resp, w') -> indexes_hold w')
  /\ (forall token resp w',
        verifyEmail env now token w = (Returned resp, w') -> indexes_hold w').
Proof.
  intros Hidx. split; [| split; [| split; [| split]]].
  - intros body resp w' Hreg. apply register_returned_user in Hreg.
    destruct Hreg as (assigned & adjusted & at_ & rt & Hreg). cbv zeta in Hreg.
    destruct Hreg as (_ & _ & Hfresh & _ & _ & _ & Husers & _).
    exact (indexes_hold_append w w' _ Hidx Hfresh Husers).
  - intros body resp w' Hlogin. apply login_returned_user in Hlogin.
    destruct Hlogin as (user0 & r & _ & Hfind & _ & _ & Husers & _).
    assert (Hin : user0 ∈ users w).
    { apply find_some in Hfind. apply list_elem_of_In. exact (proj1 Hfind). }
    apply (indexes_hold_replace w w' user0 (User.set_lastLogin now user0) Hidx);
      try reflexivity; [| exact Husers].
    exact (find_by_id_of_member w user0 (proj1 Hidx) Hin).
  - intros authorization body resp w' Hcp. apply changePassword_returned_inv in Hcp.
    destruct Hcp as (token & user & _ & _ & Hfind & _ & _ & _ & Husers & _).
    destruct (change_document_fields rnd body user) as (Eid & Eemail & _ & Esid & _).
    exact (indexes_hold_replace w w' user (change_document rnd body user)
             Hidx Hfind Eid Eemail Esid Husers).
  - intros body resp w' Hreset. apply resetPassword_returned_inv in Hreset.
    destruct Hreset as (t & c & user & _ & _ & _ & _ & _ & Hfind & _ & _ & Husers & _).
    destruct (reset_document_fields rnd body user) as (Eid & Eemail & _ & Esid & _).
    exact (indexes_hold_replace w w' user (reset_document rnd body user)
             Hidx Hfind Eid Eemail Esid Husers).
  - intros token resp w' Hv. apply verifyEmail_returned_inv in Hv.
    destruct Hv as (c & user & _ & _ & Hfind & _ & _ & Hcase).
    destruct Hcase as [(_ & -> & _) | (_ & Husers & _)]; [exact Hidx |].
    apply find_by_own_id in Hfind.
    exact (indexes_hold_replace w w' user (User.set_emailVerified true user) Hidx Hfind
             eq_refl eq_refl eq_refl Husers).
Qed.

(** ** The role approvals *)

(** X25.  The approvals are for administrators only.  When [requireAdmin]
    refuses the request (401 without identity, 403 for every role but
    admin), the three routes answer with that error and the approvals on
    file are neither read out nor changed. *)
Theorem approvals_are_for_administrators `{Externals} (user : option Identity.t)
    (e : JsError) (w : World) :
  requireAdmin user = Threw e ->
  (forall body, upsertRoleApproval user body w = (Threw e, w))
  /\ (forall email, getRoleApproval user email w = (Threw e, w))
  /\ (forall email, deleteRoleApproval user email w = (Threw e, w))
  /\ (user = None /\ err_statusCode e = Some 401
      \/ (exists i, user = Some i /\ Identity.role i <> "admin")
         /\ err_statusCode e = Some 403).
Proof.
  intros Hguard. split; [| split; [| split]].
  - intros body. unfold upsertRoleApproval, bind, lift. rewrite Hguard. reflexivity.
  - intros email. unfold getRoleApproval, bind, lift. rewrite Hguard. reflexivity.
  - intros email. unfold deleteRoleApproval, bind, lift. rewrite Hguard. reflexivity.
  - unfold requireAdmin, requireRole, Js.array_includes in Hguard.
    destruct user as [i|]; [| injection Hguard as <-; left; split; reflexivity].
    case_bool_decide as Hin; simpl in Hguard; [discriminate |].
    injection Hguard as <-. right. split; [| reflexivity].
    exists i. split; [reflexivity |]. intros Hadmin. apply Hin. rewrite Hadmin.
    apply list_elem_of_here.
Qed.

(** Whatever [verifyToken] refuses, it refuses with status 401 and without
    writing anything. *)
Lemma verifyToken_threw_inv (env : Env) (now : Z) (authorization : option AuthHeader)
    (w w' : World) (e : JsError) :
  verifyToken env now authorization w = (Threw e, w') ->
  (exists msg, e = ApiError 401 msg) /\ w' = w.
Proof.
  unfold verifyToken. destruct authorization as [h|];
    [| intros [= <- <-]; split; [eexists |]; reflexivity].
  destruct (negb (header_truthy h) || negb (startsWithBearer h));
    [intros [= <- <-]; split; [eexists |]; reflexivity |].
  unfold middleware, try_catch, bind, redis_get, lift, getRedisClient, User_findById,
    logAuth, next_err, next_ok, ret, throw, authenticationErrorHandler.
  destruct (isRedisEnabled env); [destruct (redisConnected env) |]; simpl;
    repeat match goal with
    | |- context [match Redis.get ?r ?n ?k with _ => _ end] =>
        destruct (Redis.get r n k) as [?v|]
    | |- context [if value_truthy ?v then _ else _] => destruct (value_truthy v)
    | |- context [match jwt_verify ?t ?s ?n with _ => _ end] =>
        destruct (jwt_verify t s n) as [?c|?e]
    | |- context [match List.find ?p ?l with _ => _ end] =>
        destruct (List.find p l) as [?u|]
    | |- context [if negb (User.isActive ?u) then _ else _] =>
        destruct (User.isActive u); simpl
    | |- context [bool_decide ?P] => destruct (bool_decide P)
    end;
    intros [= <- <-]; split; solve [eexists; reflexivity | reflexivity].
Qed.

(** ** Deactivating an account *)

Lemma find_replace_user_first (p : User.t -> bool) (u u' : User.t) (l : list User.t) :
  NoDup (User._id <$> l) ->
  List.find p l = Some u ->
  User._id u' = User._id u -> p u' = true ->
  List.find p (replace_user u' l) = Some u'.
Proof.
  intros Hids Hfind Hid Hp. unfold replace_user.
  induction l as [|x l IH]; [discriminate |].
  rewrite fmap_cons, NoDup_cons in Hids. destruct Hids as [Hnot Hnd].
  simpl in Hfind |- *.
  destruct (p x) eqn:Hpx.
  - injection Hfind as ->. rewrite bool_decide_eq_true_2 by (symmetry; exact Hid).
    rewrite Hp. reflexivity.
  - assert (Hin : u ∈ l).
    { apply find_some in Hfind. apply list_elem_of_In. exact (proj1 Hfind). }
    rewrite bool_decide_eq_false_2.
    + rewrite Hpx. exact (IH Hnd Hfind).
    + intros Heq. apply Hnot. rewrite Heq, Hid. apply list_elem_of_fmap_2. exact Hin.
Qed.

(** X28.  Deactivating an account locks its user out.  [deactivateAccount]
    stores the user with [isActive = false] and revokes no token: the Session
    Store is left as it was.  From then on a login with the email of the
    user is answered 403 whatever the password, a refresh with any token
    that names the user throws, and [verifyToken] refuses every token that
    names the user with status 401. *)
Theorem deactivateAccount_locks_out `{Externals} (env : Env) (user : User.t) (w : World) :
  indexes_hold w ->
  user ∈ users w ->
  exists w',
    deactivateAccount user w = (Returned (User.set_isActive false user), w')
    /\ redis w' = redis w
    /\ List.find (fun x => bool_decide (User._id x = User._id user)) (users w')
       = Some (User.set_isActive false user)
    /\ (forall rnd now body,
          snd (loginValidation body) = [] ->
          schema_email (normalizeEmail (LoginBody.email body)) = User.email user ->
          serve (login env rnd now body) w'
          = (Failure 403 "Account is deactivated. Please contact administrator.", w'))
    /\ (forall rnd now c key,
          sub (payload c) = User._id user ->
          exists e w'', refresh env rnd now (Some (Jws c key)) w' = (Threw e, w''))
    /\ (forall now c key,
          sub (payload c) = User._id user ->
          exists msg,
            verifyToken env now (Some (Bearer (Jws c key))) w'
            = (Threw (ApiError 401 msg), w')).
Proof.
  intros (Hids & Hemails & _) Hin.
  pose proof (find_by_id_of_member w user Hids Hin) as Hbyid.
  set (user' := User.set_isActive false user).
  assert (Hrun : deactivateAccount user w
                 = (Returned user', set_users (replace_user user' (users w)) w)).
  { unfold deactivateAccount.
    rewrite User_save_update_ok.
    - rewrite pre_save_untouched; [reflexivity | |];
        rewrite list_elem_of_singleton; discriminate.
    - apply validate_nothing_checked. intros path Hp.
      rewrite list_elem_of_singleton. intros ->.
      revert Hp. apply (bool_decide_unpack _). vm_compute. exact I. }
  exists (set_users (replace_user user' (users w)) w).
  assert (Hbyid' : List.find (fun x => bool_decide (User._id x = User._id user))
                     (replace_user user' (users w)) = Some user').
  { exact (find_replace_user user user' (users w) Hbyid). }
  clear Hbyid.
  split; [exact Hrun |]. clear Hrun.
  set (w' := set_users (replace_user user' (users w)) w).
  assert (Husers : users w' = replace_user user' (users w)) by reflexivity.
  assert (Hredis : redis w' = redis w) by reflexivity.
  clearbody w'. rewrite Husers.
  split; [exact Hredis |]. split; [exact Hbyid' |].
  split; [| split].
  - intros rnd now body Hval Hemail.
    assert (Hbyemail : List.find (fun u => bool_decide
                                    (User.email u
                                     = schema_email (normalizeEmail (LoginBody.email body))))
                         (replace_user user' (users w)) = Some user').
    { apply (find_replace_user_first _ user user' (users w) Hids); [| reflexivity |].
      - clear Hbyid'.
        destruct (List.find (fun u => bool_decide (User.email u = _)) (users w))
          as [x|] eqn:Hfind.
        + apply find_some in Hfind. destruct Hfind as [Hx Hmail].
          apply bool_decide_eq_true_1 in Hmail. apply list_elem_of_In in Hx.
          f_equal. apply (NoDup_fmap_eq User.email (users w) x user Hemails Hx Hin).
          congruence.
        + exfalso. apply list_elem_of_In in Hin.
          pose proof (find_none _ _ Hfind user Hin) as Hno. simpl in Hno.
          rewrite bool_decide_eq_true_2 in Hno by (symmetry; exact Hemail). discriminate.
      - apply bool_decide_eq_true_2. symmetry. exact Hemail. }
    unfold serve, login.
    destruct (loginValidation body) as [b errors] eqn:Hv. simpl in Hval. subst errors.
    unfold loginValidation in Hv. injection Hv as <- _.
    cbn [LoginBody.email LoginBody.password LoginBody.desiredRole].
    unfold bind at 1. unfold User_findOne_email.
    rewrite Husers, Hbyemail. reflexivity.
  - intros rnd now c key Hsub.
    destruct (refresh env rnd now (Some (Jws c key)) w') as [[resp|e] w''] eqn:Href;
      [| eauto].
    exfalso. apply refresh_returned_user in Href.
    destruct Href as (c' & found & Hverify & _ & Hfind & Hact & _).
    apply jwt_verify_returned in Hverify. destruct Hverify as (key' & [= <- <-] & _).
    simpl in Hfind. rewrite Husers, Hsub, Hbyid' in Hfind. injection Hfind as <-. discriminate.
  - intros now c key Hsub.
    destruct (verifyToken env now (Some (Bearer (Jws c key))) w') as [[i|e] w''] eqn:Hv.
    + exfalso. apply verifyToken_returned_inv in Hv.
      destruct Hv as (token & decoded & found & [= <-] & _ & Hverify & Hfind & Hact & _).
      apply jwt_verify_returned in Hverify. destruct Hverify as (key' & [= <- <-] & _).
      simpl in Hfind. rewrite Husers, Hsub, Hbyid' in Hfind. injection Hfind as <-. discriminate.
    + apply verifyToken_threw_inv in Hv. destruct Hv as ((msg & ->) & ->).
      exists msg. reflexivity.
Qed.

(** ** Lifetimes given with a unit *)






(** ** The further properties at work *)

Lemma world1_users : users Example.world1 = [Scenario.alice].
Proof. vm_compute. reflexivity. Qed.

Lemma world1_indexes : indexes_hold Example.world1.
Proof.
  unfold indexes_hold. rewrite world1_users.
  repeat split; vm_compute; repeat constructor; intros Hin; inversion Hin.
Qed.

Lemma check_refresh_hash_fst `{Externals} (env : Env) (now : Z) (id : ObjectId)
    (t : Token) (w : World) :
  fst (check_refresh_hash env now id t w) = Returned tt ->
  check_refresh_hash env now id t w = (Returned tt, w).
Proof.
  intros Hfst. pose proof (pair_eta_fst _ _ Hfst) as Hpair.
  rewrite Hpair. f_equal. exact (check_refresh_hash_world _ _ _ _ _ _ Hpair).
Qed.

(** X3 at work: the refresh token of Alice's registration is admitted as a
    bearer token. *)
Lemma verifyToken_admits_exactly_witness :
  exists i w',
    verifyToken Example.env 2000 (Some (Bearer Example.refresh1)) Example.world1
    = (Returned i, w')
    /\ Identity.role i = "student".
Proof.
  eexists (identity_of Scenario.alice), _. split; [| reflexivity].
  apply (proj2 (verifyToken_admits_exactly Example.env 2000 Example.world1 _
                  Example.refresh1 (identity_of Scenario.alice))).
  eexists _, Scenario.alice.
  split; [reflexivity |].
  split; [vm_compute; reflexivity |].
  split; [vm_compute; reflexivity |].
  split; [vm_compute; reflexivity |].
  split; [reflexivity |]. split; reflexivity.
Defined.

(** X4 at work: an administrator passes the guard of the mentors. *)
Lemma role_guards_form_a_ladder_witness :
  requireAdmin (Some (identity_of Scenario.root)) = Returned tt
  /\ requireMentor (Some (identity_of Scenario.root)) = Returned tt.
Proof.
  split; [reflexivity |].
  apply (proj1 (role_guards_form_a_ladder (Some (identity_of Scenario.root)))). reflexivity.
Defined.

(** X5 at work: Alice, a student, may read projects and events. *)
Lemma requirePermission_asks_for_all_witness :
  requirePermission (["read:projects"] ++ ["read:events"]) (Some (identity_of Scenario.alice))
  = Returned tt.
Proof.
  apply (proj1 (requirePermission_asks_for_all ["read:projects"] ["read:events"] Scenario.alice)).
  split; vm_compute; reflexivity.
Defined.

(** X6 at work: what Alice, a student, holds by default, an administrator
    holds by default as well (through team_member, mentor, researcher). *)
Lemma default_permissions_grow_with_role_witness :
  User.getDefaultPermissions Scenario.alice ⊆ User.getDefaultPermissions Scenario.root.
Proof.
  transitivity (User.getDefaultPermissions
                  (User.mk "" "" (Raw "") "" "" "researcher" None None None None
                     true false None [])).
  - transitivity (User.getDefaultPermissions
                    (User.mk "" "" (Raw "") "" "" "mentor" None None None None
                       true false None [])).
    + transitivity (User.getDefaultPermissions
                      (User.mk "" "" (Raw "") "" "" "team_member" None None None None
                         true false None [])).
      * apply default_permissions_grow_with_role. vm_compute.
        apply list_elem_of_further, list_elem_of_here.
      * apply default_permissions_grow_with_role.
        do 2 apply list_elem_of_further. apply list_elem_of_here.
    + apply default_permissions_grow_with_role.
      do 3 apply list_elem_of_further. apply list_elem_of_here.
  - apply default_permissions_grow_with_role.
    do 4 apply list_elem_of_further. apply list_elem_of_here.
Defined.

(** X7 at work: the administrator passes a guard on system permissions. *)
Lemma admin_defaults_pass_every_permission_guard_witness :
  requirePermission ["manage:system"; "delete:users"] (Some (identity_of Scenario.root))
  = Returned tt.
Proof.
  apply (admin_defaults_pass_every_permission_guard Scenario.root ["manage:system"; "delete:users"]).
  - reflexivity.
  - reflexivity.
  - repeat constructor; apply (bool_decide_unpack _); vm_compute; exact I.
Defined.

(** X8 at work: Alice leads a project and is one of its members; behind
    [verifyToken] the project guard refuses her. *)
Lemma member_guards_admit_only_admins_behind_verifyToken_witness :
  exists i,
    fst (verifyToken Example.env 2000 (Some (Bearer Example.access1)) Example.world1)
    = Returned i
    /\ requireProjectTeamMember
         (fun _ => Some (Project.mk (Some (User._id Scenario.alice)) None [User._id Scenario.alice]))
         (Some i) (Some "66aa00000000000000000001") None
       = Threw (ApiError 403 "Access denied. You are not a member of this project").
Proof.
  exists (identity_of Scenario.alice). split; [vm_compute; reflexivity |].
  assert (Hv : verifyToken Example.env 2000 (Some (Bearer Example.access1)) Example.world1
               = (Returned (identity_of Scenario.alice),
                  snd (verifyToken Example.env 2000 (Some (Bearer Example.access1))
                         Example.world1))).
  { apply pair_eta_fst. vm_compute. reflexivity. }
  rewrite (proj1 (member_guards_admit_only_admins_behind_verifyToken Example.env 2000
                    (Some (Bearer Example.access1)) Example.world1 _ (identity_of Scenario.alice)
                    Hv)
             (fun _ => Some (Project.mk (Some (User._id Scenario.alice)) None [User._id Scenario.alice]))
             (Some "66aa00000000000000000001") None
             (Project.mk (Some (User._id Scenario.alice)) None [User._id Scenario.alice]) eq_refl).
  reflexivity.
Defined.

(** X9 at work: the conflict of a second registration reaches the client
    as it was thrown. *)
Lemma errorHandler_keeps_api_errors_witness :
  errorHandler (B := unit) (conflictErrorHandler "User with this email already exists")
  = Failure 409 "User with this email already exists".
Proof.
  apply (errorHandler_keeps_api_errors (B := unit) 409 "User with this email already exists");
    [lia | discriminate | reflexivity].
Defined.

(** X11 at work: Alice logs in and asks for the role admin; she stays a
    student. *)
Lemma login_never_changes_roles_witness :
  exists resp,
    Forall2 (fun x x' => x' = x \/ x' = User.set_lastLogin 2000 x)
      (users Example.world1) (users (snd Scenario.login_as_admin))
    /\ approvals (snd Scenario.login_as_admin) = approvals Example.world1
    /\ exists r user,
         resp = Json 200 r /\ user ∈ users Example.world1
         /\ UserView.id (LoginResponse.user r) = User._id user
         /\ UserView.role (LoginResponse.user r) = User.role user
         /\ LoginResponse.permissions r = User.permissions user.
Proof.
  eexists.
  eapply (login_never_changes_roles (H := Reference.externals) Example.env Example.rnd 2000
            Scenario.alice_login_as_admin Example.world1 _ _ world1_indexes).
  apply pair_eta_fst. vm_compute. reflexivity.
Defined.


(** X13 at work: the login of Alice at 2000 found her account active. *)
Lemma sessions_only_for_active_users_witness :
  exists user,
    user ∈ users Example.world1 /\ User.isActive user = true
    /\ User.email user
       = schema_email (Js.toLowerCase (LoginBody.email Example.alice_login))
    /\ User.comparePassword user (LoginBody.password Example.alice_login) = true.
Proof.
  eapply (proj1 (sessions_only_for_active_users (H := Reference.externals) Example.env
                   Example.rnd 2000 Example.world1)
            Example.alice_login).
  apply pair_eta_fst. vm_compute. reflexivity.
Defined.

(** X14 at work: Alice's access token is no refresh token. *)
Lemma token_types_are_kept_apart_witness :
  refresh (H := Reference.externals) Example.env Example.rnd 2000 (Some Example.access1)
    Example.world1
  = (Threw (Error "Invalid token type"), Example.world1).
Proof.
  assert (Hc : exists c, jwt_verify Example.access1 (JWT_SECRET Example.env) 2000 = Returned c
                         /\ p_type (payload c) <> Some "refresh").
  { eexists. split; [vm_compute; reflexivity | discriminate]. }
  destruct Hc as (c & Hverify & Htype).
  exact (proj1 (proj1 (token_types_are_kept_apart (H := Reference.externals) Example.env
                         Example.rnd 2000 Example.access1 c Example.world1 Hverify) Htype)).
Defined.

(** X15 at work: after her logout at 4600 Alice's refresh token no longer
    refreshes and her access token is refused. *)
Lemma logout_signs_out_witness :
  exists c key,
    Example.refresh1 = Jws c key
    /\ (forall rnd' now' c' key',
          sub (payload c') = sub (payload c) ->
          exists e, refresh (H := Reference.externals) Example.env rnd' now'
                      (Some (Jws c' key')) (snd Scenario.logged_out)
                    = (Threw e, snd Scenario.logged_out))
    /\ (forall h now',
          Some (Bearer Example.access1) = Some h -> header_truthy h = true ->
          now' < 4600 + blacklist_ttl Example.env ->
          exists msg, verifyToken Example.env now' (Some h) (snd Scenario.logged_out)
                      = (Threw (ApiError 401 msg), snd Scenario.logged_out))
    /\ users (snd Scenario.logged_out) = users Example.world1
    /\ approvals (snd Scenario.logged_out) = approvals Example.world1.
Proof.
  eapply (logout_signs_out (H := Reference.externals) Example.env 4600 Example.refresh1
            (Some (Bearer Example.access1)) Example.world1).
  - reflexivity.
  - apply pair_eta_fst. vm_compute. reflexivity.
Defined.

(** X16 at work: Alice changes her password at 3000. *)
Lemma changePassword_sets_password_and_signs_out_witness :
  exists user user',
    List.find (fun x => bool_decide (User._id x = User._id user)) (users Example.world1)
    = Some user
    /\ List.find (fun x => bool_decide (User._id x = User._id user))
         (users (snd Scenario.password_changed)) = Some user'
    /\ (hashed_text id (User.passwordHash user)
        <> ChangePasswordBody.newPassword Scenario.new_password ->
        User.passwordHash user'
        = bcrypt_hash id (Raw (ChangePasswordBody.newPassword Scenario.new_password))
            (password_salt Example.rnd)
        /\ User.comparePassword user' (ChangePasswordBody.newPassword Scenario.new_password)
           = true)
    /\ (hashed_text id (User.passwordHash user)
        = ChangePasswordBody.newPassword Scenario.new_password ->
        user' = user
        /\ User.comparePassword user' (ChangePasswordBody.newPassword Scenario.new_password)
           = false)
    /\ User.role user' = User.role user
    /\ User.permissions user' = User.permissions user
    /\ (isRedisEnabled Example.env = true ->
        (forall rnd' now' c key,
           sub (payload c) = User._id user ->
           exists e, refresh (H := Reference.externals) Example.env rnd' now'
                       (Some (Jws c key)) (snd Scenario.password_changed)
                     = (Threw e, snd Scenario.password_changed))
        /\ (forall now', now' < 3000 + blacklist_ttl Example.env ->
              exists msg,
                verifyToken Example.env now' (Some (Bearer Example.access1))
                  (snd Scenario.password_changed)
                = (Threw (ApiError 401 msg), snd Scenario.password_changed)))
    /\ (isRedisEnabled Example.env = false ->
        redis (snd Scenario.password_changed) = redis Example.world1).
Proof.
  eapply (changePassword_sets_password_and_signs_out (H := Reference.externals) Example.env
            Example.rnd 3000 (Some (Bearer Example.access1)) Scenario.new_password Example.world1).
  apply pair_eta_fst. vm_compute. reflexivity.
Defined.

(** X17 at work: Alice's reset link, used at 2500, does not work again. *)
Lemma reset_token_is_single_use_witness :
  exists t c,
    ResetPasswordBody.token Scenario.reset_body = Some t
    /\ jwt_verify t (JWT_SECRET Example.env) 2500 = Returned c
    /\ redis (snd Scenario.password_reset_done) !! password_reset (sub (payload c)) = None
    /\ forall rnd' now', exists e,
         resetPassword (H := Reference.externals) Example.env rnd' now' Scenario.reset_body
           (snd Scenario.password_reset_done)
         = (Threw e, snd Scenario.password_reset_done).
Proof.
  eapply (reset_token_is_single_use (H := Reference.externals) Example.env Example.rnd 2500
            Scenario.reset_body (snd Scenario.forgot)).
  - reflexivity.
  - apply pair_eta_fst. vm_compute. reflexivity.
Defined.

(** X18 at work: the refresh token of Alice's registration passes the
    stored-hash check after the reset as it did before. *)
Lemma resetPassword_keeps_sessions_witness :
  check_refresh_hash (H := Reference.externals) Example.env 2600
    "65f0a1b2c3d4e5f601234567" Example.refresh1 (snd Scenario.password_reset_done)
  = (Returned tt, snd Scenario.password_reset_done).
Proof.
  assert (Hreset : exists resp,
            resetPassword (H := Reference.externals) Example.env Example.rnd 2500
              Scenario.reset_body (snd Scenario.forgot)
            = (Returned resp, snd Scenario.password_reset_done)).
  { eexists. apply pair_eta_fst. vm_compute. reflexivity. }
  destruct Hreset as (resp & Hreset).
  apply (proj2 (proj2 (resetPassword_keeps_sessions (H := Reference.externals) Example.env
                         Example.rnd 2500 Scenario.reset_body (snd Scenario.forgot)
                         (snd Scenario.password_reset_done) resp Hreset))
           2600 "65f0a1b2c3d4e5f601234567" Example.refresh1).
  apply check_refresh_hash_fst. vm_compute. reflexivity.
Defined.

(** X19 at work: Alice asks for a link at 2000 and sets a new password at
    2500. *)
Lemma reset_link_sets_the_password_witness :
  exists w1 w2 user',
    forgotPassword (H := Reference.externals) Example.env Example.rnd 2000
      "alice@example.com" Example.world1
    = (Returned
         (Json 200
            (MessageResponse.mk
               "If an account with that email exists, a password reset link has been sent")),
       w1)
    /\ resetPassword (H := Reference.externals) Example.env Example.rnd 2500
         (ResetPasswordBody.mk (Some (reset_token Scenario.alice "s3cret" 2000 3600)) "N3w$ecret!")
         w1
       = (Returned (Json 200 (MessageResponse.mk "Password reset successfully")), w2)
    /\ List.find (fun x => bool_decide (User._id x = User._id Scenario.alice)) (users w2)
       = Some user'
    /\ User.role user' = User.role Scenario.alice
    /\ User.permissions user' = User.permissions Scenario.alice
    /\ forall candidate,
         User.comparePassword user' candidate = true
         <-> bcrypt_input candidate = bcrypt_input "N3w$ecret!".
Proof.
  apply (reset_link_sets_the_password (H := Reference.externals) Example.env Example.rnd
           Example.rnd 2000 2500 "alice@example.com" "N3w$ecret!" Example.world1 Scenario.alice
           "s3cret" 3600).
  - exact world1_indexes.
  - vm_compute. reflexivity.
  - vm_compute. reflexivity.
  - reflexivity.
  - reflexivity.
  - reflexivity.
  - vm_compute. reflexivity.
  - reflexivity.
  - reflexivity.
  - lia.
  - lia.
  - vm_compute. reflexivity.
  - vm_compute. discriminate.
Defined.

(** X20 at work: Alice verifies her address at 2000, and once more. *)
Lemma verifyEmail_is_idempotent_witness :
  exists c user',
    jwt_verify Scenario.verify1 (JWT_SECRET Example.env) 2000 = Returned c
    /\ List.find (fun x => bool_decide (User._id x = sub (payload c)))
         (users (snd Scenario.email_verified)) = Some user'
    /\ User.emailVerified user' = true
    /\ forall now' c',
         jwt_verify Scenario.verify1 (JWT_SECRET Example.env) now' = Returned c' ->
         verifyEmail (H := Reference.externals) Example.env now' Scenario.verify1
           (snd Scenario.email_verified)
         = (Returned (Json 200 (MessageResponse.mk "Email already verified")),
            snd Scenario.email_verified).
Proof.
  eapply (verifyEmail_is_idempotent (H := Reference.externals) Example.env 2000 Scenario.verify1
            Example.world1).
  apply pair_eta_fst. vm_compute. reflexivity.
Defined.

(** X21 at work: Alice, registered at 1000, logs in at 2000. *)
Lemma registered_user_can_log_in_witness :
  exists resp r0 r w'',
    resp = Json 201 r0
    /\ login (H := Reference.externals) Example.env Example.rnd 2000
         (LoginBody.mk (RegisterBody.email (Example.alice_body None))
            (RegisterBody.password (Example.alice_body None)) None) Example.world1
       = (Returned (Json 200 r), w'')
    /\ UserView.id (LoginResponse.user r) = UserView.id (RegisterResponse.user r0)
    /\ UserView.email (LoginResponse.user r) = UserView.email (RegisterResponse.user r0)
    /\ UserView.role (LoginResponse.user r) = UserView.role (RegisterResponse.user r0).
Proof.
  eexists.
  eapply (registered_user_can_log_in (H := Reference.externals) Example.env Example.rnd 1000
            (Example.alice_body None) Example.empty Example.world1).
  apply pair_eta_fst. vm_compute. reflexivity.
Defined.

(** X22 at work: the access token of Alice's registration, presented at
    2000. *)
Lemma registered_user_authenticates_witness :
  exists r0 i w'',
    fst Example.registered = Returned (Json 201 r0)
    /\ verifyToken Example.env 2000
         (Some (Bearer (Tokens.accessToken (RegisterResponse.tokens r0)))) Example.world1
       = (Returned i, w'')
    /\ toString (Identity.id i) = UserView.id (RegisterResponse.user r0)
    /\ Identity.role i = UserView.role (RegisterResponse.user r0)
    /\ Identity.permissions i
       = default [] (User.table_lookup (Identity.role i) User.rolePermissions).
Proof.
  assert (Hreg : exists r0, fst Example.registered = Returned (Json 201 r0)).
  { eexists. vm_compute. reflexivity. }
  destruct Hreg as (r0 & Hreg). exists r0.
  destruct (registered_user_authenticates (H := Reference.externals) Example.env Example.rnd
              1000 2000 (Example.alice_body None) Example.empty Example.world1 r0 86400)
    as (i & w'' & Hverify & Hrest).
  - apply pair_eta_fst. exact Hreg.
  - vm_compute. reflexivity.
  - lia.
  - apply lookup_empty.
  - exists i, w''. split; [exact Hreg |]. split; [exact Hverify | exact Hrest].
Defined.

(** X23 at work: Bob asks for the role mentor, which is on file for his
    address. *)
Lemma register_approved_role_assigned_witness :
  exists resp w' user,
    register (H := Reference.externals) Example.env Example.rnd 1000 Scenario.bob_body
      Scenario.world_bob_approved
    = (Returned (Json 201 resp), w')
    /\ users w' = users Scenario.world_bob_approved ++ [user]
    /\ User.role user = "mentor"
    /\ User.permissions user = default [] (User.table_lookup "mentor" User.rolePermissions)
    /\ UserView.role (RegisterResponse.user resp) = "mentor"
    /\ RegisterResponse.roleNotice resp = None
    /\ RegisterResponse.message resp = "User registered successfully".
Proof.
  eapply (register_approved_role_assigned (H := Reference.externals) Example.env Example.rnd
            1000 Scenario.bob_body _ Scenario.world_bob_approved "mentor").
  - vm_compute. reflexivity.
  - reflexivity.
  - vm_compute. reflexivity.
  - apply list_elem_of_here.
  - intros x Hx. inversion Hx.
  - vm_compute. reflexivity.
  - exists "s3cret", 86400, 604800. repeat split; vm_compute; reflexivity.
  - right. split; [reflexivity | vm_compute; reflexivity].
Defined.

(** X24 at work: the registration of Alice in the empty store. *)
Lemma handlers_keep_indexes_witness :
  indexes_hold Example.empty /\ indexes_hold (snd Example.registered).
Proof.
  assert (Hempty : indexes_hold Example.empty) by (repeat split; constructor).
  split; [exact Hempty |].
  eapply (proj1 (handlers_keep_indexes (H := Reference.externals) Example.env Example.rnd
                   1000 Example.empty Hempty)
            (Example.alice_body None)).
  apply pair_eta_fst. vm_compute. reflexivity.
Defined.

(** X25 at work: Alice, a student, may not delete Bob's approval. *)
Lemma approvals_are_for_administrators_witness :
  exists e,
    requireAdmin (Some (identity_of Scenario.alice)) = Threw e
    /\ deleteRoleApproval (Some (identity_of Scenario.alice)) "bob@example.com"
         Scenario.world_bob_approved
       = (Threw e, Scenario.world_bob_approved)
    /\ err_statusCode e = Some 403.
Proof.
  assert (Hguard : exists e, requireAdmin (Some (identity_of Scenario.alice)) = Threw e).
  { vm_compute. eexists. reflexivity. }
  destruct Hguard as [e Hguard]. exists e.
  destruct (approvals_are_for_administrators (H := Reference.externals)
              (Some (identity_of Scenario.alice)) e Scenario.world_bob_approved Hguard)
    as (_ & _ & Hdelete & Hstatus).
  split; [exact Hguard |]. split; [apply Hdelete |].
  destruct Hstatus as [[Hnone _] | [_ Hs]]; [discriminate | exact Hs].
Defined.

(** X28 at work: Alice's account is deactivated. *)
Lemma deactivateAccount_locks_out_witness :
  exists w',
    deactivateAccount (H := Reference.externals) Scenario.alice Example.world1
    = (Returned (User.set_isActive false Scenario.alice), w')
    /\ redis w' = redis Example.world1
    /\ serve (login (H := Reference.externals) Example.env Example.rnd 2000
                Example.alice_login) w'
       = (Failure 403 "Account is deactivated. Please contact administrator.", w').
Proof.
  destruct (deactivateAccount_locks_out (H := Reference.externals) Example.env Scenario.alice
              Example.world1 world1_indexes)
    as (w' & Hrun & Hredis & _ & Hlogin & _).
  - rewrite world1_users. apply list_elem_of_here.
  - exists w'. split; [exact Hrun |]. split; [exact Hredis |].
    apply Hlogin; vm_compute; reflexivity.
Defined.


